(** * Financial consolidation tool: label reconciliation and sheet parsing

    A shallow embedding of [financial_consolidation_app.py]: the label
    normaliser, the income-sheet anchor search and parser, the merge/write
    engine with its gradient highlight, the Weston halving rule, the budget
    and prior-year extraction, the balance-sheet section parser, and the
    stages of the run that write the consolidated balance sheet, the
    Income_statement sheet, the highlights and last year's balance sheet.

    Conventions of the embedding.
    - A Python [str] is a list of code points.  Case mapping, [\w] and
      [str.isdigit] are given on the alphabet the workbooks use (ASCII and
      the two dashes of the punctuation class); whitespace is Python's full
      [str.isspace] set.
    - A cell holds [None], a text or a number; numbers are exact rationals,
      except in the highlight colour, which is computed in binary64.
    - A Python [dict] is an association list with unique keys in insertion
      order; an openpyxl worksheet is a finite map from (row, column).
    - A function that can raise returns [result]. *)

From Stdlib Require Import ZArith NArith QArith List Bool Ascii String Floats Lia DecimalString.
From stdpp Require Import base gmap.
Import ListNotations.

(* ===================================================================== *)
(** ** Text *)
(* ===================================================================== *)

Module Text.

(** A code point, and a text. *)
Abbreviation char := N (only parsing).
Abbreviation text := (list N) (only parsing).

(** A literal of the source, as code points. *)
Definition txt (s : string) : text := List.map N_of_ascii (list_ascii_of_string s).

Definition text_eqb (a b : text) : bool := bool_decide (a = b).

Definition between (lo hi c : N) : bool := ((lo <=? c) && (c <=? hi))%N.

(** [str.isspace], which is also [\s] of [re] on a [str] pattern. *)
Definition is_space (c : char) : bool :=
  between 9 13 c || between 28 32 c || (c =? 133)%N || (c =? 160)%N
  || (c =? 5760)%N || between 8192 8202 c || (c =? 8232)%N || (c =? 8233)%N
  || (c =? 8239)%N || (c =? 8287)%N || (c =? 12288)%N.

Definition is_digit (c : char) : bool := between 48 57 c.
Definition is_upper (c : char) : bool := between 65 90 c.
Definition is_lower (c : char) : bool := between 97 122 c.

(** [\w] of [re]: alphanumeric or underscore. *)
Definition is_word (c : char) : bool :=
  is_digit c || is_upper c || is_lower c || (c =? 95)%N.

Definition lower_char (c : char) : char := if is_upper c then (c + 32)%N else c.
Definition upper_char (c : char) : char := if is_lower c then (c - 32)%N else c.

Definition lower (s : text) : text := List.map lower_char s.
Definition upper (s : text) : text := List.map upper_char s.

Fixpoint lstrip (s : text) : text :=
  match s with
  | c :: s' => if is_space c then lstrip s' else s
  | [] => []
  end.

Fixpoint rstrip (s : text) : text :=
  match s with
  | c :: s' =>
      match rstrip s' with
      | [] => if is_space c then [] else [c]
      | r => c :: r
      end
  | [] => []
  end.

(** [str.strip()] *)
Definition strip (s : text) : text := rstrip (lstrip s).

Fixpoint starts_with (p s : text) : bool :=
  match p, s with
  | [], _ => true
  | a :: p', b :: s' => (a =? b)%N && starts_with p' s'
  | _ :: _, [] => false
  end.

(** [p in s] *)
Fixpoint contains (p s : text) : bool :=
  starts_with p s || match s with [] => false | _ :: s' => contains p s' end.

Definition space : char := 32%N.

End Text.
Export Text.

(* ===================================================================== *)
(** ** The fragment of [re] the program uses *)
(* ===================================================================== *)

Module Regex.

(** The patterns of the program are sequences of literal characters,
    [\s+], [\s*], [\d+] and optional literals, between anchors, word
    boundaries or nothing.  Every repetition in them is followed by a
    literal outside its class or by the end of the pattern, and every
    optional literal by a different literal, so taking the longest run is
    what the backtracking matcher of [re] ends up with. *)
Inductive atom :=
  | Lit (c : char)
  | Spaces1
  | Spaces0
  | Digits1
  | Opt (c : char).

Definition lits (s : string) : list atom := List.map Lit (txt s).

Definition char_matches (ignorecase : bool) (p c : char) : bool :=
  if ignorecase then (lower_char p =? lower_char c)%N else (p =? c)%N.

(** Skip a run of characters of a class; [prev] is the character just
    before [s]. *)
Fixpoint skip_run (cls : char -> bool) (prev : option char) (s : text)
  : option char * text :=
  match s with
  | c :: s' => if cls c then skip_run cls (Some c) s' else (prev, s)
  | [] => (prev, [])
  end.

Definition skip_spaces := skip_run is_space.

(** Match the atoms at the head of [s].  The result is the rest of the
    subject and the last character before it. *)
Fixpoint match_atoms (ic : bool) (p : list atom) (prev : option char) (s : text)
  : option (option char * text) :=
  match p with
  | [] => Some (prev, s)
  | Lit a :: p' =>
      match s with
      | c :: s' => if char_matches ic a c then match_atoms ic p' (Some c) s' else None
      | [] => None
      end
  | Spaces1 :: p' =>
      match s with
      | c :: s' =>
          if is_space c
          then let '(prev', rest) := skip_spaces (Some c) s' in match_atoms ic p' prev' rest
          else None
      | [] => None
      end
  | Spaces0 :: p' =>
      let '(prev', rest) := skip_spaces prev s in match_atoms ic p' prev' rest
  | Digits1 :: p' =>
      match s with
      | c :: s' =>
          if is_digit c
          then let '(prev', rest) := skip_run is_digit (Some c) s' in
               match_atoms ic p' prev' rest
          else None
      | [] => None
      end
  | Opt a :: p' =>
      match s with
      | c :: s' =>
          if char_matches ic a c then match_atoms ic p' (Some c) s'
          else match_atoms ic p' prev s
      | [] => match_atoms ic p' prev s
      end
  end.

Definition is_word_opt (c : option char) : bool :=
  match c with Some c => is_word c | None => false end.

(** [\b] between the character [prev] and the head of [s]. *)
Definition word_boundary (prev : option char) (s : text) : bool :=
  xorb (is_word_opt prev) (is_word_opt (head s)).

(** [\b p \b] matched at the head of [s]. *)
Definition match_word_phrase (ic : bool) (p : list atom) (prev : option char) (s : text)
  : option text :=
  if word_boundary prev s then
    match match_atoms ic p prev s with
    | Some (last, rest) => if word_boundary last rest then Some rest else None
    | None => None
    end
  else None.

(** [re.sub(pattern, repl, s)] for a pattern that matches no empty string:
    leftmost matches, left to right, none overlapping.  [m prev s] is the
    pattern tried at the head of [s] (the rest of the subject when it
    matches); [skip] counts the characters of the current match that are
    still to be passed over. *)
Fixpoint sub_from (m : option char -> text -> option text) (repl : text)
  (prev : option char) (s : text) (skip : nat) : text :=
  match s with
  | [] => []
  | c :: s' =>
      match skip with
      | S k => sub_from m repl (Some c) s' k
      | O =>
          match m prev s with
          | Some rest =>
              match (length s - length rest)%nat with
              | O => repl ++ c :: sub_from m repl (Some c) s' 0
              | S k => repl ++ sub_from m repl (Some c) s' k
              end
          | None => c :: sub_from m repl (Some c) s' 0
          end
      end
  end.

Definition re_sub (m : option char -> text -> option text) (repl s : text) : text :=
  sub_from m repl None s 0.

(** [re.sub(r'\b p \b', repl, s)] *)
Definition sub_word_phrase (p : list atom) (repl : text) (s : text) : text :=
  re_sub (match_word_phrase false p) repl s.

(** [re.search(r'\b p \b', s, re.IGNORECASE)] as a truth value. *)
Fixpoint search_from (p : list atom) (prev : option char) (s : text) : bool :=
  match match_word_phrase true p prev s with
  | Some _ => true
  | None => match s with [] => false | c :: s' => search_from p (Some c) s' end
  end.

Definition search_word_phrase_ic (p : list atom) (s : text) : bool :=
  search_from p None s.

(** [re.compile(r'^\s*word\s*$', re.IGNORECASE).match(s)] as a truth value. *)
Definition match_whole_line_ic (word : string) (s : text) : bool :=
  match match_atoms true (Spaces0 :: lits word ++ [Spaces0]) None s with
  | Some (_, []) => true
  | _ => false
  end.

(** [re.sub(r'\s+', ' ', s)] *)
Fixpoint collapse_spaces (in_run : bool) (s : text) : text :=
  match s with
  | [] => []
  | c :: s' =>
      if is_space c
      then if in_run then collapse_spaces true s' else space :: collapse_spaces true s'
      else c :: collapse_spaces false s'
  end.

End Regex.
Export Regex.

(* ===================================================================== *)
(** ** [normalize_label] *)
(* ===================================================================== *)

(** The class [[\/,\(\)\—\–\-\:]]. *)
Definition is_label_punct (c : char) : bool :=
  (c =? 47)%N || (c =? 44)%N || (c =? 40)%N || (c =? 41)%N
  || (c =? 8212)%N || (c =? 8211)%N || (c =? 45)%N || (c =? 58)%N.

Definition punct_to_space (s : text) : text :=
  List.map (fun c => if is_label_punct c then space else c) s.

(** The [synonyms] table, in the order of the dict literal. *)
Definition synonyms : list (list atom * text) :=
  [ (lits "industrial rent", txt "rental income");
    (lits "retail rental income", txt "rental income");
    (lits "office rent", txt "rental income");
    (lits "rental revenue", txt "rental income");
    (lits "rental income", txt "rental income");
    (lits "lease - cp rail", txt "rent");
    (lits "merchandise revenue", txt "merchandise income");
    (lits "merchandise income", txt "merchandise income");
    (lits "insurance revenue", txt "insurance income");
    (lits "insurance income", txt "insurance income");
    (lits "truck rental", txt "truck rental");
    (lits "uhaul", txt "truck rental");
    (lits "bad debt", txt "bad debt");
    (lits "bad debts", txt "bad debt");
    (lits "office supplies", txt "office");
    (lits "professional fees", txt "professional");
    (lits "property mgt. fee", txt "management fee");
    (lits "management fee", txt "management fee");
    (lits "amortization/finance cost", txt "amortization");
    (lits "amortization/finance costs", txt "amortization");
    (lits "amortization", txt "amortization");
    (lits "depreciation", txt "depreciation");
    (lits "mortgage interest", txt "mortgage interest");
    (lits "mortgage loan interest", txt "mortgage interest");
    (lits "legal fee", txt "legal fees");
    (lits "legal fees", txt "legal fees");
    (lits "lease payment", txt "lease payment");
    (lits "gain on sale of asset", txt "gain/loss on investment");
    (lits "gain/loss on investment", txt "gain/loss on investment");
    (lits "other income", txt "other income");
    (lits "other revenue", txt "other income");
    (lits "utilities", txt "utilities");
    (lits "maintenance & repairs", txt "maintenance");
    (lits "maintenance", txt "maintenance");
    (lits "insurance", txt "insurance");
    (lits "advertising", txt "advertising");
    (lits "bank charges", txt "bank charges");
    (lits "realty taxes", txt "realty taxes");
    (lits "realty tax", txt "realty taxes");
    (lits "salaries & benefits", txt "salaries");
    (lits "salaries", txt "salaries");
    (lits "telephone", txt "telephone");
    (lits "office", txt "office");
    (lits "lease" ++ Spaces1 :: lits "cp" ++ Spaces1 :: lits "rail", txt "rent") ].

(** The loop [for pat, replacement in synonyms.items(): s = re.sub(...)]. *)
Definition apply_synonyms (rules : list (list atom * text)) (s : text) : text :=
  fold_left (fun s r => sub_word_phrase (fst r) (snd r) s) rules s.

(** The statements of [normalize_label] before the synonym loop. *)
Definition clean_label (raw : text) : text :=
  collapse_spaces false (punct_to_space (strip (lower raw))).

Definition normalize_label (raw : text) : text :=
  match raw with
  | [] => []
  | _ => strip (apply_synonyms synonyms (clean_label raw))
  end.


(* ===================================================================== *)
(** ** Values, exceptions, dicts and worksheets *)
(* ===================================================================== *)

(** What a cell of a workbook or of a pandas grid holds: nothing ([None],
    [NaN]), a text, or a number. *)
Inductive value :=
  | VNone
  | VStr (s : text)
  | VNum (q : Q).

(** Python's truth value of a cell value. *)
Definition truthy (v : value) : bool :=
  match v with
  | VNone => false
  | VStr [] => false
  | VStr (_ :: _) => true
  | VNum q => negb (Qeq_bool q 0)
  end.

Inductive exn :=
  | AttributeError
  | TypeError
  | ZeroDivisionError
  | IndexError
  | KeyError
  | ValueError
  | OtherError.

Inductive result (A : Type) :=
  | Ok (a : A)
  | Raise (e : exn).
Arguments Ok {A} a.
Arguments Raise {A} e.

#[export] Instance result_bind : MBind result := fun A B f x =>
  match x with
  | Ok a => f a
  | Raise e => Raise e
  end.

(** A Python [dict] keyed by text: unique keys, in insertion order. *)
Definition dict (V : Type) := list (text * V).

Fixpoint dict_get {V} (d : dict V) (k : text) : option V :=
  match d with
  | [] => None
  | (k', v) :: d' => if text_eqb k k' then Some v else dict_get d' k
  end.

(** [d[k] = v] *)
Fixpoint dict_set {V} (d : dict V) (k : text) (v : V) : dict V :=
  match d with
  | [] => [(k, v)]
  | (k', v') :: d' => if text_eqb k k' then (k', v) :: d' else (k', v') :: dict_set d' k v
  end.

(** [d.pop(k)]'s effect on the dict. *)
Fixpoint dict_remove {V} (d : dict V) (k : text) : dict V :=
  match d with
  | [] => []
  | (k', v') :: d' => if text_eqb k k' then d' else (k', v') :: dict_remove d' k
  end.

Definition dict_keys {V} (d : dict V) : list text := List.map fst d.

(** [PatternFill(start_color=.., end_color=.., fill_type=..)] *)
Record pattern_fill := {
  start_color : text;
  end_color : text;
  fill_type : text
}.

(** An openpyxl worksheet: its dimensions as loaded and its cells, by
    1-based (row, column).  A cell that was never written reads [None]. *)
Record worksheet := {
  max_row : nat;
  max_column : nat;
  cells : gmap (nat * nat) value;
  fills : gmap (nat * nat) pattern_fill
}.

(** [ws.cell(row=r, column=c).value] *)
Definition cell_value (ws : worksheet) (r c : nat) : value :=
  default VNone (cells ws !! (r, c)).

Definition cell_fill (ws : worksheet) (r c : nat) : option pattern_fill :=
  fills ws !! (r, c).

(** [ws.cell(row=r, column=c).value = v] *)
Definition set_value (ws : worksheet) (r c : nat) (v : value) : worksheet :=
  {| max_row := max_row ws; max_column := max_column ws;
     cells := <[(r, c) := v]> (cells ws); fills := fills ws |}.

(** [ws.cell(row=r, column=c).fill = f] *)
Definition set_fill (ws : worksheet) (r c : nat) (f : pattern_fill) : worksheet :=
  {| max_row := max_row ws; max_column := max_column ws;
     cells := cells ws; fills := <[(r, c) := f]> (fills ws) |}.

(** [(v or "").strip()]: a number that is not zero has no [strip]. *)
Definition stripped_text (v : value) : result text :=
  match v with
  | VNone => Ok []
  | VStr s => Ok (strip s)
  | VNum q => if Qeq_bool q 0 then Ok [] else Raise AttributeError
  end.

(** [range(a, b)] *)
Definition range (a b : nat) : list nat := seq a (b - a).

(* ===================================================================== *)
(** ** The income-statement section locator *)
(* ===================================================================== *)

Record anchors := {
  rev_start : option nat;
  exp_start : option nat;
  inc_start : option nat
}.

Definition no_anchors : anchors :=
  {| rev_start := None; exp_start := None; inc_start := None |}.

Definition is_none {A} (o : option A) : bool :=
  match o with None => true | Some _ => false end.

(** The [if]/[elif] chain of the first loop of [find_anchor_rows]. *)
Definition scan_row (val : text) (row : nat) (a : anchors) : anchors :=
  if is_none (rev_start a) && match_whole_line_ic "revenue" val then
    {| rev_start := Some row; exp_start := exp_start a; inc_start := inc_start a |}
  else if is_none (exp_start a) && match_whole_line_ic "expenses" val then
    {| rev_start := rev_start a; exp_start := Some row; inc_start := inc_start a |}
  else if is_none (inc_start a) && match_whole_line_ic "income" val then
    {| rev_start := rev_start a; exp_start := exp_start a; inc_start := Some row |}
  else a.

(** [rev_start and exp_start and inc_start]: rows count from 1, so a row
    that is set is true. *)
Definition all_found (a : anchors) : bool :=
  negb (is_none (rev_start a)) && negb (is_none (exp_start a))
  && negb (is_none (inc_start a)).

(** The first loop of [find_anchor_rows], over the rows still to visit. *)
Fixpoint scan_anchors (ws : worksheet) (rows : list nat) (a : anchors) : result anchors :=
  match rows with
  | [] => Ok a
  | row :: rest =>
      val ← stripped_text (cell_value ws row 1);
      let a' := scan_row val row a in
      if all_found a' then Ok a' else scan_anchors ws rest a'
  end.

(** [normalize_label(ws.cell(row=r, column=1).value or "") == target].
    A number in the cell is normalised from its printed form, which is
    digits, signs, a point or an exponent and so none of the targets. *)
Definition label_is (ws : worksheet) (target : string) (r : nat) : bool :=
  match cell_value ws r 1 with
  | VStr s => text_eqb (normalize_label s) (txt target)
  | _ => false
  end.

Definition find_anchor_rows (ws : worksheet) : result anchors :=
  a ← scan_anchors ws (range 1 (max_row ws + 1)) no_anchors;
  let rev :=
    match rev_start a with
    | Some r => Some r
    | None =>
        option_map (fun r => Nat.max (r - 1) 1)
          (List.find (label_is ws "rental income") (range 1 (max_row ws + 1)))
    end in
  let exp :=
    match exp_start a, rev with
    | None, Some rv =>
        option_map (fun r => Nat.max (r - 1) (rv + 1))
          (List.find (label_is ws "advertising") (range (rv + 1) (max_row ws + 1)))
    | e, _ => e
    end in
  let inc :=
    match inc_start a, exp with
    | None, Some ex =>
        option_map (fun r => Nat.max (r - 1) (ex + 1))
          (List.find (label_is ws "management fee") (range (ex + 1) (max_row ws + 1)))
    | i, _ => i
    end in
  Ok {| rev_start := rev; exp_start := exp; inc_start := inc |}.

(** [re.search(pattern, s, re.IGNORECASE)] for a pattern with no anchor. *)
Fixpoint search_atoms_ic (p : list atom) (prev : option char) (s : text) : bool :=
  match match_atoms true p prev s with
  | Some _ => true
  | None => match s with [] => false | c :: s' => search_atoms_ic p (Some c) s' end
  end.

(** The header search shared by [find_ytd_column] and [find_month_column]:
    rows 1 to 5, columns left to right, the first text cell the pattern is
    found in. *)
Definition find_header_column (p : list atom) (fallback : nat) (ws : worksheet) : nat :=
  let hit rc :=
    match cell_value ws (fst rc) (snd rc) with
    | VStr s => search_atoms_ic p None s
    | _ => false
    end in
  match List.find hit
          (List.flat_map (fun r => List.map (fun c => (r, c)) (range 1 (max_column ws + 1)))
             (range 1 6)) with
  | Some rc => snd rc
  | None => fallback
  end.

(** [y\.?t\.?d] *)
Definition find_ytd_column : worksheet -> nat :=
  find_header_column [Lit 121%N; Opt 46%N; Lit 116%N; Opt 46%N; Lit 100%N] 8.

(** [Month] *)
Definition find_month_column : worksheet -> nat :=
  find_header_column (lits "Month") 2.

Section IncomeSheet.

(** Python's [str] of a number; the program prints a number only where a
    label cell holds one. *)
Variable str_of_number : Q -> text.

(** [str(raw_label)] of a cell value that is true. *)
Definition str_of_value (v : value) : text :=
  match v with
  | VStr s => s
  | VNum q => str_of_number q
  | VNone => txt "None"
  end.

(** [ws.cell(..).value or 0], as the right operand of [number + val]:
    a text that is not empty cannot be added to a number. *)
Definition amount_or_zero (v : value) : result Q :=
  match v with
  | VNone => Ok 0%Q
  | VStr [] => Ok 0%Q
  | VStr (_ :: _) => Raise TypeError
  | VNum q => Ok q
  end.

(** [d[key] = d.get(key, 0) + val] *)
Definition accumulate (d : dict Q) (key : text) (val : Q) : dict Q :=
  dict_set d key (Qplus (default 0%Q (dict_get d key)) val).

(** The revenue and the expenses loop: every row of the band, rows with
    no label or with the band's total phrase passed over. *)
Fixpoint parse_band (ws : worksheet) (col : nat) (total : list atom)
  (rows : list nat) (d : dict Q) : result (dict Q) :=
  match rows with
  | [] => Ok d
  | r :: rest =>
      let raw_label := cell_value ws r 1 in
      if negb (truthy raw_label) then parse_band ws col total rest d
      else
        let t := str_of_value raw_label in
        if search_word_phrase_ic total t then parse_band ws col total rest d
        else
          val ← amount_or_zero (cell_value ws r col);
          parse_band ws col total rest (accumulate d (normalize_label t) val)
  end.

(** The income loop: it stops at the first row with no label, with
    [total] or with [net rental income]. *)
Fixpoint parse_income_band (ws : worksheet) (col : nat) (rows : list nat) (d : dict Q)
  : result (dict Q) :=
  match rows with
  | [] => Ok d
  | r :: rest =>
      let raw_label := cell_value ws r 1 in
      if negb (truthy raw_label) then Ok d
      else
        let t := str_of_value raw_label in
        if search_word_phrase_ic (lits "total") t
           || search_word_phrase_ic (lits "net rental income") t
        then Ok d
        else
          val ← amount_or_zero (cell_value ws r col);
          parse_income_band ws col rest (accumulate d (normalize_label t) val)
  end.

(** The body shared by [parse_income_sheet_ytd] and
    [parse_income_sheet_month]; [find_col] is the column search of each. *)
Definition parse_income_sheet (find_col : worksheet -> nat) (ws : worksheet)
  : result (dict Q * dict Q * dict Q) :=
  a ← find_anchor_rows ws;
  match rev_start a, exp_start a, inc_start a with
  | Some rev_row, Some exp_row, Some inc_row =>
      let col := find_col ws in
      rev_dict ← parse_band ws col (lits "total revenue")
                    (range (rev_row + 1) exp_row) [];
      exp_dict ← parse_band ws col (lits "total operating expenses")
                    (range (exp_row + 1) inc_row) [];
      inc_dict ← parse_income_band ws col (range (inc_row + 1) (max_row ws + 1)) [];
      Ok (rev_dict, exp_dict, inc_dict)
  | _, _, _ => Ok ([], [], [])
  end.

Definition parse_income_sheet_ytd : worksheet -> result (dict Q * dict Q * dict Q) :=
  parse_income_sheet find_ytd_column.

Definition parse_income_sheet_month : worksheet -> result (dict Q * dict Q * dict Q) :=
  parse_income_sheet find_month_column.

End IncomeSheet.

(* ===================================================================== *)
(** ** The merge/write engine *)
(* ===================================================================== *)

(** [process.extractOne(query, choices, scorer=...)] of fuzzywuzzy, a
    library outside the repository, by its contract: every choice is
    scored, the best score wins and the first choice wins a tie; no choice,
    no result.  [score q c] is the library's score of choice [c] for query
    [q], its default processing of both included. *)
Fixpoint extractOne (score : text -> text -> Z) (query : text) (choices : list text)
  : option (text * Z) :=
  match choices with
  | [] => None
  | c :: cs =>
      let sc := score query c in
      match extractOne score query cs with
      | Some (b, sb) => if (sc <? sb)%Z then Some (b, sb) else Some (c, sc)
      | None => Some (c, sc)
      end
  end.

(** [int(x)] of a binary64 number: truncation towards zero. *)
Definition int_of_float (f : float) : Z :=
  match Prim2SF f with
  | S754_finite s m e =>
      let v := if (0 <=? e)%Z then (Z.pos m * 2 ^ e)%Z else (Z.pos m / 2 ^ (- e))%Z in
      if s then (- v)%Z else v
  | _ => 0%Z
  end.

(** The binary64 number nearest to an integer. *)
Definition float_of_int (z : Z) : float :=
  SF2Prim (binary_normalize prec emax z 0 false).

Definition hex_digit (d : Z) : char :=
  if (d <? 10)%Z then Z.to_N (48 + d) else Z.to_N (55 + d).

Fixpoint hex_digits (fuel : nat) (n : Z) (acc : text) : text :=
  match fuel with
  | O => acc
  | S fuel' =>
      let acc' := hex_digit (n mod 16) :: acc in
      if (n / 16 =? 0)%Z then acc' else hex_digits fuel' (n / 16) acc'
  end.

(** [f"{n:02X}"] *)
Definition format_02X (n : Z) : text :=
  let digits := hex_digits (S (Z.to_nat (Z.log2 (Z.abs n)))) (Z.abs n) [] in
  if (n <? 0)%Z then 45%N :: digits
  else match digits with
       | [d] => 48%N :: digits
       | _ => digits
       end.

(** The lines from [ratio = ...] to [fill_color = ...] of [match_and_write]. *)
Definition gradient_fill_color (score threshold : Z) : result text :=
  if (100 - threshold =? 0)%Z then Raise ZeroDivisionError
  else
    let ratio := PrimFloat.div (float_of_int (score - threshold))
                   (float_of_int (100 - threshold)) in
    let green := int_of_float (PrimFloat.mul (float_of_int 255) ratio) in
    Ok (txt "FF" ++ format_02X green ++ txt "00").

Definition solid_fill (color : text) : pattern_fill :=
  {| start_color := color; end_color := color; fill_type := txt "solid" |}.

Section MergeEngine.

(** The scorer handed to [extractOne] ([fuzz.token_sort_ratio]) and the
    module-level [fuzzy_threshold] read from the slider. *)
Variable score : text -> text -> Z.
Variable fuzzy_threshold : Z.

(** One turn of the loop of [match_and_write].  The sheet comes back as
    far as it was written, with the exception when one was raised. *)
Definition write_row (src_dict : dict Q) (target_col_idx : nat) (ws : worksheet)
  (r : nat) : worksheet * option exn :=
  match stripped_text (cell_value ws r 1) with
  | Raise e => (ws, Some e)
  | Ok raw_target =>
      let key_t := normalize_label raw_target in
      if text_eqb key_t [] || search_word_phrase_ic (lits "total") raw_target
      then (ws, None)
      else
        match dict_get src_dict key_t with
        | Some v => (set_value ws r target_col_idx (VNum v), None)
        | None =>
            match extractOne score key_t (dict_keys src_dict) with
            | Some (best_match, sc) =>
                if (fuzzy_threshold <=? sc)%Z then
                  match dict_get src_dict best_match with
                  | Some val =>
                      let ws1 := set_value ws r target_col_idx (VNum val) in
                      match gradient_fill_color sc fuzzy_threshold with
                      | Ok fill_color =>
                          (set_fill ws1 r target_col_idx (solid_fill fill_color), None)
                      | Raise e => (ws1, Some e)
                      end
                  | None => (ws, Some KeyError)
                  end
                else (set_value ws r target_col_idx (VNum 0), None)
            | None => (set_value ws r target_col_idx (VNum 0), None)
            end
        end
  end.

Fixpoint write_rows (src_dict : dict Q) (target_col_idx : nat) (ws : worksheet)
  (rows : list nat) : worksheet * option exn :=
  match rows with
  | [] => (ws, None)
  | r :: rest =>
      match write_row src_dict target_col_idx ws r with
      | (ws', None) => write_rows src_dict target_col_idx ws' rest
      | (ws', Some e) => (ws', Some e)
      end
  end.

Definition match_and_write (ws : worksheet) (start_row end_row : nat)
  (src_dict : dict Q) (target_col_idx : nat) : worksheet * option exn :=
  write_rows src_dict target_col_idx ws (range start_row (end_row + 1)).

End MergeEngine.

(* ===================================================================== *)
(** ** Site resolution and the per-file passes *)
(* ===================================================================== *)

(** [str.replace(old, new)] for a non-empty [old]. *)
Definition replace (old new s : text) : text :=
  re_sub (fun _ t => if starts_with old t then Some (skipn (length old) t) else None) new s.

(** [re.sub(r'\s*\(\d+\)(?=\.xlsx)', '', filename)] *)
Definition normalize_filename (filename : text) : text :=
  re_sub
    (fun prev t =>
       match match_atoms false [Spaces0; Lit 40%N; Digits1; Lit 41%N] prev t with
       | Some (_, rest) => if starts_with (txt ".xlsx") rest then Some rest else None
       | None => None
       end)
    [] filename.

(** [str(n)] of an integer. *)
Definition str_of_int (n : Z) : text := txt (NilZero.string_of_int (Z.to_int n)).

(** [re.sub(r'^[\d\s]+', '', s)] *)
Fixpoint strip_leading_digits_spaces (s : text) : text :=
  match s with
  | c :: s' => if is_digit c || is_space c then strip_leading_digits_spaces s' else s
  | [] => []
  end.

(** A workbook: its sheets by name, in order. *)
Definition workbook := list (text * worksheet).

Definition find_income_sheet (wb : workbook) : option text :=
  option_map fst (List.find (fun sh => contains (txt "income") (lower (fst sh))) wb).

(** [wb[name]] *)
Definition sheet_named (wb : workbook) (name : text) : option worksheet :=
  option_map snd (List.find (fun sh => text_eqb (fst sh) name) wb).

(** [for k in d: d[k] = d[k] / 2]: every value becomes its half, the
    keys and their order stay. *)
Definition halve (d : dict Q) : dict Q :=
  List.map (fun kv => (fst kv, (snd kv / 2)%Q)) d.

Section Passes.

Variable str_of_number : Q -> text.
Variable score : text -> text -> Z.
Variable fuzzy_threshold : Z.
(** The [file_year] of the sidebar. *)
Variable file_year : Z.

Definition filename_to_header : dict text :=
  List.map (fun kv => (txt "fs" ++ str_of_int file_year ++ txt (fst kv), txt (snd kv)))
    [ ("Bedford.xlsx", "Bedford");
      ("Beechgrove.xlsx", "Scarborough");
      ("Bering.xlsx", "380 Bering");
      ("Dundas.xlsx", "Dundas");
      ("Eastern.xlsx", "Eastern");
      ("Laird.xlsx", "1 Laird");
      ("Laird33.xlsx", "33 Laird");
      ("Lakeshore.xlsx", "Lakeshore");
      ("Weston.xlsx", "207 Weston") ]%string.

(** The site name of a file, as both income passes resolve it. *)
Definition resolve_site (filename : text) : text :=
  let normalized_filename := normalize_filename filename in
  match dict_get filename_to_header normalized_filename with
  | Some header => upper header
  | None =>
      let site :=
        upper (replace (txt "fs" ++ str_of_int file_year) []
                 (replace (txt ".xlsx") [] normalized_filename)) in
      if text_eqb site (txt "BEECHGROVE") then txt "SCARBOROUGH" else site
  end.

(** The search of the template's header row for the site's column. *)
Fixpoint find_target_col (master_ws : worksheet) (header_row : nat) (site : text)
  (cols : list nat) : result (option nat) :=
  match cols with
  | [] => Ok None
  | col :: rest =>
      raw_hdr ← stripped_text (cell_value master_ws header_row col);
      let raw_hdr_upper := upper raw_hdr in
      let hdr_stripped := strip_leading_digits_spaces raw_hdr_upper in
      if text_eqb raw_hdr_upper site || text_eqb hdr_stripped site
      then Ok (Some col)
      else find_target_col master_ws header_row site rest
  end.

(** The statements of both passes from the [WESTON] test on: the dicts
    are halved for that site and written into the three row ranges.  A
    call that raises leaves the later ones undone. *)
Definition write_three (site : text) (master_ws : worksheet) (target_col : nat)
  (rev_rows exp_rows inc_rows : nat * nat) (rev_dict exp_dict inc_dict : dict Q)
  : worksheet * option exn :=
  let adjust d := if contains (txt "WESTON") site then halve d else d in
  match match_and_write score fuzzy_threshold master_ws (fst rev_rows) (snd rev_rows)
          (adjust rev_dict) target_col with
  | (ws1, Some e) => (ws1, Some e)
  | (ws1, None) =>
      match match_and_write score fuzzy_threshold ws1 (fst exp_rows) (snd exp_rows)
              (adjust exp_dict) target_col with
      | (ws2, Some e) => (ws2, Some e)
      | (ws2, None) =>
          match_and_write score fuzzy_threshold ws2 (fst inc_rows) (snd inc_rows)
            (adjust inc_dict) target_col
      end
  end.

(** What the two passes share.  [rows] gives the three row ranges of the
    template, read from the template itself in the month pass.  The
    workbook is given as loaded; log lines are left out. *)
Definition process_one_file
  (parse : worksheet -> result (dict Q * dict Q * dict Q))
  (rows : worksheet -> (nat * nat) * (nat * nat) * (nat * nat))
  (src_wb : workbook) (filename : text) (master_ws : worksheet) (header_row : nat)
  : worksheet * option exn :=
  match find_income_sheet src_wb with
  | None => (master_ws, None)
  | Some inc_name =>
      match sheet_named src_wb inc_name with
      | None => (master_ws, Some KeyError)
      | Some src_ws =>
          match parse src_ws with
          | Raise e => (master_ws, Some e)
          | Ok ([], [], []) => (master_ws, None)
          | Ok (rev_dict, exp_dict, inc_dict) =>
              let site := resolve_site filename in
              match find_target_col master_ws header_row site
                      (range 1 (max_column master_ws + 1)) with
              | Raise e => (master_ws, Some e)
              | Ok None => (master_ws, None)
              | Ok (Some target_col) =>
                  let '(rev_rows, exp_rows, inc_rows) := rows master_ws in
                  write_three site master_ws target_col rev_rows exp_rows inc_rows
                    rev_dict exp_dict inc_dict
              end
          end
      end
  end.

Definition process_one_file_ytd : workbook -> text -> worksheet -> nat -> worksheet * option exn :=
  process_one_file (parse_income_sheet_ytd str_of_number)
    (fun _ => ((6, 16), (19, 33), (38, 46))).

(** The month pass starts the revenue rows one row lower when row 53 of
    the template is empty or a header. *)
Definition month_rows (master_ws : worksheet) : (nat * nat) * (nat * nat) * (nat * nat) :=
  let first_value := cell_value master_ws 53 1 in
  let first_revenue_row :=
    if negb (truthy first_value)
       || contains (txt "revenue") (lower (str_of_value str_of_number first_value))
    then 54 else 53 in
  let revenue_end := if Nat.eqb first_revenue_row 53 then 65 else 66 in
  ((first_revenue_row, revenue_end), (67, 81), (86, 94)).

Definition process_one_file_month : workbook -> text -> worksheet -> nat -> worksheet * option exn :=
  process_one_file (parse_income_sheet_month str_of_number) month_rows.

(** *** The balance-sheet pass *)

(** What [process_balance_sheet_file] returns for a file. *)
Record summary := {
  assets : dict Q;
  liabilities : dict Q;
  equity : dict Q
}.

(** The loop of [process_all_files] that builds [all_summaries]: a file
    counts when its normalised name is in [filename_to_header], under the
    header of that entry.  Each file comes with what
    [process_balance_sheet_file] returned for it. *)
Fixpoint collect_summaries (files : list (text * option summary)) (acc : dict summary)
  : dict summary :=
  match files with
  | [] => acc
  | (filename, parsed) :: rest =>
      let acc' :=
        match dict_get filename_to_header (normalize_filename filename), parsed with
        | Some header_label, Some s => dict_set acc header_label s
        | _, _ => acc
        end in
      collect_summaries rest acc'
  end.

(** [f"=({amount})/2"] *)
Definition half_formula (amount : Q) : text :=
  txt "=(" ++ str_of_number amount ++ txt ")/2".

(** The innermost loop of the balance-sheet write, over one section. *)
Fixpoint write_section (entity_label : text) (target_col : nat)
  (row_by_category : dict nat) (items : dict Q) (ws : worksheet) : worksheet :=
  match items with
  | [] => ws
  | (category, amount) :: rest =>
      let ws' :=
        match dict_get row_by_category category with
        | Some row_idx =>
            let ws_value :=
              if text_eqb entity_label (txt "207 Weston")
              then VStr (half_formula amount) else VNum amount in
            set_value ws row_idx target_col ws_value
        | None => ws
        end in
      write_section entity_label target_col row_by_category rest ws'
  end.

(** One entity's turn of the loop that writes the consolidated balance
    sheet. *)
Definition write_entity (col_by_entity row_by_category : dict nat)
  (entity_label : text) (s : summary) (ws : worksheet) : worksheet :=
  match dict_get col_by_entity entity_label with
  | None => ws
  | Some target_col =>
      write_section entity_label target_col row_by_category (equity s)
        (write_section entity_label target_col row_by_category (liabilities s)
           (write_section entity_label target_col row_by_category (assets s) ws))
  end.

Definition write_balance_sheet (col_by_entity row_by_category : dict nat)
  (all_summaries : dict summary) (ws : worksheet) : worksheet :=
  fold_left (fun w es => write_entity col_by_entity row_by_category (fst es) (snd es) w)
    all_summaries ws.

End Passes.

(* ===================================================================== *)
(** ** Grids read with pandas *)
(* ===================================================================== *)

(** A sheet read with [pd.read_excel(..., header=None)]: rows of cells,
    rows and columns counted from 0. *)
Definition grid := list (list value).

Definition ncols (df : grid) : nat :=
  match df with
  | [] => 0
  | row :: _ => length row
  end.

(** A cell of a row that has the column. *)
Definition row_cell (row : list value) (c : nat) : value := nth c row VNone.

(** [df[c]] raises when the grid has no column [c]. *)
Definition has_column (df : grid) (c : nat) : result unit :=
  if (c <? ncols df)%nat then Ok tt else Raise KeyError.

(** Index of the first element with the property, from [i] on. *)
Fixpoint index_from {A} (f : A -> bool) (l : list A) (i : nat) : option nat :=
  match l with
  | [] => None
  | x :: l' => if f x then Some i else index_from f l' (S i)
  end.

(** [df[mask].index[0]] *)
Definition first_index (f : list value -> bool) (df : grid) : result nat :=
  match index_from f df 0 with
  | Some i => Ok i
  | None => Raise IndexError
  end.

(** [df[0] == label] on one row, for a text [label]. *)
Definition col0_is (label : text) (row : list value) : bool :=
  match row_cell row 0 with
  | VStr s => text_eqb s label
  | _ => false
  end.

(* ===================================================================== *)
(** ** Budget extraction *)
(* ===================================================================== *)

(** How a run of [process_all_files] ends: with its result, or in the
    handler of the outer [try] with the stage the run was in. *)
Inductive outcome (A : Type) :=
  | Completed (a : A)
  | Fatal (stage : string) (e : exn).
Arguments Completed {A} a.
Arguments Fatal {A} stage e.

(** Equality of dict keys that are cell values.  Two missing cells are
    taken as one key: the program looks up a text and the last label, and
    finds the same column for both either way. *)
Definition value_eqb (a b : value) : bool :=
  match a, b with
  | VNone, VNone => true
  | VStr s, VStr t => text_eqb s t
  | VNum p, VNum q => Qeq_bool p q
  | _, _ => false
  end.

Fixpoint vdict_get {V} (d : list (value * V)) (k : value) : option V :=
  match d with
  | [] => None
  | (k', v) :: d' => if value_eqb k k' then Some v else vdict_get d' k
  end.

Fixpoint vdict_set {V} (d : list (value * V)) (k : value) (v : V) : list (value * V) :=
  match d with
  | [] => [(k, v)]
  | (k', v') :: d' => if value_eqb k k' then (k', v) :: d' else (k', v') :: vdict_set d' k v
  end.

(** [{m: c for m, c in zip(months, range(2, 14))}] *)
Definition build_month_to_col (months : list value) : list (value * nat) :=
  fold_left (fun d mc => vdict_set d (fst mc) (snd mc)) (combine months (range 2 14)) [].

(** A month, a year-to-date and an annual value; [None] is [NaN]. *)
Definition triple : Type := option Q * Q * option Q.

Section Budget.

(** pandas' reading of a text as a number ([None] when it is none). *)
Variable parse_number : text -> option Q.

(** [pd.to_numeric(v, errors='coerce')] *)
Definition to_numeric (v : value) : option Q :=
  match v with
  | VNum q => Some q
  | VStr s => parse_number s
  | VNone => None
  end.

(** [series.sum(skipna=True)] *)
Definition sum_skipna (l : list (option Q)) : Q :=
  fold_left (fun acc x => match x with Some q => Qplus acc q | None => acc end) l 0%Q.

(** One turn of the extraction loop on the row [row]. *)
Definition budget_row (sel_col total_col : nat) (row : list value)
  (results : dict triple) : result (dict triple) :=
  match row_cell row 0 with
  | VStr raw =>
      match nth_error row sel_col, nth_error row total_col with
      | Some m_cell, Some a_cell =>
          let m_val := to_numeric m_cell in
          let y_val := sum_skipna (List.map to_numeric (firstn (sel_col + 1 - 2) (skipn 2 row))) in
          let a_val := to_numeric a_cell in
          Ok (dict_set results (strip raw) (m_val, y_val, a_val))
      | _, _ => Raise IndexError
      end
  | _ => Ok results
  end.

Fixpoint budget_rows (sel_col total_col : nat) (rows : list (list value))
  (results : dict triple) : result (dict triple) :=
  match rows with
  | [] => Ok results
  | row :: rest =>
      results' ← budget_row sel_col total_col row results;
      budget_rows sel_col total_col rest results'
  end.

(** Where the extraction looks: the header row, the selected and the
    total column, and the rows of the run. *)
Record budget_layout := {
  hdr : nat;
  sel_col : nat;
  total_col : nat;
  run_start : nat;
  run_end : nat
}.

(** The statements of [process_all_files] from [hdr = ...] to
    [total_col = ...]. *)
Definition locate_budget (df : grid) (file_year : Z) (selected_month : text)
  : result budget_layout :=
  _ ← has_column df 0;
  _ ← has_column df 2;
  h ← first_index (fun row =>
         match row_cell row 0 with
         | VNum q => Qeq_bool q (inject_Z file_year)
         | _ => false
         end && value_eqb (row_cell row 2) (VStr (txt "Jan"))) df;
  let months := firstn 12 (skipn 2 (nth h df [])) in
  let month_to_col := build_month_to_col months in
  match vdict_get month_to_col (VStr selected_month) with
  | None => Raise KeyError
  | Some sel =>
      start ← first_index (col0_is (txt "Rental Revenue")) df;
      let end_lbl :=
        if existsb (col0_is (txt "NET PROFIT/(LOSS)")) df
        then txt "NET PROFIT/(LOSS)" else txt "NET RENTAL INCOME (LOSS)" in
      e ← first_index (col0_is end_lbl) df;
      match vdict_get month_to_col (List.last months VNone) with
      | None => Raise KeyError
      | Some dec =>
          Ok {| hdr := h; sel_col := sel; total_col := dec + 1;
                run_start := start; run_end := e + 1 |}
      end
  end.

(** The budget extraction up to the end of its loop. *)
Definition extract_budget (df : grid) (file_year : Z) (selected_month : text)
  : result (dict triple) :=
  lay ← locate_budget df file_year selected_month;
  budget_rows (sel_col lay) (total_col lay)
    (firstn (run_end lay - run_start lay) (skipn (run_start lay) df)) [].

End Budget.

(* ===================================================================== *)
(** ** The prior-year income statement *)
(* ===================================================================== *)

Section PriorYear.

Variable parse_number : text -> option Q.
Variable str_of_number : Q -> text.

(** The default scorer of [process.extractOne] ([fuzz.WRatio]). *)
Variable wratio : text -> text -> Z.

(** [df_last[0].dropna().astype(str).tolist()] *)
Definition col0_texts (df : grid) : list text :=
  List.flat_map (fun row =>
    match row_cell row 0 with
    | VNone => []
    | v => [str_of_value str_of_number v]
    end) df.

(** A state monad for the stage label of [process_all_files], over
    [result]: [current_stage] is assigned as the run goes and read by the
    handler of the function's outer [try]. *)
Definition staged (A : Type) : Type := string -> string * result A.

Definition stage_ret {A} (a : A) : staged A := fun st => (st, Ok a).

Definition stage_bind {A B} (m : staged A) (f : A -> staged B) : staged B :=
  fun st =>
    match m st with
    | (st', Ok a) => f a st'
    | (st', Raise e) => (st', Raise e)
    end.

Definition set_stage (name : string) : staged unit := fun _ => (name, Ok tt).

Definition lift {A} (r : result A) : staged A := fun st => (st, r).

(** [try: body except Exception as e: raise Exception(...)] *)
Definition reraise {A} (m : staged A) : staged A :=
  fun st =>
    match m st with
    | (st', Raise _) => (st', Raise OtherError)
    | ok => ok
    end.

(** [a, b = process.extractOne(...)]: unpacking [None] is a [TypeError]. *)
Definition unpack {A} (o : option A) : result A :=
  match o with
  | Some a => Ok a
  | None => Raise TypeError
  end.

(** One turn of the prior-year extraction loop. *)
Definition last_year_row (row : list value) (last_results : dict (option Q * option Q))
  : result (dict (option Q * option Q)) :=
  match row_cell row 0 with
  | VStr raw =>
      match nth_error row 1, nth_error row 7 with
      | Some m_cell, Some y_cell =>
          Ok (dict_set last_results (strip raw)
                (to_numeric parse_number m_cell, to_numeric parse_number y_cell))
      | _, _ => Raise IndexError
      end
  | _ => Ok last_results
  end.

Fixpoint last_year_rows (rows : list (list value))
  (last_results : dict (option Q * option Q)) : result (dict (option Q * option Q)) :=
  match rows with
  | [] => Ok last_results
  | row :: rest =>
      d ← last_year_row row last_results;
      last_year_rows rest d
  end.

(** [NaN + x] is [NaN]. *)
Definition nan_add (a b : option Q) : option Q :=
  match a, b with
  | Some p, Some q => Some (Qplus p q)
  | _, _ => None
  end.

(** [if k1 in d and k2 in d: ... d[k1] = (a1 + a2, b1 + b2)] *)
Definition merge_pair (k1 k2 : string) (d : dict (option Q * option Q))
  : dict (option Q * option Q) :=
  match dict_get d (txt k1), dict_get d (txt k2) with
  | Some (a1, b1), Some (a2, b2) =>
      dict_set (dict_remove (dict_remove d (txt k1)) (txt k2)) (txt k1)
        (nan_add a1 a2, nan_add b1 b2)
  | _, _ => d
  end.

Definition stage_last_year_income : string := "Processing last year's income statement".
Definition stage_last_year_balance : string := "Processing last year's balance sheet".

(** The prior-year income statement: the statements of
    [process_all_files] from [current_stage = "Processing last year's
    income statement"] to the merge of the two label pairs.  The workbook
    is given as its sheets, or [None] when it cannot be opened. *)
Definition last_year_income (last_year_wb : option (list (text * grid)))
  : staged (dict (option Q * option Q)) :=
  stage_bind
    (reraise
       (stage_bind (set_stage stage_last_year_income) (fun _ =>
          match last_year_wb with
          | None => lift (Raise OtherError)
          | Some sheets =>
              match List.find (fun sh => text_eqb (fst sh) (txt "Income_statement")) sheets with
              | None => lift (Raise OtherError)
              | Some sh => stage_ret (snd sh)
              end
          end)))
    (fun df_last => lift (
       _ ← has_column df_last 0;
       let col0 := col0_texts df_last in
       '(start_label, sc) ← unpack (extractOne wratio (txt "RENTAL INCOME") col0);
       if (sc <? 95)%Z then Raise ValueError
       else
         start_last ← first_index (col0_is start_label) df_last;
         '(end_label, sc) ← unpack (extractOne wratio (txt "NET PROFIT/(LOSS)") col0);
         end_label ←
           (if (sc <? 95)%Z then
              '(end_label, sc) ← unpack (extractOne wratio (txt "NET RENTAL INCOME (LOSS)") col0);
              if (sc <? 95)%Z then Raise ValueError else Ok end_label
            else Ok end_label);
         e ← first_index (col0_is end_label) df_last;
         let end_last := e + 1 in
         last_results ← last_year_rows
           (firstn (end_last - start_last) (skipn start_last df_last)) [];
         Ok (merge_pair "CP Rail Lease (Laird)" "Rent PUD/CSITPM Head Office"
               (merge_pair "Mortgage /Loan Interest" "Loan Interest (CSIT to Family Mortgage)"
                  last_results)))).

(** [process_all_files] from the prior-year income statement on.  [rest]
    is the remainder of the function, which receives [last_results]; it
    begins by writing the template and moves on to the stage
    ["Processing last year's balance sheet"]. *)
Definition process_all_files_from_last_year {A}
  (last_year_wb : option (list (text * grid)))
  (rest : dict (option Q * option Q) -> staged A) (stage_before : string) : outcome A :=
  match stage_bind (last_year_income last_year_wb) rest stage_before with
  | (_, Ok a) => Completed a
  | (st, Raise e) => Fatal st e
  end.

End PriorYear.

(* ===================================================================== *)
(** ** The balance-sheet section parser *)
(* ===================================================================== *)

Definition is_str (v : value) : bool :=
  match v with VStr _ => true | _ => false end.

(** [isinstance(v, (int, float)) and not pd.isna(v)] *)
Definition is_number (v : value) : bool :=
  match v with VNum _ => true | _ => false end.

(** The numbers of a row after its first column, left to right. *)
Definition row_nums (row : list value) : list Q :=
  List.flat_map (fun v => match v with VNum q => [q] | _ => [] end) (tl row).

Definition nonzero (l : list Q) : list Q :=
  List.filter (fun q => negb (Qeq_bool q 0)) l.

(** [any(ch.isdigit() for ch in "".join(str(x) for x in row if pd.notna(x)))]:
    the printed form of a number always has a digit. *)
Definition row_has_digit (row : list value) : bool :=
  existsb (fun v =>
    match v with
    | VNone => false
    | VStr s => existsb is_digit s
    | VNum _ => true
    end) row.

(** [section.at[j, c]] *)
Definition at_col (row : list value) (c : nat) : result value :=
  match nth_error row c with
  | Some v => Ok v
  | None => Raise KeyError
  end.

(** The inner [while j < n] loop, over the rows from [j] on: it returns
    the index it stopped at and the total. *)
Fixpoint group_total (sum_col : nat) (rows : list (list value)) (j : nat) (total : Q)
  : result (nat * Q) :=
  match rows with
  | [] => Ok (j, total)
  | row :: rest =>
      if is_str (row_cell row 0) && negb (row_has_digit row) then Ok (j, total)
      else
        val_j ← at_col row sum_col;
        let total' := match val_j with VNum q => Qplus total q | _ => total end in
        group_total sum_col rest (S j) total'
  end.

Definition accounts_receivable : text := txt "ACCOUNTS RECEIVABLE".

(** [result.setdefault(k, 0.0)] *)
Definition setdefault_zero (d : dict Q) (k : text) : dict Q :=
  match dict_get d k with
  | Some _ => d
  | None => dict_set d k 0%Q
  end.

(** One turn of the [while i < n] loop of [parse_section] at the row [i]:
    the next value of [i] and the dict. *)
Definition section_step (section : grid) (sum_col : nat) (i : nat) (res : dict Q)
  : result (nat * dict Q) :=
  let row := nth i section [] in
  match row_cell row 0 with
  | VStr cell_i =>
      let header := strip cell_i in
      let header_upper := upper header in
      if starts_with accounts_receivable header_upper
         && negb (text_eqb header_upper accounts_receivable)
      then
        match row_nums row with
        | [] => Ok (i + 1, res)
        | nums =>
            let val := List.last (nonzero nums) 0%Q in
            let res1 := setdefault_zero res accounts_receivable in
            Ok (i + 1,
                dict_set res1 accounts_receivable
                  (Qplus (default 0%Q (dict_get res1 accounts_receivable)) val))
        end
      else if text_eqb header_upper accounts_receivable
      then Ok (i + 1, setdefault_zero res accounts_receivable)
      else
        match nonzero (row_nums row) with
        | (_ :: _) as nz => Ok (i + 1, dict_set res header (List.last nz 0%Q))
        | [] =>
            '(j, total) ← group_total sum_col (skipn (i + 1) section) (i + 1) 0%Q;
            Ok (j, dict_set res header total)
        end
  | _ => Ok (i + 1, res)
  end.

(** The [while i < n] loop.  [fuel] bounds the turns still allowed;
    [None] is a loop that ran out of it. *)
Fixpoint section_loop (fuel : nat) (section : grid) (sum_col : nat) (i : nat)
  (res : dict Q) : option (result (dict Q)) :=
  if (length section <=? i)%nat then Some (Ok res)
  else
    match fuel with
    | O => None
    | S fuel' =>
        match section_step section sum_col i res with
        | Ok (i', res') => section_loop fuel' section sum_col i' res'
        | Raise e => Some (Raise e)
        end
    end.

(** The first column after column 0 that holds a number somewhere in the
    section, else 1. *)
Definition find_sum_col (section : grid) : nat :=
  match List.find (fun c => existsb (fun row => is_number (row_cell row c)) section)
          (range 1 (ncols section)) with
  | Some c => c
  | None => 1
  end.

(** [df[0].astype(str).str.contains(total_label, na=False, case=False)]
    on one row: the printed form of a number or of a missing cell holds
    none of the labels. *)
Definition col0_contains_ic (label : string) (row : list value) : bool :=
  match row_cell row 0 with
  | VStr s => search_atoms_ic (lits label) None s
  | _ => false
  end.

(** [parse_section]; a loop that ran out of fuel would be [None].  The
    [except] clause of the function turns every exception into an empty
    dict. *)
Definition parse_section (df : grid) (start_label total_label : string)
  : option (dict Q) :=
  match has_column df 0 with
  | Raise _ => Some []
  | Ok _ =>
      match index_from (col0_is (txt start_label)) df 0 with
      | None => Some []
      | Some start_idx =>
          match index_from (col0_contains_ic total_label) df 0 with
          | None => Some []
          | Some end_idx =>
              let section := firstn (end_idx - 1 - start_idx) (skipn (start_idx + 1) df) in
              let sum_col := find_sum_col section in
              match section_loop (length section) section sum_col 0 [] with
              | Some (Ok res) => Some res
              | Some (Raise _) => Some []
              | None => None
              end
          end
      end
  end.

(* ===================================================================== *)
(** ** The balance sheet of a source file *)
(* ===================================================================== *)

(** [for k in d: d[k] = d[k] / 2], turn by turn over the keys of the
    dict; every key is in the dict, so no lookup fails. *)
Definition halve_in_place (d : dict Q) : dict Q :=
  fold_left (fun acc k =>
               match dict_get acc k with
               | Some v => dict_set acc k (v / 2)%Q
               | None => acc
               end)
    (dict_keys d) d.

(** A workbook read with pandas: its sheets by name. *)
Definition grid_book := list (text * grid).

Definition has_sheet (wb : grid_book) (name : string) : bool :=
  existsb (fun sh => text_eqb (fst sh) (txt name)) wb.

Definition grid_named (wb : grid_book) (name : string) : option grid :=
  option_map snd (List.find (fun sh => text_eqb (fst sh) (txt name)) wb).

(** ["HST" in k.upper() and "RECOVERABLE" in k.upper()] *)
Definition is_hst_key (k : text) : bool :=
  contains (txt "HST") (upper k) && contains (txt "RECOVERABLE") (upper k).

(** ["ACCOUNTS PAYABLE" in k.upper()] *)
Definition is_payable_key (k : text) : bool :=
  contains (txt "ACCOUNTS PAYABLE") (upper k).

(** [liabilities[acct_key] = liabilities.get(acct_key, 0.0) + liabilities.pop(hst, 0.0)]:
    the two reads come before the removal, the assignment after it. *)
Definition fold_hst (acct_key : text) (liabilities : dict Q) (hst : text) : dict Q :=
  let got := default 0%Q (dict_get liabilities acct_key) in
  let popped := default 0%Q (dict_get liabilities hst) in
  dict_set (dict_remove liabilities hst) acct_key (got + popped)%Q.

(** The HST lines of the liabilities go to the accounts-payable line; with
    no such line, the first of them becomes it. *)
Definition merge_hst (liabilities : dict Q) : dict Q :=
  let hst_keys := List.filter is_hst_key (dict_keys liabilities) in
  match List.find is_payable_key (dict_keys liabilities) with
  | Some acct_key => fold_left (fold_hst acct_key) hst_keys liabilities
  | None =>
      match hst_keys with
      | first_hst :: _ =>
          dict_set (dict_remove liabilities first_hst) (txt "ACCOUNTS PAYABLE AND ACCRUED")
            (default 0%Q (dict_get liabilities first_hst))
      | [] => liabilities
      end
  end.

(** [if old in d: d[new] = d.pop(old)] *)
Definition rename_key (old new : string) (d : dict Q) : dict Q :=
  match dict_get d (txt old) with
  | Some v => dict_set (dict_remove d (txt old)) (txt new) v
  | None => d
  end.

(** The statements of [process_balance_sheet_file] under "Apply mappings". *)
Definition apply_mappings (s : summary) : summary :=
  {| assets := rename_key "LOANS RECEIVABLE" "Due From CSIT Companies" (assets s);
     liabilities :=
       rename_key "HOLDBACK PAYABLE" "Deferred Revenue/Deposits"
         (rename_key "LOANS PAYABLE" "Due to CSIT Companies" (merge_hst (liabilities s)));
     equity := rename_key "PRIVATE ACCOUNTS" "Retained Earnings" (equity s) |}.

(** [process_balance_sheet_file], on the workbook as read ([None] when it
    cannot be read).  The inner [None] is the function's [None]: every
    exception ends there.  The outer one is a section loop out of fuel. *)
Definition process_balance_sheet_file (wb : option grid_book) : option (option summary) :=
  match wb with
  | None => Some None
  | Some sheets =>
      let sheet :=
        if has_sheet sheets "BALANCE SHEET" then grid_named sheets "BALANCE SHEET"
        else if has_sheet sheets "BALANCESHEET" then grid_named sheets "BALANCESHEET"
        else None in
      match sheet with
      | None => Some None
      | Some df =>
          match has_column df 0 with
          | Raise _ => Some None
          | Ok _ =>
              if negb (existsb (col0_is (txt "ASSETS")) df) then Some None
              else if negb (existsb (col0_is (txt "LIABILITIES")) df) then Some None
              else if negb (existsb (col0_is (txt "EQUITY")) df) then Some None
              else
                a ← parse_section df "ASSETS" "TOTAL ASSETS";
                l ← parse_section df "LIABILITIES" "TOTAL LIABILITIES";
                e ← parse_section df "EQUITY" "TOTAL EQUITY";
                Some (Some (apply_mappings {| assets := a; liabilities := l; equity := e |}))
          end
      end
  end.

(* ===================================================================== *)
(** ** The consolidated balance sheet *)
(* ===================================================================== *)

(** [row_texts]: the rows below the header row whose column-1 cell is a
    text, with the text stripped. *)
Definition row_texts (ws : worksheet) (header_row_bs : nat) : list (nat * text) :=
  List.flat_map (fun row =>
    match cell_value ws row 1 with
    | VStr s => [(row, strip s)]
    | _ => []
    end) (range (header_row_bs + 1) (max_row ws + 1)).

(** [col_texts]: the columns whose header-row cell is a text. *)
Definition col_texts (ws : worksheet) (header_row_bs : nat) : list (nat * text) :=
  List.flat_map (fun col =>
    match cell_value ws header_row_bs col with
    | VStr s => [(col, strip s)]
    | _ => []
    end) (range 1 (max_column ws + 1)).

(** [[i for (i, text) in texts if text == best_match]], its first element. *)
Definition first_with_text (texts : list (nat * text)) (t : text) : option nat :=
  option_map fst (List.find (fun it => text_eqb (snd it) t) texts).

(** One turn of either mapping loop: the best match of [query] among the
    texts, and, when it scores at least the threshold, the entry
    [m[key] = first index with that text]. *)
Definition map_label (set_ratio : text -> text -> Z) (threshold : Z)
  (texts : list (nat * text)) (m : dict nat) (query key : text) : result (dict nat) :=
  '(best_match, sc) ← unpack (extractOne set_ratio query (List.map snd texts));
  if (threshold <=? sc)%Z then
    match first_with_text texts best_match with
    | Some i => Ok (dict_set m key i)
    | None => Ok m
    end
  else Ok m.

Fixpoint map_labels (set_ratio : text -> text -> Z) (threshold : Z)
  (texts : list (nat * text)) (m : dict nat) (items : list (text * text))
  : result (dict nat) :=
  match items with
  | [] => Ok m
  | (query, key) :: rest =>
      m' ← map_label set_ratio threshold texts m query key;
      map_labels set_ratio threshold texts m' rest
  end.

(** The categories of a summary, in the order the loops visit them. *)
Definition summary_categories (s : summary) : list text :=
  dict_keys (assets s) ++ dict_keys (liabilities s) ++ dict_keys (equity s).

Section BalanceStage.

Variable str_of_number : Q -> text.
(** [fuzz.token_set_ratio] and the slider's threshold. *)
Variable set_ratio : text -> text -> Z.
Variable fuzzy_threshold : Z.

Definition build_row_by_category (all_summaries : dict summary) (master_ws_bs : worksheet)
  : result (dict nat) :=
  map_labels set_ratio fuzzy_threshold (row_texts master_ws_bs 5) []
    (List.map (fun category => (strip category, category))
       (List.flat_map (fun es => summary_categories (snd es)) all_summaries)).

Definition build_col_by_entity (all_summaries : dict summary) (master_ws_bs : worksheet)
  : result (dict nat) :=
  map_labels set_ratio fuzzy_threshold (col_texts master_ws_bs 5) []
    (List.map (fun entity_label => (entity_label, entity_label)) (dict_keys all_summaries)).

Definition stage_building_mappings : string := "Building balance sheet mappings".
Definition stage_writing_balance : string := "Writing balance sheet values".

(** [process_all_files] from ["Building balance sheet mappings"] to the
    end of the balance-sheet write. *)
Definition balance_sheet_stage (all_summaries : dict summary) (master_ws_bs : worksheet)
  : staged worksheet :=
  stage_bind (set_stage stage_building_mappings) (fun _ =>
  stage_bind (lift (build_row_by_category all_summaries master_ws_bs)) (fun row_by_category =>
  stage_bind (lift (build_col_by_entity all_summaries master_ws_bs)) (fun col_by_entity =>
  stage_bind (set_stage stage_writing_balance) (fun _ =>
  stage_ret (write_balance_sheet str_of_number col_by_entity row_by_category
               all_summaries master_ws_bs))))).

End BalanceStage.

(* ===================================================================== *)
(** ** The budget lines after the extraction *)
(* ===================================================================== *)

(** [(m1 + m2, y1 + y2, a1 + a2)] *)
Definition triple_add (t1 t2 : triple) : triple :=
  let '(m1, y1, a1) := t1 in
  let '(m2, y2, a2) := t2 in
  (nan_add m1 m2, Qplus y1 y2, nan_add a1 a2).

(** [if k1 in results and k2 in results: ... results[k1] = (m1 + m2, ...)] *)
Definition merge_triples (k1 k2 : string) (results : dict triple) : dict triple :=
  match dict_get results (txt k1), dict_get results (txt k2) with
  | Some t1, Some t2 =>
      dict_set (dict_remove (dict_remove results (txt k1)) (txt k2)) (txt k1)
        (triple_add t1 t2)
  | _, _ => results
  end.

(** [months.index(selected_month) + 1], on the month labels of the header
    row of the budget sheet. *)
Definition months_count (months : list value) (selected_month : text) : result nat :=
  match index_from (value_eqb (VStr selected_month)) months 0 with
  | Some i => Ok (i + 1)%nat
  | None => Raise ValueError
  end.

(** The entry of a line with a fixed monthly amount. *)
Definition fixed_line (amount : Z) (count : nat) : triple :=
  (Some (inject_Z amount), inject_Z (amount * Z.of_nat count), Some (inject_Z (amount * 12))).

(** The statements of [process_all_files] from "Combine mortgage and CP
    Rail lines" to [results['Depreciation'] = ...]. *)
Definition finish_budget (months : list value) (selected_month : text)
  (results : dict triple) : result (dict triple) :=
  let results :=
    merge_triples "CP Rail Lease (Laird)" "Rent PUD/CSITPM Head Office"
      (merge_triples "Mortgage /Loan Interest" "Loan Interest (CSIT to Family Mortgage)"
         results) in
  count ← months_count months selected_month;
  Ok (dict_set (dict_set results (txt "Amortization") (fixed_line 26500 count))
        (txt "Depreciation") (fixed_line 121963 count)).

(* ===================================================================== *)
(** ** The highlights *)
(* ===================================================================== *)

Definition yellow : pattern_fill := solid_fill (txt "FFFF00").

Section Highlights.

Variable str_of_number : Q -> text.

(** [str(v).strip().upper() == "INTERCOMPANY"] *)
Definition is_intercompany (v : value) : bool :=
  text_eqb (upper (strip (str_of_value str_of_number v))) (txt "INTERCOMPANY").

(** The loop that highlights the Intercompany row of "Balance_sheet": the
    first row that reads INTERCOMPANY is filled in columns 1 to 15, and
    the loop stops there. *)
Definition highlight_intercompany (bs_ws : worksheet) : worksheet :=
  match List.find (fun r => is_intercompany (cell_value bs_ws r 1))
          (range 1 (max_row bs_ws + 1)) with
  | Some r => fold_left (fun ws c => set_fill ws r c yellow) (range 1 16) bs_ws
  | None => bs_ws
  end.

End Highlights.

(* ===================================================================== *)
(** ** Last year's balance sheet *)
(* ===================================================================== *)

Section LastYearBalance.

Variable parse_number : text -> option Q.
Variable str_of_number : Q -> text.

(** A cell of a pandas column after [astype(str)]: a missing cell reads
    [nan]. *)
Definition astype_str (v : value) : text :=
  match v with
  | VNone => txt "nan"
  | VStr s => s
  | VNum q => str_of_number q
  end.

(** [str.replace(r'[^0-9.\-]', '', regex=True)] *)
Definition keep_numeric_chars (s : text) : text :=
  List.filter (fun c => between 48 57 c || (c =? 46)%N || (c =? 45)%N) s.

(** [col3]: the third column read as numbers. *)
Definition col3_of (df0 : grid) : list (option Q) :=
  List.map (fun row => parse_number (keep_numeric_chars (astype_str (row_cell row 2)))) df0.

(** The sheet of last year's workbook that holds the balance sheet. *)
Definition last_balance_grid (wb : grid_book) : option grid :=
  if has_sheet wb "Balance sheet" then grid_named wb "Balance sheet"
  else if has_sheet wb "BALANCE SHEET" then grid_named wb "BALANCE SHEET"
  else if has_sheet wb "BalanceSheet" then grid_named wb "BalanceSheet"
  else None.

(** The dict comprehension that builds [balance_dict], over the rows
    from [first_idx] on, each with its number. *)
Fixpoint balance_entries (rows : list (list value * option Q)) (d : dict Q) : dict Q :=
  match rows with
  | [] => d
  | (row, val) :: rest =>
      let lbl := strip (astype_str (row_cell row 0)) in
      match lbl, val with
      | _ :: _, Some q => balance_entries rest (dict_set d lbl q)
      | _, _ => balance_entries rest d
      end
  end.

(** From [col3 = ...] to [balance_dict = {...}]. *)
Definition balance_dict_of (df0 : grid) : result (dict Q) :=
  if (ncols df0 <=? 2)%nat then Raise IndexError
  else
    let col3 := col3_of df0 in
    match index_from (fun v : option Q => negb (is_none v)) col3 0 with
    | None => Raise ValueError
    | Some first_idx => Ok (balance_entries (skipn first_idx (combine df0 col3)) [])
    end.

(** The loop over [ws.iter_rows(min_row=1, max_col=5)]. *)
Definition write_last_year_balance (balance_dict : dict Q) (ws : worksheet) : worksheet :=
  fold_left (fun w r =>
               match cell_value w r 1 with
               | VStr hdr =>
                   match dict_get balance_dict (strip hdr) with
                   | Some v => set_value w r 5 (VNum v)
                   | None => w
                   end
               | _ => w
               end)
    (range 1 (max_row ws + 1)) ws.

Definition stage_writing_last_balance : string := "Writing last year's balance sheet values".

(** [process_all_files] from ["Processing last year's balance sheet"] to
    the end of the loop that writes column E of "Balance sheet"; [ws] is
    that sheet of the template, which the loading stage has checked to
    exist. *)
Definition last_year_balance_stage (last_year_wb : option grid_book) (ws : worksheet)
  : staged worksheet :=
  stage_bind
    (reraise
       (stage_bind (set_stage stage_last_year_balance) (fun _ =>
          match last_year_wb with
          | None => lift (Raise OtherError)
          | Some sheets =>
              match last_balance_grid sheets with
              | None => lift (Raise OtherError)
              | Some df0 => stage_ret df0
              end
          end)))
    (fun df0 =>
       stage_bind (lift (balance_dict_of df0)) (fun balance_dict =>
       stage_bind (set_stage stage_writing_last_balance) (fun _ =>
       stage_ret (write_last_year_balance balance_dict ws)))).

End LastYearBalance.

(* ===================================================================== *)
(** ** The rows of the Income_statement sheet *)
(* ===================================================================== *)

(** [template_rows]: the dict comprehension over column A; a later row
    with the same label takes the entry over. *)
Definition template_rows (ws : worksheet) : dict nat :=
  fold_left (fun d r =>
               match cell_value ws r 1 with
               | VStr s => dict_set d (upper (strip s)) r
               | _ => d
               end)
    (range 1 (max_row ws + 1)) [].

(* ===================================================================== *)
(** ** Writing the Income_statement sheet *)
(* ===================================================================== *)

(** [label_map], in the order of the dict literal. *)
Definition label_map : list (string * option string) :=
  [ ("Rental Revenue", Some "RENTAL INCOME");
    ("Merchandise Revenue", Some "MERCHANDISE INCOME");
    ("Insurance Revenue", Some "INSURANCE INCOME");
    ("Truck Rental", Some "TRUCK RENTAL");
    ("Truck and Labour (Mobile)", None);
    ("Bad Debts", Some "LESS: BAD DEBTS");
    ("Other Income", Some "OTHER INCOME");
    ("Management fee (Weston)", Some "MANAGEMENT FEE");
    ("Recoveries (Weston)", Some "RECOVERIES");
    ("Property Management fee - Bedford,", Some "PROPERTY MGT. FEE");
    ("CP Rail Lease (Laird)", Some "RENT");
    ("Loss (Gain) on Sale of Equipment", Some "(GAIN)/LOSS ON INVESTMENT");
    ("Merchandise Purchase", Some "MERCHANDISE");
    ("Advertising", Some "ADVERTISING");
    ("Utilities", Some "UTILITIES");
    ("Insurance", Some "INSURANCE");
    ("Professional Fees", Some "PROFESSIONAL FEES");
    ("Office Supplies", Some "OFFICE SUPPLIES");
    ("Bank Charges", Some "BANK CHARGES");
    ("Realty Tax", Some "REALTY TAXES");
    ("Maintenance & Repairs", Some "MAINTENANCE & REPAIRS");
    ("Salaries & Benefits", Some "SALARIES & BENEFITS");
    ("Telephone", Some "TELEPHONE");
    ("Rent", Some "RENT");
    ("Lakeshore Rent Payment", Some "LEASE PAYMENT");
    ("Minority Interest", Some "MINORITY INTEREST");
    ("Legal Fees", Some "LEGAL FEES");
    ("Mortgage /Loan Interest", Some "MORTGAGE/LOAN INTEREST");
    ("Amortization", Some "AMORTIZATION");
    ("Depreciation", Some "DEPRECIATION");
    ("TOTAL REVENUE", None);
    ("TOTAL OPERATING EXPENSES", None);
    ("NET OPERATING INCOME (LOSS)", None);
    ("NET RENTAL INCOME (LOSS)", None);
    ("NET PROFIT/(LOSS)", None) ]%string.

(** [norm_map]: keys and values stripped and upper-cased, [None] kept. *)
Definition norm_map : dict (option text) :=
  fold_left (fun d kv =>
               dict_set d (upper (strip (txt (fst kv))))
                 (option_map (fun v => upper (strip (txt v))) (snd kv)))
    label_map [].

(** [lbl in skip_labels] *)
Definition in_skip_labels (lbl : text) : bool :=
  existsb (fun s => text_eqb lbl (txt s))
    [ "TOTAL REVENUE"; "TOTAL OPERATING EXPENSES"; "NET OPERATING INCOME (LOSS)";
      "NET RENTAL INCOME (LOSS)" ]%string.

(** An assignment [ws.cell(row=.., column=..).value = float(x)]: the row,
    the column and the number ([None] is [NaN]). *)
Definition cell_write : Type := nat * nat * option Q.

Section IncomeStatement.

(** The default scorer of [process.extractOne] ([fuzz.WRatio]). *)
Variable wratio : text -> text -> Z.

(** The template label of a key that [norm_map] does not hold: the key
    itself when the template has it, else its best match when that scores
    at least 95, else none (the loop goes on to the next line). *)
Definition template_label (rows : dict nat) (key : text) : result (option text) :=
  match dict_get rows key with
  | Some _ => Ok (Some key)
  | None =>
      '(best_match, sc) ← unpack (extractOne wratio key (dict_keys rows));
      if (95 <=? sc)%Z then Ok (Some best_match) else Ok None
  end.

(** One turn of the loop that builds [last_mapped]. *)
Definition map_last_line (rows : dict nat) (last_mapped : dict (option Q * option Q))
  (raw : text) (amounts : option Q * option Q) : result (dict (option Q * option Q)) :=
  let key := upper (strip raw) in
  tmpl ← match dict_get norm_map key with
         | Some tmpl => Ok tmpl
         | None => template_label rows key
         end;
  match tmpl with
  | Some (c :: t) =>
      if in_skip_labels (c :: t) then Ok last_mapped
      else Ok (dict_set last_mapped (c :: t) amounts)
  | _ => Ok last_mapped
  end.

Fixpoint map_last_lines (rows : dict nat) (last_mapped : dict (option Q * option Q))
  (last_results : dict (option Q * option Q)) : result (dict (option Q * option Q)) :=
  match last_results with
  | [] => Ok last_mapped
  | (raw, amounts) :: rest =>
      m ← map_last_line rows last_mapped raw amounts;
      map_last_lines rows m rest
  end.

(** One turn of the loop "Write budgets and actuals": the assignments it
    makes, in order.  A turn that raises does so before its first
    assignment. *)
Definition write_budget_line (rows : dict nat) (last_mapped : dict (option Q * option Q))
  (raw : text) (t : triple) : result (list cell_write) :=
  let '(m_val, y_val, a_val) := t in
  let key := upper (strip raw) in
  match dict_get norm_map key with
  | Some None => Ok []
  | in_norm =>
      lbl ← match in_norm with
            | Some (Some lbl) => Ok (Some lbl)
            | _ => template_label rows key
            end;
      match lbl with
      | None => Ok []
      | Some lbl =>
          if in_skip_labels lbl then Ok []
          else
            match dict_get rows lbl with
            | None => Raise KeyError
            | Some row =>
                Ok ([(row, 3%nat, m_val); (row, 9%nat, Some y_val); (row, 15%nat, a_val)]
                    ++ match dict_get last_mapped lbl with
                       | Some (am, ay) => [(row, 5%nat, am); (row, 11%nat, ay)]
                       | None => []
                       end)
            end
      end
  end.

(** The loop itself: the assignments made, with the exception when a
    turn raised one (the assignments of the turns before it stand). *)
Fixpoint write_budget_lines (rows : dict nat) (last_mapped : dict (option Q * option Q))
  (results : dict triple) : list cell_write * option exn :=
  match results with
  | [] => ([], None)
  | (raw, t) :: rest =>
      match write_budget_line rows last_mapped raw t with
      | Raise e => ([], Some e)
      | Ok w =>
          let '(more, e) := write_budget_lines rows last_mapped rest in
          (w ++ more, e)
      end
  end.

(** [process_all_files] from [template_rows = ...] to the end of the loop
    "Write budgets and actuals", on the Income_statement sheet: the
    assignments made to it. *)
Definition write_income_statement (ws : worksheet) (results : dict triple)
  (last_results : dict (option Q * option Q)) : list cell_write * option exn :=
  let rows := template_rows ws in
  match map_last_lines rows [] last_results with
  | Raise e => ([], Some e)
  | Ok last_mapped => write_budget_lines rows last_mapped results
  end.

End IncomeStatement.

(** A worksheet with the given dimensions and cells, for examples. *)
Definition sheet_of (rows cols : nat) (l : list (nat * nat * value)) : worksheet :=
  {| max_row := rows; max_column := cols; cells := list_to_map l; fills := ∅ |}.

(* ===================================================================== *)
(** ** Notions used to state the properties *)
(* ===================================================================== *)

(** Two sheets agree on a row. *)
Definition same_row (r : nat) (ws ws' : worksheet) : Prop :=
  forall c, cell_value ws' r c = cell_value ws r c /\ cell_fill ws' r c = cell_fill ws r c.

(** The value of an upper-case hexadecimal digit. *)
Definition hex_digit_value (c : char) : option Z :=
  if is_digit c then Some (Z.of_N c - 48)%Z
  else if between 65 70 c then Some (Z.of_N c - 55)%Z
  else None.

(** Channel [k] (0 red, 1 green, 2 blue) of a 6-digit colour. *)
Definition channel (color : text) (k : nat) : option Z :=
  match firstn 2 (skipn (2 * k) color) with
  | [a; b] =>
      match hex_digit_value a, hex_digit_value b with
      | Some x, Some y => Some (16 * x + y)%Z
      | _, _ => None
      end
  | _ => None
  end.

(** What C5 says of the colour computed for [score] and [threshold]. *)
Definition gradient_ok (threshold score : Z) : bool :=
  match gradient_fill_color score threshold with
  | Ok color =>
      Nat.eqb (length color) 6
      && bool_decide (channel color 0 = Some 255%Z)
      && bool_decide (channel color 1 = Some (255 * (score - threshold) / (100 - threshold))%Z)
      && bool_decide (channel color 2 = Some 0%Z)
  | Raise _ => false
  end.

(** What a value-column cell adds to its key: its number, and zero when
    it is empty. *)
Definition cell_amount (v : value) : Q :=
  match v with
  | VNum q => q
  | _ => 0%Q
  end.

(** A value the parser can add: a number, nothing, or the empty text. *)
Definition numeric_or_empty (v : value) : Prop :=
  match v with
  | VStr (_ :: _) => False
  | _ => True
  end.

Section IncomeNotions.

Variable str_of_number : Q -> text.

(** The key of a row: its column-1 label, normalised. *)
Definition row_key (ws : worksheet) (r : nat) : text :=
  normalize_label (str_of_value str_of_number (cell_value ws r 1)).

(** The rows of a band that are not passed over: those with a label that
    does not hold the band's total phrase. *)
Definition band_rows (ws : worksheet) (total : list atom) (rows : list nat) : list nat :=
  List.filter (fun r =>
    truthy (cell_value ws r 1)
    && negb (search_word_phrase_ic total (str_of_value str_of_number (cell_value ws r 1))))
    rows.

(** The rows of the income band: those before the first row with no
    label, with "total" or with "net rental income". *)
Fixpoint income_rows (ws : worksheet) (rows : list nat) : list nat :=
  match rows with
  | [] => []
  | r :: rest =>
      let t := str_of_value str_of_number (cell_value ws r 1) in
      if negb (truthy (cell_value ws r 1))
         || search_word_phrase_ic (lits "total") t
         || search_word_phrase_ic (lits "net rental income") t
      then []
      else r :: income_rows ws rest
  end.

(** The sum, from [init], of the amounts the rows with key [k] hold in
    column [col]; [init] itself when there is no such row. *)
Definition accumulated_from (init : option Q) (ws : worksheet) (col : nat)
  (rows : list nat) (k : text) : option Q :=
  match List.filter (fun r => text_eqb (row_key ws r) k) rows with
  | [] => init
  | l => Some (fold_left Qplus (List.map (fun r => cell_amount (cell_value ws r col)) l)
                 (default 0%Q init))
  end.

Definition accumulated : worksheet -> nat -> list nat -> text -> option Q :=
  accumulated_from None.

End IncomeNotions.





(** The last position, counting from [i], of an element with the
    property; [acc] when there is none. *)
Fixpoint last_index_from {A} (f : A -> bool) (l : list A) (i : nat) (acc : option nat)
  : option nat :=
  match l with
  | [] => acc
  | x :: l' => last_index_from f l' (S i) (if f x then Some i else acc)
  end.

(** The year-to-date value by columns: the numbers of the columns [2] to
    [sel_col] of the row are added up, the other cells left out. *)
Definition ytd_by_columns (parse_number : text -> option Q) (row : list value)
  (sel_col : nat) : Q :=
  fold_left (fun acc c =>
               match to_numeric parse_number (row_cell row c) with
               | Some q => Qplus acc q
               | None => acc
               end)
    (range 2 (sel_col + 1)) 0%Q.

(** The triple the spec gives a row. *)
Definition row_triple (parse_number : text -> option Q) (sel_col total_col : nat)
  (row : list value) : triple :=
  (to_numeric parse_number (row_cell row sel_col),
   ytd_by_columns parse_number row sel_col,
   to_numeric parse_number (row_cell row total_col)).






(** *** Notions for the properties of the rest of the run *)

(** An anchor that is set lies on a row of the sheet. *)
Definition anchor_in_sheet (ws : worksheet) (o : option nat) : Prop :=
  match o with
  | Some r => (1 <= r <= max_row ws)%nat
  | None => True
  end.

(** The total of the amounts of a dict. *)
Definition dict_total (d : dict Q) : Q :=
  fold_right (fun kv acc => Qplus (snd kv) acc) 0%Q d.

(** The total of what the rows hold in a column, an empty cell counting
    as zero. *)
Definition column_total (ws : worksheet) (col : nat) (rows : list nat) : Q :=
  fold_right (fun r acc => Qplus (cell_amount (cell_value ws r col)) acc) 0%Q rows.

(** Two sheets hold the same in a cell. *)
Definition same_cell (r c : nat) (ws ws' : worksheet) : Prop :=
  cell_value ws' r c = cell_value ws r c /\ cell_fill ws' r c = cell_fill ws r c.

(** A label cell [match_and_write] can read: nothing, a text, or zero. *)
Definition readable_label (v : value) : Prop :=
  exists raw, stripped_text v = Ok raw.

(** A highlight that [match_and_write] sets: a solid fill in a 6-digit
    colour with red 255, blue 0 and a green channel between 0 and 255. *)
Definition gradient_fill (f : pattern_fill) : Prop :=
  exists color g,
    f = solid_fill color /\ length color = 6%nat
    /\ channel color 0 = Some 255%Z /\ channel color 1 = Some g /\ (0 <= g <= 255)%Z
    /\ channel color 2 = Some 0%Z.

(** The pattern of [normalize_filename] tried at the head of a text. *)
Definition copy_suffix_at (prev : option char) (t : text) : option text :=
  match match_atoms false [Spaces0; Lit 40%N; Digits1; Lit 41%N] prev t with
  | Some (_, rest) => if starts_with (txt ".xlsx") rest then Some rest else None
  | None => None
  end.

(** A header of the template matches a site. *)
Definition header_matches (site raw_hdr : text) : Prop :=
  upper raw_hdr = site \/ strip_leading_digits_spaces (upper raw_hdr) = site.

(** A row of one of the three row ranges of a pass. *)
Definition in_blocks (blocks : (nat * nat) * (nat * nat) * (nat * nat)) (r : nat) : Prop :=
  let '(b1, b2, b3) := blocks in
  (fst b1 <= r <= snd b1)%nat \/ (fst b2 <= r <= snd b2)%nat \/ (fst b3 <= r <= snd b3)%nat.

(** Every index of the map is an index of the texts. *)
Definition indexes_within (texts : list (nat * text)) (m : dict nat) : Prop :=
  forall k i, dict_get m k = Some i -> In i (List.map fst texts).

(** What the balance-sheet write for an entity other than "207 Weston"
    may do to a cell: leave it, or put an amount of the summary in it as
    it is. *)
Definition amounts_from (amounts : dict Q) (ws ws' : worksheet) : Prop :=
  forall r c,
    cell_value ws' r c = cell_value ws r c
    \/ exists category amount,
         In (category, amount) amounts /\ cell_value ws' r c = VNum amount.

(** Settles an equation between the fills or values of a cell before and
    after a write, by cases on whether the cell is the one written. *)
Ltac cell_cases :=
  repeat case_decide; try reflexivity; exfalso; simplify_eq;
  first [ intuition lia
        | match goal with
          | H : (_, _) <> (_, _) |- _ => apply H; f_equal; intuition lia
          end ].

(** The label of a row as [template_rows] keys it. *)
Definition row_label (ws : worksheet) (r : nat) : option text :=
  match cell_value ws r 1 with
  | VStr s => Some (upper (strip s))
  | _ => None
  end.

(** A line the section parser may record for a grid: the one line of
    accounts receivable, or the stripped column-0 text of a row of the
    grid that is no sub-account of accounts receivable. *)
Definition section_line (df : grid) (k : text) : Prop :=
  k = accounts_receivable
  \/ (starts_with accounts_receivable (upper k) = false
      /\ exists row s, In row df /\ row_cell row 0 = VStr s /\ strip s = k).

(** A cell is a text in which the header pattern is found, letter case
    apart. *)
Definition header_hit (p : list atom) (ws : worksheet) (r c : nat) : Prop :=
  exists s, cell_value ws r c = VStr s /\ search_atoms_ic p None s = true.

(* ===================================================================== *)
(** * Properties *)
(* ===================================================================== *)

(** ** Label normalisation on examples *)

(** C8 (the code does otherwise): the label "amortization/finance cost"
    is not folded to "amortization".  The slash is replaced by a space
    before the synonym rules run, so the rule written for the label with
    its slash never matches, and the rule for "amortization" leaves the
    rest of the label in place. *)
Lemma amortization_finance_cost_is_not_folded :
  normalize_label (txt "amortization/finance cost") = txt "amortization finance cost"
  /\ normalize_label (txt "Amortization/Finance Cost") = txt "amortization finance cost"
  /\ normalize_label (txt "amortization/finance cost") <> txt "amortization".
Proof.
  split; [vm_compute; reflexivity | split; [vm_compute; reflexivity | ]].
  vm_compute. discriminate.
Qed.


(** ** The anchor rows *)

(** C2, as stated, fails: the header scan records each header at its
    first row, in whatever order the sheet has them. *)
Lemma anchors_out_of_order :
  find_anchor_rows
    (sheet_of 3 1 [ ((1, 1), VStr (txt "Expenses"));
                    ((2, 1), VStr (txt "Revenue"));
                    ((3, 1), VStr (txt "Income")) ])
  = Ok {| rev_start := Some 2; exp_start := Some 1; inc_start := Some 3 |}
  /\ ~ (2 < 1 < 3)%nat.
Proof. split; [vm_compute; reflexivity | lia]. Qed.

Lemma clamp_above (b e : nat) (o : option nat) :
  option_map (fun r => Nat.max (r - 1) (b + 1)) o = Some e -> (b < e)%nat.
Proof. destruct o; cbn; intros H; [injection H as <-; lia | discriminate]. Qed.

(** C2, amended: when all three anchors are found, an expenses anchor
    that the header scan did not set lies below the revenue anchor, and an
    income anchor that the header scan did not set lies below the expenses
    anchor.  ([a0] is what the header scan found.) *)
Theorem fallback_anchors_are_ordered (ws : worksheet) (a0 : anchors) (r e i : nat) :
  scan_anchors ws (range 1 (max_row ws + 1)) no_anchors = Ok a0 ->
  find_anchor_rows ws = Ok {| rev_start := Some r; exp_start := Some e; inc_start := Some i |} ->
  (exp_start a0 = None -> (r < e)%nat) /\ (inc_start a0 = None -> (e < i)%nat).
Proof.
  intros Hscan Hfind. unfold find_anchor_rows in Hfind.
  rewrite Hscan in Hfind. cbn [mbind result_bind] in Hfind.
  injection Hfind as Hr He Hi.
  rewrite Hr in He, Hi. rewrite He in Hi. split; intros Hnone.
  - rewrite Hnone in He. exact (clamp_above _ _ _ He).
  - rewrite Hnone in Hi. exact (clamp_above _ _ _ Hi).
Qed.

Lemma fallback_anchors_are_ordered_witness :
  ((2 < 4)%nat /\ (4 < 5)%nat).
Proof.
  pose proof (fallback_anchors_are_ordered
    (sheet_of 6 1 [ ((3, 1), VStr (txt "Rental Revenue"));
                    ((5, 1), VStr (txt "Advertising"));
                    ((6, 1), VStr (txt "Management Fee")) ])
    no_anchors 2 4 5) as H.
  destruct H as [H1 H2]; [vm_compute; reflexivity | vm_compute; reflexivity |].
  split; [apply H1 | apply H2]; reflexivity.
Defined.

(** ** Cells of a worksheet under writes *)

Lemma cell_value_set_value (ws : worksheet) (r c r' c' : nat) (v : value) :
  cell_value (set_value ws r' c' v) r c
  = if decide ((r', c') = (r, c)) then v else cell_value ws r c.
Proof.
  unfold cell_value, set_value; cbn. rewrite lookup_insert.
  destruct (decide ((r', c') = (r, c))); reflexivity.
Qed.

Lemma cell_value_set_value_row (ws : worksheet) (r c r' c' : nat) (v : value) :
  r' <> r -> cell_value (set_value ws r' c' v) r c = cell_value ws r c.
Proof.
  intros Hne. rewrite cell_value_set_value.
  destruct (decide ((r', c') = (r, c))) as [Heq|]; [|reflexivity].
  injection Heq as -> _. contradiction.
Qed.

Lemma cell_value_set_fill (ws : worksheet) (r c r' c' : nat) (f : pattern_fill) :
  cell_value (set_fill ws r' c' f) r c = cell_value ws r c.
Proof. reflexivity. Qed.

Lemma cell_fill_set_value (ws : worksheet) (r c r' c' : nat) (v : value) :
  cell_fill (set_value ws r' c' v) r c = cell_fill ws r c.
Proof. reflexivity. Qed.

Lemma cell_fill_set_fill (ws : worksheet) (r c r' c' : nat) (f : pattern_fill) :
  cell_fill (set_fill ws r' c' f) r c
  = if decide ((r', c') = (r, c)) then Some f else cell_fill ws r c.
Proof.
  unfold cell_fill, set_fill; cbn. rewrite lookup_insert.
  destruct (decide ((r', c') = (r, c))); reflexivity.
Qed.

Lemma cell_fill_set_fill_row (ws : worksheet) (r c r' c' : nat) (f : pattern_fill) :
  r' <> r -> cell_fill (set_fill ws r' c' f) r c = cell_fill ws r c.
Proof.
  intros Hne. rewrite cell_fill_set_fill.
  destruct (decide ((r', c') = (r, c))) as [Heq|]; [|reflexivity].
  injection Heq as -> _. contradiction.
Qed.

Lemma same_row_refl (r : nat) (ws : worksheet) : same_row r ws ws.
Proof. intros c; split; reflexivity. Qed.

Lemma same_row_trans (r : nat) (ws1 ws2 ws3 : worksheet) :
  same_row r ws1 ws2 -> same_row r ws2 ws3 -> same_row r ws1 ws3.
Proof.
  intros H12 H23 c. destruct (H12 c) as [? ?], (H23 c) as [? ?]. split; congruence.
Qed.

Section MergeFacts.

Variable score : text -> text -> Z.
Variable fuzzy_threshold : Z.

(** A turn of the loop touches no row but its own. *)
Lemma write_row_other_row (src : dict Q) (col : nat) (ws : worksheet) (r r' : nat) :
  r' <> r -> same_row r ws (fst (write_row score fuzzy_threshold src col ws r')).
Proof.
  intros Hne c. unfold write_row.
  repeat case_match; cbn [fst];
    rewrite ?cell_fill_set_fill_row, ?cell_value_set_fill, ?cell_fill_set_value,
      ?cell_value_set_value_row by assumption;
    split; reflexivity.
Qed.

Lemma write_rows_app (src : dict Q) (col : nat) (ws : worksheet) (l1 l2 : list nat) :
  write_rows score fuzzy_threshold src col ws (l1 ++ l2)
  = match write_rows score fuzzy_threshold src col ws l1 with
    | (ws1, None) => write_rows score fuzzy_threshold src col ws1 l2
    | (ws1, Some e) => (ws1, Some e)
    end.
Proof.
  revert ws. induction l1 as [|r l1 IH]; intros ws; cbn; [reflexivity|].
  destruct (write_row _ _ _ _ _ _) as [ws1 [e|]]; [reflexivity | apply IH].
Qed.

Lemma write_rows_other_rows (src : dict Q) (col : nat) (rows : list nat) (ws : worksheet)
  (r : nat) :
  ~ In r rows -> same_row r ws (fst (write_rows score fuzzy_threshold src col ws rows)).
Proof.
  revert ws. induction rows as [|r' rows IH]; intros ws Hnotin; cbn.
  - apply same_row_refl.
  - assert (Hne : r' <> r) by (intros ->; apply Hnotin; left; reflexivity).
    pose proof (write_row_other_row src col ws r r' Hne) as Hrow.
    destruct (write_row _ _ _ _ _ _) as [ws1 [e|]]; cbn [fst] in *; [exact Hrow|].
    eapply same_row_trans; [exact Hrow|]. apply IH. intros Hin. apply Hnotin. right. exact Hin.
Qed.

(** The row of a template label that is blank once normalised, or that
    holds the word "total", is passed over. *)
Lemma write_row_skips (src : dict Q) (col : nat) (ws : worksheet) (r : nat) (raw : text) :
  stripped_text (cell_value ws r 1) = Ok raw ->
  normalize_label raw = [] \/ search_word_phrase_ic (lits "total") raw = true ->
  write_row score fuzzy_threshold src col ws r = (ws, None).
Proof.
  intros Hraw Hskip. unfold write_row. rewrite Hraw.
  destruct Hskip as [-> | ->]; [reflexivity|].
  rewrite orb_true_r. reflexivity.
Qed.

Lemma write_rows_keep_skipped_row (src : dict Q) (col : nat) (rows : list nat)
  (ws : worksheet) (r : nat) (raw : text) :
  stripped_text (cell_value ws r 1) = Ok raw ->
  normalize_label raw = [] \/ search_word_phrase_ic (lits "total") raw = true ->
  same_row r ws (fst (write_rows score fuzzy_threshold src col ws rows)).
Proof.
  revert ws. induction rows as [|r' rows IH]; intros ws Hraw Hskip; cbn.
  - apply same_row_refl.
  - destruct (Nat.eq_dec r' r) as [->|Hne].
    + rewrite (write_row_skips src col ws r raw Hraw Hskip). apply IH; assumption.
    + pose proof (write_row_other_row src col ws r r' Hne) as Hrow.
      destruct (write_row _ _ _ _ _ _) as [ws1 [e|]]; cbn [fst] in *; [exact Hrow|].
      eapply same_row_trans; [exact Hrow|]. apply IH; [|exact Hskip].
      destruct (Hrow 1) as [-> _]. exact Hraw.
Qed.

End MergeFacts.

(** C4, as stated, fails: "Subtotal" contains "total", yet its row is
    written (here with 0, there being nothing to match): the code looks
    for the word, not for the substring. *)
Lemma subtotal_row_is_written :
  let ws := sheet_of 6 2 [ ((6, 1), VStr (txt "Subtotal")) ] in
  contains (txt "total") (lower (txt "Subtotal")) = true
  /\ cell_value ws 6 2 = VNone
  /\ cell_value (fst (match_and_write (fun _ _ => 0%Z) 85 ws 6 6 [] 2)) 6 2 = VNum 0.
Proof. cbv zeta. split; [|split]; vm_compute; reflexivity. Qed.

(** C4, amended: a row of the target range whose raw column-1 text holds
    "total" as a whole word, in any letter case, or whose normalised label
    is blank, is passed over: its turn of the loop changes nothing, and
    its target cell has the value and the fill it had when
    [match_and_write] returns or raises. *)
Theorem total_and_blank_rows_are_skipped (score : text -> text -> Z) (threshold : Z)
  (ws : worksheet) (start_row end_row : nat) (src_dict : dict Q) (col r : nat) (raw : text) :
  stripped_text (cell_value ws r 1) = Ok raw ->
  search_word_phrase_ic (lits "total") raw = true \/ normalize_label raw = [] ->
  write_row score threshold src_dict col ws r = (ws, None)
  /\ cell_value (fst (match_and_write score threshold ws start_row end_row src_dict col)) r col
     = cell_value ws r col
  /\ cell_fill (fst (match_and_write score threshold ws start_row end_row src_dict col)) r col
     = cell_fill ws r col.
Proof.
  intros Hraw Hskip. apply or_comm in Hskip. split.
  - exact (write_row_skips score threshold src_dict col ws r raw Hraw Hskip).
  - exact (write_rows_keep_skipped_row score threshold src_dict col _ ws r raw Hraw Hskip col).
Qed.

Lemma total_and_blank_rows_are_skipped_witness :
  let ws := sheet_of 7 3 [ ((6, 1), VStr (txt "TOTAL Revenue")); ((6, 3), VNum 42);
                           ((7, 1), VStr (txt "Rent")) ] in
  cell_value (fst (match_and_write (fun _ _ => 0%Z) 85 ws 6 7 [] 3)) 6 3 = VNum 42.
Proof.
  cbv zeta.
  refine (eq_trans (proj1 (proj2 (total_and_blank_rows_are_skipped (fun _ _ => 0%Z) 85
    (sheet_of 7 3 [ ((6, 1), VStr (txt "TOTAL Revenue")); ((6, 3), VNum 42);
                    ((7, 1), VStr (txt "Rent")) ])
    6 7 [] 3 6 (txt "TOTAL Revenue") _ _))) _).
  - vm_compute; reflexivity.
  - left; vm_compute; reflexivity.
  - vm_compute; reflexivity.
Defined.

(** ** The gradient highlight *)

Lemma gradient_ok_table :
  forallb (fun t =>
    forallb (fun s => Nat.ltb s t || gradient_ok (Z.of_nat t) (Z.of_nat s)) (seq 0 101))
    (seq 0 100) = true.
Proof. vm_compute. reflexivity. Qed.

Lemma gradient_ok_in_range (threshold score : Z) :
  (0 <= threshold < 100)%Z -> (threshold <= score <= 100)%Z ->
  gradient_ok threshold score = true.
Proof.
  intros Ht Hs.
  pose proof gradient_ok_table as Htab.
  rewrite forallb_forall in Htab.
  specialize (Htab (Z.to_nat threshold) ltac:(apply in_seq; lia)).
  rewrite forallb_forall in Htab.
  specialize (Htab (Z.to_nat score) ltac:(apply in_seq; lia)).
  rewrite !Z2Nat.id in Htab by lia.
  destruct (Nat.ltb_spec (Z.to_nat score) (Z.to_nat threshold)) as [Hlt|_]; [lia|].
  exact Htab.
Qed.

Lemma extractOne_in (score : text -> text -> Z) (q : text) (choices : list text)
  (b : text) (s : Z) :
  extractOne score q choices = Some (b, s) -> In b choices.
Proof.
  revert b s. induction choices as [|c cs IH]; intros b s H; cbn in H; [discriminate|].
  destruct (extractOne score q cs) as [[b' s']|].
  - destruct (score q c <? s')%Z.
    + injection H as <- <-. right. eapply IH. reflexivity.
    + injection H as <- <-. left. reflexivity.
  - injection H as <- <-. left. reflexivity.
Qed.

Lemma text_eqb_eq (a b : text) : text_eqb a b = true <-> a = b.
Proof. unfold text_eqb. apply bool_decide_eq_true. Qed.

Lemma text_eqb_refl (a : text) : text_eqb a a = true.
Proof. apply text_eqb_eq. reflexivity. Qed.

Lemma text_eqb_neq (a b : text) : text_eqb a b = false <-> a <> b.
Proof. unfold text_eqb. apply bool_decide_eq_false. Qed.

Lemma dict_get_of_key {V} (d : dict V) (k : text) :
  In k (dict_keys d) -> exists v, dict_get d k = Some v.
Proof.
  induction d as [|[k' v'] d IH]; cbn; [contradiction|].
  intros Hin. destruct (text_eqb k k') eqn:E; [eauto|].
  apply IH. destruct Hin as [->|Hin]; [|exact Hin].
  rewrite text_eqb_refl in E. discriminate.
Qed.

Lemma dict_get_in {V} (d : dict V) (k : text) (v : V) :
  dict_get d k = Some v -> In (k, v) d.
Proof.
  induction d as [|[k' v'] d IH]; cbn; [discriminate|].
  destruct (text_eqb k k') eqn:E.
  - intros [= ->]. apply text_eqb_eq in E as ->. left. reflexivity.
  - intros H. right. apply IH, H.
Qed.

Lemma range_split (a b r : nat) :
  (a <= r < b)%nat -> range a b = range a r ++ r :: range (S r) b.
Proof.
  intros H. unfold range.
  replace (b - a)%nat with ((r - a) + S (b - S r))%nat by lia.
  rewrite seq_app. cbn [seq]. replace (a + (r - a))%nat with r by lia. reflexivity.
Qed.

Lemma in_range (a b r : nat) : In r (range a b) <-> (a <= r < b)%nat.
Proof. unfold range. rewrite in_seq. lia. Qed.

(** C5, as stated, fails at threshold 100, which the slider allows: a
    match scoring 100 is accepted and its value written, and the colour
    computation divides by [100 - threshold]; no fill is set. *)
Lemma gradient_divides_by_zero_at_threshold_100 :
  let ws := sheet_of 6 3 [ ((6, 1), VStr (txt "Income Rental")) ] in
  let out := match_and_write (fun _ _ => 100%Z) 100 ws 6 6 [(txt "rental income", 7%Q)] 3 in
  dict_get [(txt "rental income", 7%Q)] (normalize_label (txt "Income Rental")) = None
  /\ cell_value (fst out) 6 3 = VNum 7
  /\ cell_fill (fst out) 6 3 = None
  /\ snd out = Some ZeroDivisionError.
Proof. cbv zeta. repeat split; vm_compute; reflexivity. Qed.

(** C5, amended: below threshold 100, a fuzzy match accepted at score
    [s] with threshold [t] ([t <= s <= 100], no exact key hit) leaves the
    written cell filled solid with a 6-digit colour whose red channel is
    255, whose blue channel is 0 and whose green channel is the integer
    part of [255 * (s - t) / (100 - t)], computed in binary64 as the code
    does; it is 0 at [s = t] and 255 at [s = 100]. *)
Theorem accepted_fuzzy_match_gradient (score : text -> text -> Z) (t : Z)
  (ws ws' : worksheet) (start_row end_row : nat) (src_dict : dict Q) (col r : nat)
  (raw best : text) (s : Z) :
  (start_row <= r <= end_row)%nat ->
  stripped_text (cell_value ws r 1) = Ok raw ->
  normalize_label raw <> [] ->
  search_word_phrase_ic (lits "total") raw = false ->
  dict_get src_dict (normalize_label raw) = None ->
  extractOne score (normalize_label raw) (dict_keys src_dict) = Some (best, s) ->
  (0 <= t < 100)%Z -> (t <= s <= 100)%Z ->
  match_and_write score t ws start_row end_row src_dict col = (ws', None) ->
  exists color,
    cell_fill ws' r col = Some (solid_fill color)
    /\ length color = 6%nat
    /\ channel color 0 = Some 255%Z
    /\ channel color 1 = Some (255 * (s - t) / (100 - t))%Z
    /\ channel color 2 = Some 0%Z
    /\ (s = t -> channel color 1 = Some 0%Z)
    /\ (s = 100%Z -> channel color 1 = Some 255%Z).
Proof.
  intros Hr Hraw Hkey Htotal Hexact Hbest Ht Hs Hrun.
  unfold match_and_write in Hrun.
  rewrite (range_split start_row (end_row + 1) r) in Hrun by lia.
  rewrite write_rows_app in Hrun.
  pose proof (write_rows_other_rows score t src_dict col (range start_row r) ws r) as Hbefore.
  destruct (write_rows score t src_dict col ws (range start_row r)) as [ws1 [e|]];
    [discriminate|].
  cbn [fst] in Hbefore.
  assert (Hrow1 : same_row r ws ws1) by (apply Hbefore; rewrite in_range; lia).
  cbn [write_rows] in Hrun.
  pose proof (gradient_ok_in_range t s Ht Hs) as Hok. unfold gradient_ok in Hok.
  destruct (dict_get_of_key src_dict best (extractOne_in _ _ _ _ _ Hbest)) as [val Hval].
  assert (Hturn : write_row score t src_dict col ws1 r
                  = match gradient_fill_color s t with
                    | Ok c => (set_fill (set_value ws1 r col (VNum val)) r col (solid_fill c), None)
                    | Raise e => (set_value ws1 r col (VNum val), Some e)
                    end).
  { unfold write_row. destruct (Hrow1 1%nat) as [-> _]. rewrite Hraw.
    destruct (text_eqb (normalize_label raw) []) eqn:E;
      [apply text_eqb_eq in E; contradiction|].
    rewrite Htotal, Hexact, Hbest. cbn [orb].
    destruct (Z.leb_spec t s) as [_|]; [|lia]. rewrite Hval. reflexivity. }
  rewrite Hturn in Hrun.
  destruct (gradient_fill_color s t) as [color|]; [|discriminate].
  pose proof (write_rows_other_rows score t src_dict col (range (S r) (end_row + 1))
                (set_fill (set_value ws1 r col (VNum val)) r col (solid_fill color)) r) as Hafter.
  rewrite Hrun in Hafter. cbn [fst] in Hafter.
  destruct (Hafter ltac:(rewrite in_range; lia) col) as [_ Hfill].
  apply andb_prop in Hok as [Hok Hb]. apply andb_prop in Hok as [Hok Hg].
  apply andb_prop in Hok as [Hlen Hred].
  apply bool_decide_eq_true in Hred, Hg, Hb. apply Nat.eqb_eq in Hlen.
  exists color. rewrite Hfill, cell_fill_set_fill.
  destruct (decide ((r, col) = (r, col))); [|contradiction].
  repeat split; try assumption.
  - intros ->. rewrite Hg. f_equal. rewrite Z.sub_diag. reflexivity.
  - intros ->. rewrite Hg. f_equal. apply Z.div_mul. lia.
Qed.

Lemma accepted_fuzzy_match_gradient_witness :
  exists color,
    cell_fill
      (fst (match_and_write (fun _ _ => 90%Z) 85
              (sheet_of 6 3 [ ((6, 1), VStr (txt "Rent Revenue")) ]) 6 6
              [(txt "rental income", 7%Q)] 3)) 6 3 = Some (solid_fill color)
    /\ channel color 1 = Some 85%Z.
Proof.
  destruct (accepted_fuzzy_match_gradient (fun _ _ => 90%Z) 85
    (sheet_of 6 3 [ ((6, 1), VStr (txt "Rent Revenue")) ])
    (fst (match_and_write (fun _ _ => 90%Z) 85
            (sheet_of 6 3 [ ((6, 1), VStr (txt "Rent Revenue")) ]) 6 6
            [(txt "rental income", 7%Q)] 3))
    6 6 [(txt "rental income", 7%Q)] 3 6 (txt "Rent Revenue") (txt "rental income") 90)
    as [color (Hfill & _ & _ & Hgreen & _)].
  - lia.
  - vm_compute; reflexivity.
  - vm_compute; discriminate.
  - vm_compute; reflexivity.
  - vm_compute; reflexivity.
  - vm_compute; reflexivity.
  - lia.
  - lia.
  - vm_compute; reflexivity.
  - exists color. split; [exact Hfill | exact Hgreen].
Defined.

(** ** The income-sheet parser *)

Lemma dict_get_set {V} (d : dict V) (k k' : text) (v : V) :
  dict_get (dict_set d k v) k' = if text_eqb k' k then Some v else dict_get d k'.
Proof.
  induction d as [|[k0 v0] d IH]; cbn.
  - destruct (text_eqb k' k); reflexivity.
  - destruct (text_eqb k k0) eqn:E; cbn.
    + apply text_eqb_eq in E as ->. destruct (text_eqb k' k0); reflexivity.
    + rewrite IH. destruct (text_eqb k' k0) eqn:E0; [|reflexivity].
      apply text_eqb_eq in E0 as ->.
      destruct (text_eqb k0 k) eqn:E1; [|reflexivity].
      apply text_eqb_eq in E1 as ->. rewrite text_eqb_refl in E. discriminate.
Qed.

Section IncomeFacts.

Variable str_of_number : Q -> text.

Lemma amount_or_zero_numeric (v : value) :
  numeric_or_empty v -> amount_or_zero v = Ok (cell_amount v).
Proof. destruct v as [|[|c s]|q]; cbn; intros H; [reflexivity..|contradiction|reflexivity]. Qed.

Lemma accumulated_from_cons (init : option Q) (ws : worksheet) (col r : nat)
  (rows : list nat) (k : text) :
  accumulated_from str_of_number init ws col (r :: rows) k
  = accumulated_from str_of_number
      (if text_eqb (row_key str_of_number ws r) k
       then Some (Qplus (default 0%Q init) (cell_amount (cell_value ws r col)))
       else init)
      ws col rows k.
Proof.
  unfold accumulated_from. cbn [List.filter].
  destruct (text_eqb (row_key str_of_number ws r) k); [|reflexivity].
  cbn [List.map fold_left]. destruct (List.filter _ rows); reflexivity.
Qed.

Lemma accumulate_get (d : dict Q) (key k : text) (val : Q) :
  dict_get (accumulate d key val) k
  = if text_eqb key k then Some (Qplus (default 0%Q (dict_get d k)) val) else dict_get d k.
Proof.
  unfold accumulate. rewrite dict_get_set.
  destruct (text_eqb k key) eqn:E.
  - apply text_eqb_eq in E as ->. rewrite text_eqb_refl. reflexivity.
  - destruct (text_eqb key k) eqn:E'; [|reflexivity].
    apply text_eqb_eq in E' as ->. rewrite text_eqb_refl in E. discriminate.
Qed.

Lemma parse_band_accumulates (ws : worksheet) (col : nat) (total : list atom)
  (rows : list nat) (d : dict Q) :
  (forall r, In r (band_rows str_of_number ws total rows) ->
             numeric_or_empty (cell_value ws r col)) ->
  exists d', parse_band str_of_number ws col total rows d = Ok d'
    /\ forall k, dict_get d' k
                 = accumulated_from str_of_number (dict_get d k) ws col
                     (band_rows str_of_number ws total rows) k.
Proof.
  revert d. induction rows as [|r rows IH]; intros d Hnum.
  - exists d. split; reflexivity.
  - cbn [parse_band band_rows List.filter] in *.
    destruct (truthy (cell_value ws r 1)); cbn [negb andb] in *; [|apply IH, Hnum].
    destruct (search_word_phrase_ic total _); cbn [negb] in *; [apply IH, Hnum|].
    rewrite (amount_or_zero_numeric _ (Hnum r (or_introl eq_refl))).
    cbn [mbind result_bind].
    destruct (IH (accumulate d (normalize_label
                (str_of_value str_of_number (cell_value ws r 1)))
                (cell_amount (cell_value ws r col)))
                (fun r' Hin => Hnum r' (or_intror Hin))) as (d' & Hd' & Hget).
    exists d'. split; [exact Hd'|]. intros k.
    rewrite Hget, accumulated_from_cons, accumulate_get. reflexivity.
Qed.

Lemma parse_income_band_accumulates (ws : worksheet) (col : nat)
  (rows : list nat) (d : dict Q) :
  (forall r, In r (income_rows str_of_number ws rows) ->
             numeric_or_empty (cell_value ws r col)) ->
  exists d', parse_income_band str_of_number ws col rows d = Ok d'
    /\ forall k, dict_get d' k
                 = accumulated_from str_of_number (dict_get d k) ws col
                     (income_rows str_of_number ws rows) k.
Proof.
  revert d. induction rows as [|r rows IH]; intros d Hnum.
  - exists d. split; reflexivity.
  - cbn [parse_income_band income_rows] in *.
    destruct (truthy (cell_value ws r 1)); cbn [negb orb] in *;
      [|exists d; split; reflexivity].
    destruct (search_word_phrase_ic (lits "total") _ || search_word_phrase_ic _ _);
      [exists d; split; reflexivity|].
    rewrite (amount_or_zero_numeric _ (Hnum r (or_introl eq_refl))).
    cbn [mbind result_bind].
    destruct (IH (accumulate d (normalize_label
                (str_of_value str_of_number (cell_value ws r 1)))
                (cell_amount (cell_value ws r col)))
                (fun r' Hin => Hnum r' (or_intror Hin))) as (d' & Hd' & Hget).
    exists d'. split; [exact Hd'|]. intros k.
    rewrite Hget, accumulated_from_cons, accumulate_get. reflexivity.
Qed.

End IncomeFacts.

(** C3, as stated, fails: a text in the value column is not taken as
    zero.  All three anchors are found here, and the parse raises a
    [TypeError] on the sum of a number and a text. *)
Lemma text_in_value_column_raises :
  let ws := sheet_of 4 8 [ ((1, 1), VStr (txt "Revenue"));
                           ((2, 1), VStr (txt "Rent")); ((2, 8), VStr (txt "n/a"));
                           ((3, 1), VStr (txt "Expenses"));
                           ((4, 1), VStr (txt "Income")) ] in
  find_anchor_rows ws
  = Ok {| rev_start := Some 1; exp_start := Some 3; inc_start := Some 4 |}
  /\ find_ytd_column ws = 8
  /\ parse_income_sheet_ytd (fun _ => []) ws = Raise TypeError.
Proof. cbv zeta. repeat split; vm_compute; reflexivity. Qed.

(** C3, amended: for an income sheet in which all three anchors are
    found and in which the value-column cell of every band row that is not
    passed over is a number or empty, [parse_income_sheet_ytd] returns
    without error, and each map holds, under each key, the sum of the
    value-column cells of the band's rows that are not passed over and
    normalise to the key, an empty cell counting as zero. *)
Theorem parse_income_sheet_ytd_accumulates (str_of_number : Q -> text)
  (ws : worksheet) (r e i : nat) :
  let col := find_ytd_column ws in
  let rev_rows := band_rows str_of_number ws (lits "total revenue") (range (r + 1) e) in
  let exp_rows :=
    band_rows str_of_number ws (lits "total operating expenses") (range (e + 1) i) in
  let inc_rows := income_rows str_of_number ws (range (i + 1) (max_row ws + 1)) in
  find_anchor_rows ws
  = Ok {| rev_start := Some r; exp_start := Some e; inc_start := Some i |} ->
  (forall row, In row (rev_rows ++ exp_rows ++ inc_rows) ->
               numeric_or_empty (cell_value ws row col)) ->
  exists rev_dict exp_dict inc_dict,
    parse_income_sheet_ytd str_of_number ws = Ok (rev_dict, exp_dict, inc_dict)
    /\ forall k,
         dict_get rev_dict k = accumulated str_of_number ws col rev_rows k
         /\ dict_get exp_dict k = accumulated str_of_number ws col exp_rows k
         /\ dict_get inc_dict k = accumulated str_of_number ws col inc_rows k.
Proof.
  intros col rev_rows exp_rows inc_rows Hanchors Hnum.
  unfold parse_income_sheet_ytd, parse_income_sheet. rewrite Hanchors.
  cbn [mbind result_bind rev_start exp_start inc_start]. fold col.
  destruct (parse_band_accumulates str_of_number ws col
              (lits "total revenue") (range (r + 1) e) [])
    as (rev_dict & -> & Hrev).
  { intros row Hin. apply Hnum. apply in_or_app. left. exact Hin. }
  destruct (parse_band_accumulates str_of_number ws col
              (lits "total operating expenses") (range (e + 1) i) [])
    as (exp_dict & -> & Hexp).
  { intros row Hin. apply Hnum. apply in_or_app. right. apply in_or_app. left. exact Hin. }
  destruct (parse_income_band_accumulates str_of_number ws col
              (range (i + 1) (max_row ws + 1)) [])
    as (inc_dict & -> & Hinc).
  { intros row Hin. apply Hnum. apply in_or_app. right. apply in_or_app. right. exact Hin. }
  exists rev_dict, exp_dict, inc_dict. split; [reflexivity|].
  intros k. rewrite Hrev, Hexp, Hinc. repeat split.
Qed.

Lemma parse_income_sheet_ytd_accumulates_witness :
  exists rev_dict exp_dict inc_dict,
    parse_income_sheet_ytd (fun _ => [])
      (sheet_of 7 3 [ ((1, 1), VStr (txt "Account")); ((1, 3), VStr (txt "YTD"));
                      ((2, 1), VStr (txt "Revenue"));
                      ((3, 1), VStr (txt "Industrial Rent")); ((3, 3), VNum 1000);
                      ((4, 1), VStr (txt "Rental Revenue"));
                      ((5, 1), VStr (txt "Expenses"));
                      ((6, 1), VStr (txt "Income"));
                      ((7, 1), VStr (txt "Management Fee")); ((7, 3), VNum 5) ])
    = Ok (rev_dict, exp_dict, inc_dict)
    /\ dict_get rev_dict (txt "rental income") = Some (0 + 1000 + 0)%Q.
Proof.
  destruct (parse_income_sheet_ytd_accumulates (fun _ => [])
    (sheet_of 7 3 [ ((1, 1), VStr (txt "Account")); ((1, 3), VStr (txt "YTD"));
                    ((2, 1), VStr (txt "Revenue"));
                    ((3, 1), VStr (txt "Industrial Rent")); ((3, 3), VNum 1000);
                    ((4, 1), VStr (txt "Rental Revenue"));
                    ((5, 1), VStr (txt "Expenses"));
                    ((6, 1), VStr (txt "Income"));
                    ((7, 1), VStr (txt "Management Fee")); ((7, 3), VNum 5) ])
    2 5 6) as (rev_dict & exp_dict & inc_dict & Hparse & Hget).
  - vm_compute; reflexivity.
  - intros row Hin. vm_compute in Hin.
    destruct Hin as [<-|[<-|[<-|[]]]]; vm_compute; exact I.
  - exists rev_dict, exp_dict, inc_dict. split; [exact Hparse|].
    destruct (Hget (txt "rental income")) as [-> _]. vm_compute. reflexivity.
Defined.

(** ** The Weston halving rule *)





Section HalvingFacts.

Variable str_of_number : Q -> text.
Variable score : text -> text -> Z.
Variable fuzzy_threshold : Z.
Variable file_year : Z.



Lemma in_halve (d : dict Q) (v' : Q) :
  In v' (List.map snd (halve d)) -> exists k v, In (k, v) d /\ v' = (v / 2)%Q.
Proof.
  unfold halve. rewrite map_map. cbn. rewrite in_map_iff.
  intros ([k v] & <- & Hin). exists k, v. split; [exact Hin | reflexivity].
Qed.










End HalvingFacts.



(** ** The prior-year income statement *)

Lemma extractOne_none (score : text -> text -> Z) (q : text) (choices : list text) :
  extractOne score q choices = None -> choices = [].
Proof.
  destruct choices as [|c cs]; [reflexivity|]. cbn.
  destruct (extractOne score q cs) as [[b sb]|]; [destruct (_ <? _)%Z|]; discriminate.
Qed.

(** C9: when the best match for "RENTAL INCOME" scores below 95, or the
    best matches for "NET PROFIT/(LOSS)" and for "NET RENTAL INCOME (LOSS)"
    both do, the prior-year extraction raises while the stage is
    "Processing last year's income statement": it yields no values, and
    the run ends in the outer handler with that stage, whatever the rest of
    the function would have done. *)
Theorem low_prior_year_score_is_fatal (parse_number : text -> option Q)
  (str_of_number : Q -> text) (wratio : text -> text -> Z)
  (sheets : list (text * grid)) (name : text) (df_last : grid) (stage_before : string) :
  List.find (fun sh => text_eqb (fst sh) (txt "Income_statement")) sheets
  = Some (name, df_last) ->
  (exists l s, extractOne wratio (txt "RENTAL INCOME") (col0_texts str_of_number df_last)
               = Some (l, s) /\ (s < 95)%Z)
  \/ ((exists l s, extractOne wratio (txt "NET PROFIT/(LOSS)")
                     (col0_texts str_of_number df_last) = Some (l, s) /\ (s < 95)%Z)
      /\ (exists l s, extractOne wratio (txt "NET RENTAL INCOME (LOSS)")
                        (col0_texts str_of_number df_last) = Some (l, s) /\ (s < 95)%Z)) ->
  exists e,
    last_year_income parse_number str_of_number wratio (Some sheets) stage_before
    = (stage_last_year_income, Raise e)
    /\ forall (A : Type) (rest : dict (option Q * option Q) -> staged A),
         process_all_files_from_last_year parse_number str_of_number wratio
           (Some sheets) rest stage_before
         = Fatal stage_last_year_income e.
Proof.
  intros Hsheet Hlow.
  assert (Hraise : exists e,
    last_year_income parse_number str_of_number wratio (Some sheets) stage_before
    = (stage_last_year_income, Raise e)).
  { unfold last_year_income, stage_bind, reraise, set_stage, stage_ret, lift.
    rewrite Hsheet. cbn [snd].
    destruct (has_column df_last 0) as [[]|e]; cbn [mbind result_bind]; [|eauto].
    destruct (extractOne wratio (txt "RENTAL INCOME") _) as [[start_label s0]|] eqn:Hstart.
    2:{ cbn. eauto. }
    cbn [unpack mbind result_bind].
    destruct (s0 <? 95)%Z eqn:Hs0; [eauto|].
    destruct Hlow as [(l & s & [= <- <-] & Hlt) | [(l1 & s1 & H1 & Hlt1) (l2 & s2 & H2 & Hlt2)]].
    { apply Z.ltb_ge in Hs0. lia. }
    destruct (first_index (col0_is start_label) df_last) as [start_last|e];
      cbn [mbind result_bind]; [|eauto].
    rewrite H1. cbn [unpack mbind result_bind].
    apply Z.ltb_lt in Hlt1, Hlt2. rewrite Hlt1, H2. cbn [unpack mbind result_bind].
    rewrite Hlt2. cbn [mbind result_bind]. eauto. }
  destruct Hraise as [e He]. exists e. split; [exact He|].
  intros A rest. unfold process_all_files_from_last_year, stage_bind. rewrite He. reflexivity.
Qed.

Lemma low_prior_year_score_is_fatal_witness :
  exists e,
    forall (A : Type) (rest : dict (option Q * option Q) -> staged A),
      process_all_files_from_last_year (fun _ => None) (fun _ => []) (fun _ _ => 40%Z)
        (Some [ (txt "Income_statement",
                 [ [VStr (txt "REVENUE"); VNum 1]; [VStr (txt "Parking"); VNum 2] ]) ])
        rest "Processing budget data"
      = Fatal stage_last_year_income e.
Proof.
  destruct (low_prior_year_score_is_fatal (fun _ => None) (fun _ => []) (fun _ _ => 40%Z)
    [ (txt "Income_statement",
       [ [VStr (txt "REVENUE"); VNum 1]; [VStr (txt "Parking"); VNum 2] ]) ]
    (txt "Income_statement")
    [ [VStr (txt "REVENUE"); VNum 1]; [VStr (txt "Parking"); VNum 2] ]
    "Processing budget data") as (e & _ & Hfatal).
  - vm_compute; reflexivity.
  - left. exists (txt "REVENUE"), 40%Z. split; [vm_compute; reflexivity | lia].
  - exists e. exact Hfatal.
Defined.

(** ** Termination of the balance-sheet section parser *)

Lemma group_total_bounds (sum_col : nat) (rows : list (list value)) (j : nat) (total : Q)
  (j' : nat) (total' : Q) :
  group_total sum_col rows j total = Ok (j', total') ->
  (j <= j' <= j + length rows)%nat.
Proof.
  revert j total. induction rows as [|row rows IH]; intros j total H; cbn in H.
  - injection H as <- _. cbn. lia.
  - destruct (is_str (row_cell row 0) && negb (row_has_digit row)).
    + injection H as <- _. cbn. lia.
    + destruct (at_col row sum_col) as [val_j|]; cbn in H; [|discriminate].
      apply IH in H. cbn [length]. lia.
Qed.

Lemma section_step_advances (section : grid) (sum_col i : nat) (res : dict Q)
  (i' : nat) (res' : dict Q) :
  (i < length section)%nat ->
  section_step section sum_col i res = Ok (i', res') ->
  (i < i' <= length section)%nat.
Proof.
  intros Hi H. unfold section_step in H.
  destruct (row_cell (nth i section []) 0) as [|cell_i|q];
    [injection H as <- _; lia | | injection H as <- _; lia].
  destruct (starts_with _ _ && negb _).
  { destruct (row_nums _); injection H as <- _; lia. }
  destruct (text_eqb _ _); [injection H as <- _; lia|].
  destruct (nonzero _); [|injection H as <- _; lia].
  destruct (group_total sum_col (skipn (i + 1) section) (i + 1) 0) as [[j total]|] eqn:Hg;
    cbn in H; [|discriminate].
  injection H as <- _. apply group_total_bounds in Hg.
  rewrite length_skipn in Hg. lia.
Qed.

Lemma section_loop_returns (fuel : nat) (section : grid) (sum_col i : nat) (res : dict Q) :
  (length section - i <= fuel)%nat ->
  exists out, section_loop fuel section sum_col i res = Some out.
Proof.
  revert i res. induction fuel as [|fuel IH]; intros i res Hfuel.
  - cbn. destruct (Nat.leb_spec (length section) i); [eauto | lia].
  - cbn. destruct (Nat.leb_spec (length section) i) as [|Hlt]; [eauto|].
    destruct (section_step section sum_col i res) as [[i' res']|e] eqn:Hstep; [|eauto].
    apply section_step_advances in Hstep; [|exact Hlt]. apply IH. lia.
Qed.

(** C10: every turn of the row loop of [parse_section] that does not
    raise moves the cursor forward by at least one row and never past the
    end of the section (the group-header branch included), so the loop
    ends within as many turns as the section has rows, and
    [parse_section] returns on every grid. *)
Theorem parse_section_terminates :
  (forall (section : grid) (sum_col i : nat) (res : dict Q) (i' : nat) (res' : dict Q),
     (i < length section)%nat ->
     section_step section sum_col i res = Ok (i', res') ->
     (i < i' <= length section)%nat)
  /\ (forall (section : grid) (sum_col : nat) (res : dict Q),
        exists out, section_loop (length section) section sum_col 0 res = Some out)
  /\ (forall (df : grid) (start_label total_label : string),
        exists d, parse_section df start_label total_label = Some d).
Proof.
  split; [exact section_step_advances|]. split.
  - intros. apply section_loop_returns. lia.
  - intros df start_label total_label. unfold parse_section.
    destruct (has_column df 0); [|eauto].
    destruct (index_from _ df 0) as [start_idx|]; [|eauto].
    destruct (index_from (col0_contains_ic total_label) df 0) as [end_idx|]; [|eauto].
    destruct (section_loop_returns
                (length (firstn (end_idx - 1 - start_idx) (skipn (start_idx + 1) df)))
                (firstn (end_idx - 1 - start_idx) (skipn (start_idx + 1) df))
                (find_sum_col (firstn (end_idx - 1 - start_idx) (skipn (start_idx + 1) df)))
                0 []) as [[res|e] ->]; [lia | eauto | eauto].
Qed.

(** ** The budget triple *)

Lemma Qeq_bool_sym_eq (p q : Q) : Qeq_bool p q = Qeq_bool q p.
Proof.
  destruct (Qeq_bool p q) eqn:E1, (Qeq_bool q p) eqn:E2; try reflexivity.
  - apply Qeq_bool_iff in E1. symmetry in E1. apply Qeq_bool_iff in E1. congruence.
  - apply Qeq_bool_iff in E2. symmetry in E2. apply Qeq_bool_iff in E2. congruence.
Qed.

Lemma value_eqb_refl (v : value) : value_eqb v v = true.
Proof. destruct v; cbn; [reflexivity | apply text_eqb_refl | apply Qeq_bool_refl]. Qed.

Lemma value_eqb_sym (a b : value) : value_eqb a b = value_eqb b a.
Proof.
  destruct a, b; cbn; try reflexivity.
  - unfold text_eqb. apply bool_decide_ext. split; congruence.
  - apply Qeq_bool_sym_eq.
Qed.

Lemma value_eqb_trans (a b c : value) :
  value_eqb a b = true -> value_eqb b c = true -> value_eqb a c = true.
Proof.
  destruct a, b, c; cbn; try discriminate; try reflexivity.
  - rewrite !text_eqb_eq. congruence.
  - intros H1 H2. apply Qeq_bool_iff in H1, H2. apply Qeq_bool_iff.
    rewrite H1. exact H2.
Qed.

Lemma value_eqb_str (s : text) (v : value) : value_eqb (VStr s) v = true -> v = VStr s.
Proof.
  destruct v; cbn; try discriminate. rewrite text_eqb_eq. congruence.
Qed.

Lemma vdict_get_set {V} (d : list (value * V)) (k k' : value) (v : V) :
  vdict_get (vdict_set d k v) k' = if value_eqb k' k then Some v else vdict_get d k'.
Proof.
  induction d as [|[k0 v0] d IH]; cbn.
  - destruct (value_eqb k' k); reflexivity.
  - destruct (value_eqb k k0) eqn:E; cbn.
    + destruct (value_eqb k' k0) eqn:E0.
      * rewrite (value_eqb_trans k' k0 k E0); [reflexivity|].
        rewrite value_eqb_sym. exact E.
      * destruct (value_eqb k' k) eqn:E1; [|reflexivity].
        rewrite (value_eqb_trans k' k k0 E1 E) in E0. discriminate.
    + rewrite IH. destruct (value_eqb k' k0) eqn:E0; [|reflexivity].
      destruct (value_eqb k' k) eqn:E1; [|reflexivity].
      rewrite value_eqb_sym in E1. rewrite (value_eqb_trans k k' k0 E1 E0) in E.
      discriminate.
Qed.

Lemma last_index_from_acc {A} (f : A -> bool) (l : list A) (i : nat) (acc : option nat) :
  last_index_from f l i acc
  = match last_index_from f l i None with
    | Some c => Some c
    | None => acc
    end.
Proof.
  revert i acc. induction l as [|x l IH]; intros i acc; cbn; [reflexivity|].
  rewrite (IH (S i) (if f x then Some i else acc)), (IH (S i) (if f x then Some i else None)).
  destruct (last_index_from f l (S i) None); [reflexivity|]. destruct (f x); reflexivity.
Qed.

(** The dict built from the month labels maps a key to the last column
    that bears it. *)
Lemma month_to_col_get (months : list value) (i n : nat) (d : list (value * nat))
  (k : value) :
  (length months <= n)%nat ->
  vdict_get (fold_left (fun d mc => vdict_set d (fst mc) (snd mc))
               (combine months (seq i n)) d) k
  = match last_index_from (fun m => value_eqb k m) months i None with
    | Some c => Some c
    | None => vdict_get d k
    end.
Proof.
  revert i n d. induction months as [|m months IH]; intros i n d Hlen; cbn; [reflexivity|].
  destruct n as [|n]; [cbn in Hlen; lia|]. cbn [seq combine fold_left fst snd].
  rewrite IH by (cbn in Hlen; lia). rewrite vdict_get_set.
  rewrite (last_index_from_acc _ months (S i) (if value_eqb k m then Some i else None)).
  destruct (last_index_from _ months (S i) None); [reflexivity|].
  destruct (value_eqb k m); reflexivity.
Qed.

Lemma list_eq_nil_dec {A} (l : list A) : l = [] \/ l <> [].
Proof. destruct l; [left; reflexivity | right; discriminate]. Qed.

Lemma last_cons {A} (d x : A) (l : list A) : l <> [] -> List.last (x :: l) d = List.last l d.
Proof. destruct l; [contradiction | reflexivity]. Qed.

Lemma last_index_from_last {A} (f : A -> A -> bool) (d : A) (l : list A) (i : nat)
  (acc : option nat) :
  (forall x, f x x = true) -> l <> [] ->
  last_index_from (f (List.last l d)) l i acc = Some (i + length l - 1)%nat.
Proof.
  intros Hrefl. revert i acc. induction l as [|x l IH]; intros i acc Hne; [contradiction|].
  destruct (list_eq_nil_dec l) as [->|Hl].
  - cbn. rewrite Hrefl. f_equal. lia.
  - rewrite (last_cons d x l Hl). cbn [last_index_from].
    rewrite IH by exact Hl. f_equal. cbn [length].
    destruct l; [contradiction | cbn [length]; lia].
Qed.

Lemma last_index_from_found {A} (f : A -> bool) (d : A) (l : list A) (i c : nat) :
  last_index_from f l i None = Some c ->
  (i <= c < i + length l)%nat /\ f (nth (c - i) l d) = true.
Proof.
  revert i. induction l as [|x l IH]; intros i H; cbn in H; [discriminate|].
  rewrite last_index_from_acc in H.
  destruct (last_index_from f l (S i) None) as [c'|] eqn:E.
  - injection H as ->. apply IH in E as [Hc Hf]. split; [cbn [length]; lia|].
    replace (c - i)%nat with (S (c - S i)) by lia. exact Hf.
  - destruct (f x) eqn:Hx; [|discriminate]. injection H as <-.
    split; [cbn [length]; lia|]. rewrite Nat.sub_diag. exact Hx.
Qed.

Lemma firstn_skipn_nth {A} (d : A) (l : list A) (a n : nat) :
  (a + n <= length l)%nat ->
  firstn n (skipn a l) = List.map (fun c => nth c l d) (seq a n).
Proof.
  revert a l. induction n as [|n IH]; intros a l Hlen; [reflexivity|].
  cbn [seq List.map]. rewrite <- IH by lia.
  revert l Hlen. induction a as [|a IHa]; intros l Hlen.
  - destruct l as [|x l]; [cbn in Hlen; lia | reflexivity].
  - destruct l as [|x l]; [cbn in Hlen; lia|]. cbn [skipn nth].
    apply IHa. cbn in Hlen. lia.
Qed.

Lemma fold_left_over_map {A B C} (f : A -> C -> A) (g : B -> C) (l : list B) (a : A) :
  fold_left f (List.map g l) a = fold_left (fun acc x => f acc (g x)) l a.
Proof. revert a. induction l as [|x l IH]; intros a; cbn; [reflexivity | apply IH]. Qed.

Section BudgetFacts.

Variable parse_number : text -> option Q.
Variables sel tot : nat.
Hypothesis sel_ge_2 : (2 <= sel)%nat.

Lemma budget_row_labelled (row : list value) (raw : text)
  (d d' : dict triple) :
  row_cell row 0 = VStr raw ->
  budget_row parse_number sel tot row d = Ok d' ->
  d' = dict_set d (strip raw) (row_triple parse_number sel tot row).
Proof.
  intros Hraw H. unfold budget_row in H. rewrite Hraw in H.
  destruct (nth_error row sel) as [m_cell|] eqn:Hm; [|discriminate].
  destruct (nth_error row tot) as [a_cell|] eqn:Ha; [|discriminate].
  injection H as <-. unfold row_triple, row_cell, ytd_by_columns, sum_skipna, range.
  rewrite (nth_error_nth _ _ VNone Hm), (nth_error_nth _ _ VNone Ha).
  assert (Hlen : (sel < length row)%nat) by (apply nth_error_Some; congruence).
  rewrite (firstn_skipn_nth VNone) by lia.
  rewrite map_map, fold_left_over_map. reflexivity.
Qed.

Lemma budget_row_unlabelled (row : list value) (d d' : dict triple) :
  (forall raw, row_cell row 0 <> VStr raw) ->
  budget_row parse_number sel tot row d = Ok d' -> d' = d.
Proof.
  intros Hraw H. unfold budget_row in H.
  destruct (row_cell row 0) as [|raw|q]; [|destruct (Hraw raw eq_refl)|]; congruence.
Qed.

Lemma budget_rows_app (l1 l2 : list (list value)) (d : dict triple) :
  budget_rows parse_number sel tot (l1 ++ l2) d
  = (d1 ← budget_rows parse_number sel tot l1 d; budget_rows parse_number sel tot l2 d1).
Proof.
  revert d. induction l1 as [|row l1 IH]; intros d; cbn; [reflexivity|].
  destruct (budget_row parse_number sel tot row d); cbn; [apply IH | reflexivity].
Qed.

(** Rows that do not bear the label [k] leave the entry of [k] alone. *)
Lemma budget_rows_other_labels (rows : list (list value)) (k : text)
  (d d' : dict triple) :
  (forall row raw, In row rows -> row_cell row 0 = VStr raw -> strip raw <> k) ->
  budget_rows parse_number sel tot rows d = Ok d' ->
  dict_get d' k = dict_get d k.
Proof.
  revert d. induction rows as [|row rows IH]; intros d Hother H; cbn in H.
  - injection H as <-. reflexivity.
  - destruct (budget_row parse_number sel tot row d) as [d1|] eqn:Hrow; cbn in H;
      [|discriminate].
    rewrite (IH d1) by (intros; eauto using in_cons).
    destruct (row_cell row 0) as [|raw|q] eqn:Hraw.
    + apply budget_row_unlabelled in Hrow as ->; [reflexivity | congruence].
    + apply (budget_row_labelled _ raw) in Hrow as ->; [|exact Hraw].
      rewrite dict_get_set. destruct (text_eqb k (strip raw)) eqn:E; [|reflexivity].
      apply text_eqb_eq in E. destruct (Hother row raw (or_introl eq_refl) Hraw).
      congruence.
    + apply budget_row_unlabelled in Hrow as ->; [reflexivity | congruence].
Qed.

(** Every entry comes from a labelled row, or was there before. *)
Lemma budget_rows_entries (rows : list (list value)) (k : text) (t : triple)
  (d d' : dict triple) :
  budget_rows parse_number sel tot rows d = Ok d' ->
  dict_get d' k = Some t ->
  dict_get d k = Some t
  \/ exists row raw, In row rows /\ row_cell row 0 = VStr raw /\ strip raw = k
                     /\ t = row_triple parse_number sel tot row.
Proof.
  revert d. induction rows as [|row rows IH]; intros d H Hget; cbn in H.
  - injection H as <-. left. exact Hget.
  - destruct (budget_row parse_number sel tot row d) as [d1|] eqn:Hrow; cbn in H;
      [|discriminate].
    destruct (IH d1 H Hget) as [Hd1 | (row' & raw & Hin & Hraw & Hk & Ht)].
    2:{ right. exists row', raw. repeat split; try assumption. right. exact Hin. }
    destruct (row_cell row 0) as [|raw|q] eqn:Hraw.
    + apply budget_row_unlabelled in Hrow as ->; [left; exact Hd1 | congruence].
    + apply (budget_row_labelled _ raw) in Hrow as ->; [|exact Hraw].
      rewrite dict_get_set in Hd1. destruct (text_eqb k (strip raw)) eqn:E;
        [|left; exact Hd1].
      apply text_eqb_eq in E. injection Hd1 as <-. right. exists row, raw.
      repeat split; [left; reflexivity | exact Hraw | congruence].
    + apply budget_row_unlabelled in Hrow as ->; [left; exact Hd1 | congruence].
Qed.

End BudgetFacts.

(** C7: in the budget extraction, the selected column is the last of the
    columns 2 to 13 whose header cell is the selected month, the total
    column is one past the column of the last month label, and the run
    goes from the first "Rental Revenue" row through the first row of the
    end label.  Every row of the run with a text label has its triple
    extracted under its stripped label: the month value is the numeric
    parse of its selected-month cell, the YTD value the sum of the numbers
    of its columns 2 to the selected column, and the annual value the
    numeric parse of its total-column cell; a later row of the run with
    the same label takes the entry over.  Every extracted triple is the
    triple of a labelled row of the run. *)
Theorem budget_rows_triple (parse_number : text -> option Q) (df : grid) (file_year : Z)
  (selected_month : text) (lay : budget_layout) (results : dict triple) :
  locate_budget df file_year selected_month = Ok lay ->
  extract_budget parse_number df file_year selected_month = Ok results ->
  let months := firstn 12 (skipn 2 (nth (hdr lay) df [])) in
  let run := firstn (run_end lay - run_start lay) (skipn (run_start lay) df) in
  last_index_from (fun m => value_eqb (VStr selected_month) m) months 2 None
  = Some (sel_col lay)
  /\ nth (sel_col lay - 2) months VNone = VStr selected_month
  /\ total_col lay = S (2 + length months - 1)
  /\ index_from (col0_is (txt "Rental Revenue")) df 0 = Some (run_start lay)
  /\ (exists end_lbl,
        (end_lbl = txt "NET PROFIT/(LOSS)" \/ end_lbl = txt "NET RENTAL INCOME (LOSS)")
        /\ index_from (col0_is end_lbl) df 0 = Some (run_end lay - 1)%nat
        /\ (0 < run_end lay)%nat)
  /\ (forall before row after raw,
        run = before ++ row :: after ->
        row_cell row 0 = VStr raw ->
        (forall row' raw', In row' after -> row_cell row' 0 = VStr raw' ->
                           strip raw' <> strip raw) ->
        dict_get results (strip raw)
        = Some (row_triple parse_number (sel_col lay) (total_col lay) row))
  /\ (forall k t,
        dict_get results k = Some t ->
        exists row raw, In row run /\ row_cell row 0 = VStr raw /\ strip raw = k
                        /\ t = row_triple parse_number (sel_col lay) (total_col lay) row).
Proof.
  intros Hlay Hres months run.
  unfold extract_budget in Hres. rewrite Hlay in Hres. cbn [mbind result_bind] in Hres.
  fold run in Hres.
  unfold locate_budget in Hlay.
  destruct (has_column df 0) as [[]|]; cbn [mbind result_bind] in Hlay; [|discriminate].
  destruct (has_column df 2) as [[]|] eqn:Hcol2; cbn [mbind result_bind] in Hlay;
    [|discriminate].
  destruct (first_index (fun row => _ && _) df) as [h|]; cbn [mbind result_bind] in Hlay;
    [|discriminate].
  unfold build_month_to_col, range in Hlay.
  rewrite !month_to_col_get in Hlay by (rewrite length_firstn; lia).
  cbn [vdict_get] in Hlay.
  destruct (last_index_from (fun m => value_eqb (VStr selected_month) m) _ 2 None)
    as [sel|] eqn:Hsel; cbv beta iota in Hlay; [|discriminate].
  unfold first_index in Hlay.
  destruct (index_from (col0_is (txt "Rental Revenue")) df 0) as [start|] eqn:Hstart;
    cbn [mbind result_bind] in Hlay; [|discriminate].
  destruct (index_from (col0_is (if existsb _ df then _ else _)) df 0) as [e|] eqn:Hend;
    cbn [mbind result_bind] in Hlay; [|discriminate].
  destruct (last_index_from (fun m => value_eqb (List.last _ VNone) m) _ 2 None)
    as [dec|] eqn:Hdec; cbv beta iota in Hlay; [|discriminate].
  injection Hlay as <-. cbn [hdr sel_col total_col run_start run_end] in *.
  subst months.
  assert (Hmonths : firstn 12 (skipn 2 (nth h df [])) <> []).
  { intros Hnil. rewrite Hnil in Hsel. discriminate. }
  pose proof (eq_trans (eq_sym Hdec)
                (last_index_from_last value_eqb VNone _ 2 None value_eqb_refl Hmonths)) as Hd.
  injection Hd as ->. clear Hdec.
  destruct (last_index_from_found _ VNone _ _ _ Hsel) as [Hrange Hm].
  apply value_eqb_str in Hm.
  split; [exact Hsel|]. split; [exact Hm|]. split; [lia|]. split; [reflexivity|].
  split.
  { eexists. split; [|split; [replace (e + 1 - 1)%nat with e by lia; exact Hend | lia]].
    destruct (existsb _ df); [left | right]; reflexivity. }
  split.
  - intros before row after raw Hrun Hraw Hlater.
    rewrite Hrun, budget_rows_app in Hres.
    destruct (budget_rows parse_number sel _ before []) as [d1|]; cbn in Hres;
      [|discriminate].
    destruct (budget_row parse_number sel _ row d1) as [d2|] eqn:Hrow; cbn in Hres;
      [|discriminate].
    rewrite (budget_rows_other_labels parse_number sel _ (proj1 Hrange) after (strip raw)
               d2 results Hlater Hres).
    apply (budget_row_labelled parse_number sel _ (proj1 Hrange) row raw) in Hrow as ->;
      [|exact Hraw].
    rewrite dict_get_set, text_eqb_refl. reflexivity.
  - intros k t Hget.
    destruct (budget_rows_entries parse_number sel _ (proj1 Hrange) _ k t [] results
                Hres Hget)
      as [Hnil | Hrow]; [discriminate | exact Hrow].
Qed.

Lemma budget_rows_triple_witness :
  let df : grid :=
    [ [VNum 2025; VNone; VStr (txt "Jan"); VStr (txt "Feb"); VStr (txt "Mar");
       VStr (txt "Apr"); VStr (txt "May"); VStr (txt "Jun"); VStr (txt "Jul");
       VStr (txt "Aug"); VStr (txt "Sep"); VStr (txt "Oct"); VStr (txt "Nov");
       VStr (txt "Dec"); VStr (txt "Total")];
      [VStr (txt "Rental Revenue"); VNone; VNum 1; VNum 2; VNum 3; VNum 4;
       VStr (txt "x"); VNum 6; VNum 7; VNum 8; VNum 9; VNum 10; VNum 11; VNum 12; VNum 78];
      [VStr (txt "NET PROFIT/(LOSS)"); VNone; VNum 1; VNum 1; VNum 1; VNum 1; VNum 1;
       VNum 1; VNum 1; VNum 1; VNum 1; VNum 1; VNum 1; VNum 1; VNum 12] ] in
  dict_get
    (match extract_budget (fun _ => None) df 2025 (txt "Jun") with
     | Ok results => results
     | Raise _ => []
     end) (txt "Rental Revenue")
  = Some (Some 6%Q, 16%Q, Some 78%Q).
Proof.
  cbv zeta.
  match goal with
  | |- dict_get (match extract_budget ?p ?df ?y ?m with _ => _ end) _ = _ =>
      pose proof (budget_rows_triple p df y m
        {| hdr := 0; sel_col := 7; total_col := 14; run_start := 1; run_end := 3 |}
        (match extract_budget p df y m with Ok results => results | Raise _ => [] end)
        ltac:(vm_compute; reflexivity) ltac:(vm_compute; reflexivity))
        as (_ & _ & _ & _ & _ & Hrows & _);
      specialize (Hrows [] (nth 1 df []) [nth 2 df []] (txt "Rental Revenue")
        ltac:(vm_compute; reflexivity) ltac:(vm_compute; reflexivity))
  end.
  cbn [strip] in Hrows.
  refine (eq_trans (eq_trans _ (Hrows _)) _).
  - vm_compute. reflexivity.
  - intros row' raw' [<-|[]] [= <-]. vm_compute. discriminate.
  - vm_compute. reflexivity.
Defined.

(** ** Idempotence of the label normaliser *)

(** *** Characters *)

Lemma is_word_bounds (c : char) : is_word c = true -> (48 <= c <= 122)%N.
Proof.
  unfold is_word, is_digit, is_upper, is_lower, between.
  rewrite !orb_true_iff, !andb_true_iff, !N.leb_le, N.eqb_eq. lia.
Qed.

Lemma is_space_not_word (c : char) : is_space c = true -> is_word c = false.
Proof.
  intros Hs. destruct (is_word c) eqn:Hw; [|reflexivity].
  apply is_word_bounds in Hw. revert Hs. unfold is_space, between.
  rewrite !orb_true_iff, !andb_true_iff, !N.leb_le, !N.eqb_eq. lia.
Qed.

Lemma is_space_not_digit (c : char) : is_space c = true -> is_digit c = false.
Proof.
  intros Hs. apply is_space_not_word in Hs. unfold is_word in Hs.
  destruct (is_digit c); [discriminate | reflexivity].
Qed.



(** *** Stripping *)









(** *** Collapsed whitespace *)










(** *** Word phrases at the ends of a text *)






















(* ===================================================================== *)
(** * Further properties of the run *)
(* ===================================================================== *)

(* ===================================================================== *)
(** ** The anchors and the parsed amounts *)
(* ===================================================================== *)

(** *** Anchors *)

Lemma scan_row_in_sheet (ws : worksheet) (val : text) (row : nat) (a : anchors) :
  (1 <= row <= max_row ws)%nat ->
  anchor_in_sheet ws (rev_start a) /\ anchor_in_sheet ws (exp_start a)
  /\ anchor_in_sheet ws (inc_start a) ->
  anchor_in_sheet ws (rev_start (scan_row val row a))
  /\ anchor_in_sheet ws (exp_start (scan_row val row a))
  /\ anchor_in_sheet ws (inc_start (scan_row val row a)).
Proof.
  intros Hrow (Hr & He & Hi). unfold scan_row.
  repeat case_match; cbn [rev_start exp_start inc_start];
    (split; [|split]); first [assumption | exact Hrow].
Qed.

Lemma scan_anchors_in_sheet (ws : worksheet) (rows : list nat) (a a' : anchors) :
  Forall (fun row => (1 <= row <= max_row ws)%nat) rows ->
  anchor_in_sheet ws (rev_start a) /\ anchor_in_sheet ws (exp_start a)
  /\ anchor_in_sheet ws (inc_start a) ->
  scan_anchors ws rows a = Ok a' ->
  anchor_in_sheet ws (rev_start a') /\ anchor_in_sheet ws (exp_start a')
  /\ anchor_in_sheet ws (inc_start a').
Proof.
  intros Hrows. revert a. induction Hrows as [|row rows Hrow _ IH]; intros a Ha H; cbn in H.
  - injection H as <-. exact Ha.
  - destruct (stripped_text (cell_value ws row 1)) as [val|]; cbn in H; [|discriminate].
    pose proof (scan_row_in_sheet ws val row a Hrow Ha) as Ha'.
    destruct (all_found (scan_row val row a)); [injection H as <-; exact Ha'|].
    exact (IH _ Ha' H).
Qed.

Lemma range_in_sheet (ws : worksheet) (a : nat) :
  (1 <= a)%nat -> Forall (fun row => (1 <= row <= max_row ws)%nat) (range a (max_row ws + 1)).
Proof.
  intros Ha. apply List.Forall_forall. intros r Hr. apply in_range in Hr. lia.
Qed.

Lemma find_in_range (f : nat -> bool) (a b r : nat) :
  List.find f (range a b) = Some r -> (a <= r < b)%nat.
Proof. intros H. apply find_some in H as [H _]. apply in_range in H. exact H. Qed.

Lemma fallback_in_sheet (ws : worksheet) (f : nat -> bool) (lo b : nat) :
  (1 <= b <= lo)%nat ->
  anchor_in_sheet ws
    (option_map (fun r => Nat.max (r - 1) b) (List.find f (range lo (max_row ws + 1)))).
Proof.
  intros Hb. destruct (List.find f _) as [r|] eqn:Hf; cbn; [|exact I].
  apply find_in_range in Hf. lia.
Qed.

(** X1: every anchor that [find_anchor_rows] returns is a row of the
    sheet: it lies between 1 and [max_row], whether the header scan set it
    or a fallback did. *)
Theorem anchors_lie_in_sheet (ws : worksheet) (a : anchors) :
  find_anchor_rows ws = Ok a ->
  anchor_in_sheet ws (rev_start a) /\ anchor_in_sheet ws (exp_start a)
  /\ anchor_in_sheet ws (inc_start a).
Proof.
  unfold find_anchor_rows. intros H.
  destruct (scan_anchors ws (range 1 (max_row ws + 1)) no_anchors) as [a0|] eqn:Hscan;
    cbn [mbind result_bind] in H; [|discriminate].
  apply scan_anchors_in_sheet in Hscan as (Hr & He & Hi);
    [|apply range_in_sheet; lia|cbn; auto].
  injection H as <-. cbn [rev_start exp_start inc_start].
  set (rev := match rev_start a0 with Some r => Some r | None => _ end).
  assert (Hrev : anchor_in_sheet ws rev).
  { subst rev. destruct (rev_start a0) as [r|]; [exact Hr|].
    apply fallback_in_sheet. lia. }
  set (exp := match exp_start a0 with None => _ | Some e => _ end).
  assert (Hexp : anchor_in_sheet ws exp).
  { subst exp. destruct (exp_start a0) as [e|]; [destruct rev; exact He|].
    destruct rev as [rv|]; [|exact I]. apply fallback_in_sheet. cbn in Hrev. lia. }
  split; [exact Hrev|]. split; [exact Hexp|].
  destruct (inc_start a0) as [i|]; [destruct exp; exact Hi|].
  destruct exp as [ex|]; [|exact I]. apply fallback_in_sheet. cbn in Hexp. lia.
Qed.

Lemma anchors_lie_in_sheet_witness :
  anchor_in_sheet
    (sheet_of 6 1 [ ((3, 1), VStr (txt "Rental Revenue"));
                    ((5, 1), VStr (txt "Advertising"));
                    ((6, 1), VStr (txt "Management Fee")) ]) (Some 2).
Proof.
  exact (proj1 (anchors_lie_in_sheet
    (sheet_of 6 1 [ ((3, 1), VStr (txt "Rental Revenue"));
                    ((5, 1), VStr (txt "Advertising"));
                    ((6, 1), VStr (txt "Management Fee")) ])
    {| rev_start := Some 2; exp_start := Some 4; inc_start := Some 5 |}
    ltac:(vm_compute; reflexivity))).
Defined.

(** *** Numeric label *)

Lemma scan_anchors_app (ws : worksheet) (l1 l2 : list nat) (a0 a : anchors) :
  scan_anchors ws l1 a0 = Ok a -> all_found a = false ->
  scan_anchors ws (l1 ++ l2) a0 = scan_anchors ws l2 a.
Proof.
  revert a0. induction l1 as [|row l1 IH]; intros a0 H Hnot; cbn in H.
  - injection H as <-. reflexivity.
  - cbn. destruct (stripped_text (cell_value ws row 1)) as [val|]; cbn in *; [|discriminate].
    destruct (all_found (scan_row val row a0)) eqn:E.
    + injection H as <-. congruence.
    + apply IH; assumption.
Qed.

(** X2: a number other than zero in column 1, on a row that the header
    scan reaches (the three headers have not all been found above it),
    makes [find_anchor_rows] raise [AttributeError], and with it both
    parsers of the income sheet: the code calls [strip] on the number. *)
Theorem numeric_label_raises (str_of_number : Q -> text) (ws : worksheet) (r : nat) (q : Q)
  (a : anchors) :
  (1 <= r <= max_row ws)%nat ->
  cell_value ws r 1 = VNum q -> Qeq_bool q 0 = false ->
  scan_anchors ws (range 1 r) no_anchors = Ok a -> all_found a = false ->
  find_anchor_rows ws = Raise AttributeError
  /\ parse_income_sheet_ytd str_of_number ws = Raise AttributeError
  /\ parse_income_sheet_month str_of_number ws = Raise AttributeError.
Proof.
  intros Hr Hcell Hq Hscan Hnot.
  assert (H : find_anchor_rows ws = Raise AttributeError).
  { unfold find_anchor_rows.
    rewrite (range_split 1 (max_row ws + 1) r) by lia.
    rewrite (scan_anchors_app ws _ _ _ a Hscan Hnot).
    cbn [scan_anchors]. rewrite Hcell. cbn. rewrite Hq. reflexivity. }
  split; [exact H|].
  unfold parse_income_sheet_ytd, parse_income_sheet_month, parse_income_sheet.
  rewrite H. split; reflexivity.
Qed.

Lemma numeric_label_raises_witness :
  parse_income_sheet_ytd (fun _ => [])
    (sheet_of 3 8 [ ((1, 1), VStr (txt "Revenue")); ((2, 1), VNum 2025);
                    ((3, 1), VStr (txt "Expenses")) ])
  = Raise AttributeError.
Proof.
  refine (proj1 (proj2 (numeric_label_raises (fun _ => [])
    (sheet_of 3 8 [ ((1, 1), VStr (txt "Revenue")); ((2, 1), VNum 2025);
                    ((3, 1), VStr (txt "Expenses")) ])
    2 2025 {| rev_start := Some 1; exp_start := None; inc_start := None |} _ _ _ _ _))).
  - vm_compute. lia.
  - vm_compute; reflexivity.
  - vm_compute; reflexivity.
  - vm_compute; reflexivity.
  - vm_compute; reflexivity.
Defined.

(** *** The parsers: text in the value column *)

Section ParserFacts.

Variable str_of_number : Q -> text.

Lemma amount_or_zero_text (v : value) :
  ~ numeric_or_empty v -> amount_or_zero v = Raise TypeError.
Proof. destruct v as [|[|c s]|q]; cbn; intros H; try (destruct H; exact I). reflexivity. Qed.

Lemma amount_or_zero_cases (v : value) :
  amount_or_zero v = Ok (cell_amount v) \/ amount_or_zero v = Raise TypeError.
Proof. destruct v as [|[|c s]|q]; cbn; auto. Qed.

Lemma parse_band_cases (ws : worksheet) (col : nat) (total : list atom) (rows : list nat)
  (d : dict Q) :
  (exists d', parse_band str_of_number ws col total rows d = Ok d')
  \/ parse_band str_of_number ws col total rows d = Raise TypeError.
Proof.
  revert d. induction rows as [|r rows IH]; intros d; cbn; [eauto|].
  destruct (negb _); [apply IH|]. destruct (search_word_phrase_ic _ _); [apply IH|].
  destruct (amount_or_zero_cases (cell_value ws r col)) as [-> | ->]; cbn; [apply IH | auto].
Qed.

Lemma parse_income_band_cases (ws : worksheet) (col : nat) (rows : list nat) (d : dict Q) :
  (exists d', parse_income_band str_of_number ws col rows d = Ok d')
  \/ parse_income_band str_of_number ws col rows d = Raise TypeError.
Proof.
  revert d. induction rows as [|r rows IH]; intros d; cbn; [eauto|].
  destruct (negb _); [eauto|]. destruct (_ || _); [eauto|].
  destruct (amount_or_zero_cases (cell_value ws r col)) as [-> | ->]; cbn; [apply IH | auto].
Qed.

Lemma parse_band_text (ws : worksheet) (col : nat) (total : list atom) (rows : list nat)
  (d : dict Q) (bad : nat) :
  In bad (band_rows str_of_number ws total rows) ->
  ~ numeric_or_empty (cell_value ws bad col) ->
  parse_band str_of_number ws col total rows d = Raise TypeError.
Proof.
  revert d. induction rows as [|r rows IH]; intros d Hin Hbad; cbn in *; [contradiction|].
  destruct (truthy (cell_value ws r 1)); cbn [negb andb] in *; [|apply IH; assumption].
  destruct (search_word_phrase_ic total _); cbn [negb] in *; [apply IH; assumption|].
  destruct (amount_or_zero_cases (cell_value ws r col)) as [E | ->]; [|reflexivity].
  rewrite E. cbn. destruct Hin as [<-|Hin]; [|apply IH; assumption].
  rewrite (amount_or_zero_text _ Hbad) in E. discriminate.
Qed.

Lemma parse_income_band_text (ws : worksheet) (col : nat) (rows : list nat)
  (d : dict Q) (bad : nat) :
  In bad (income_rows str_of_number ws rows) ->
  ~ numeric_or_empty (cell_value ws bad col) ->
  parse_income_band str_of_number ws col rows d = Raise TypeError.
Proof.
  revert d. induction rows as [|r rows IH]; intros d Hin Hbad;
    cbn [parse_income_band income_rows] in *; [contradiction|].
  destruct (truthy (cell_value ws r 1)); cbn [negb orb] in *; [|contradiction].
  destruct (search_word_phrase_ic (lits "total") _ || search_word_phrase_ic _ _);
    [contradiction|].
  destruct (amount_or_zero_cases (cell_value ws r col)) as [E | ->]; [|reflexivity].
  rewrite E. cbn [mbind result_bind]. apply in_inv in Hin as [<-|Hin];
    [|apply IH; assumption].
  rewrite (amount_or_zero_text _ Hbad) in E. discriminate.
Qed.

Lemma parse_income_sheet_text (find_col : worksheet -> nat) (ws : worksheet)
  (r e i bad : nat) :
  find_anchor_rows ws
  = Ok {| rev_start := Some r; exp_start := Some e; inc_start := Some i |} ->
  In bad (band_rows str_of_number ws (lits "total revenue") (range (r + 1) e)
          ++ band_rows str_of_number ws (lits "total operating expenses") (range (e + 1) i)
          ++ income_rows str_of_number ws (range (i + 1) (max_row ws + 1))) ->
  ~ numeric_or_empty (cell_value ws bad (find_col ws)) ->
  parse_income_sheet str_of_number find_col ws = Raise TypeError.
Proof.
  intros Hanchors Hin Hbad. unfold parse_income_sheet. rewrite Hanchors.
  cbn [mbind result_bind rev_start exp_start inc_start].
  apply in_app_or in Hin as [Hin|Hin].
  { rewrite (parse_band_text ws _ _ _ [] bad Hin Hbad). reflexivity. }
  destruct (parse_band_cases ws (find_col ws) (lits "total revenue") (range (r + 1) e) [])
    as [[rev_dict ->] | ->]; [|reflexivity].
  apply in_app_or in Hin as [Hin|Hin].
  { rewrite (parse_band_text ws _ _ _ [] bad Hin Hbad). reflexivity. }
  destruct (parse_band_cases ws (find_col ws) (lits "total operating expenses")
              (range (e + 1) i) []) as [[exp_dict ->] | ->]; [|reflexivity].
  rewrite (parse_income_band_text ws _ _ [] bad Hin Hbad). reflexivity.
Qed.

End ParserFacts.

(** X3: when the three anchors are found and a row that the parser
    reads (a band row that is not passed over) holds a text that is not
    empty in the value column, the parse raises [TypeError]; this holds of
    the year-to-date parser in its column and of the month parser in its
    own. *)
Theorem text_amount_is_a_type_error (str_of_number : Q -> text) (ws : worksheet)
  (r e i bad : nat) :
  find_anchor_rows ws
  = Ok {| rev_start := Some r; exp_start := Some e; inc_start := Some i |} ->
  In bad (band_rows str_of_number ws (lits "total revenue") (range (r + 1) e)
          ++ band_rows str_of_number ws (lits "total operating expenses") (range (e + 1) i)
          ++ income_rows str_of_number ws (range (i + 1) (max_row ws + 1))) ->
  (~ numeric_or_empty (cell_value ws bad (find_ytd_column ws)) ->
   parse_income_sheet_ytd str_of_number ws = Raise TypeError)
  /\ (~ numeric_or_empty (cell_value ws bad (find_month_column ws)) ->
      parse_income_sheet_month str_of_number ws = Raise TypeError).
Proof.
  intros Hanchors Hin. split; intros Hbad.
  - exact (parse_income_sheet_text str_of_number find_ytd_column ws r e i bad Hanchors Hin Hbad).
  - exact (parse_income_sheet_text str_of_number find_month_column ws r e i bad Hanchors Hin Hbad).
Qed.

Lemma text_amount_is_a_type_error_witness :
  parse_income_sheet_month (fun _ => [])
    (sheet_of 5 8 [ ((1, 1), VStr (txt "Revenue"));
                    ((2, 1), VStr (txt "Rent")); ((2, 2), VNum 10);
                    ((3, 1), VStr (txt "Expenses"));
                    ((4, 1), VStr (txt "Utilities")); ((4, 2), VStr (txt "-"));
                    ((5, 1), VStr (txt "Income")) ])
  = Raise TypeError.
Proof.
  refine (proj2 (text_amount_is_a_type_error (fun _ => [])
    (sheet_of 5 8 [ ((1, 1), VStr (txt "Revenue"));
                    ((2, 1), VStr (txt "Rent")); ((2, 2), VNum 10);
                    ((3, 1), VStr (txt "Expenses"));
                    ((4, 1), VStr (txt "Utilities")); ((4, 2), VStr (txt "-"));
                    ((5, 1), VStr (txt "Income")) ])
    1 3 5 4 _ _) _).
  - vm_compute; reflexivity.
  - vm_compute. right. left. reflexivity.
  - vm_compute. intros H. exact H.
Defined.

(** X4: the month parser is the year-to-date parser read in the Month
    column.  For an income sheet in which the three anchors are found and
    the Month-column cell of every row the parser reads is a number or
    empty, [parse_income_sheet_month] returns without error, and each map
    holds, under each key, the sum of the Month-column cells of the band's
    rows that normalise to the key; a key no row gives is absent. *)
Theorem parse_income_sheet_month_accumulates (str_of_number : Q -> text)
  (ws : worksheet) (r e i : nat) :
  let col := find_month_column ws in
  let rev_rows := band_rows str_of_number ws (lits "total revenue") (range (r + 1) e) in
  let exp_rows :=
    band_rows str_of_number ws (lits "total operating expenses") (range (e + 1) i) in
  let inc_rows := income_rows str_of_number ws (range (i + 1) (max_row ws + 1)) in
  find_anchor_rows ws
  = Ok {| rev_start := Some r; exp_start := Some e; inc_start := Some i |} ->
  (forall row, In row (rev_rows ++ exp_rows ++ inc_rows) ->
               numeric_or_empty (cell_value ws row col)) ->
  exists rev_dict exp_dict inc_dict,
    parse_income_sheet_month str_of_number ws = Ok (rev_dict, exp_dict, inc_dict)
    /\ forall k,
         dict_get rev_dict k = accumulated str_of_number ws col rev_rows k
         /\ dict_get exp_dict k = accumulated str_of_number ws col exp_rows k
         /\ dict_get inc_dict k = accumulated str_of_number ws col inc_rows k.
Proof.
  intros col rev_rows exp_rows inc_rows Hanchors Hnum.
  unfold parse_income_sheet_month, parse_income_sheet. rewrite Hanchors.
  cbn [mbind result_bind rev_start exp_start inc_start]. fold col.
  destruct (parse_band_accumulates str_of_number ws col
              (lits "total revenue") (range (r + 1) e) [])
    as (rev_dict & -> & Hrev).
  { intros row Hin. apply Hnum, in_or_app. left. exact Hin. }
  destruct (parse_band_accumulates str_of_number ws col
              (lits "total operating expenses") (range (e + 1) i) [])
    as (exp_dict & -> & Hexp).
  { intros row Hin. apply Hnum, in_or_app. right. apply in_or_app. left. exact Hin. }
  destruct (parse_income_band_accumulates str_of_number ws col
              (range (i + 1) (max_row ws + 1)) [])
    as (inc_dict & -> & Hinc).
  { intros row Hin. apply Hnum, in_or_app. right. apply in_or_app. right. exact Hin. }
  exists rev_dict, exp_dict, inc_dict. split; [reflexivity|].
  intros k. rewrite Hrev, Hexp, Hinc. repeat split.
Qed.

Lemma parse_income_sheet_month_accumulates_witness :
  exists rev_dict exp_dict inc_dict,
    parse_income_sheet_month (fun _ => [])
      (sheet_of 6 3 [ ((1, 2), VStr (txt "Current Month")); ((1, 3), VStr (txt "YTD"));
                      ((2, 1), VStr (txt "Revenue"));
                      ((3, 1), VStr (txt "Office Rent")); ((3, 2), VNum 40); ((3, 3), VNum 400);
                      ((4, 1), VStr (txt "Rental Income")); ((4, 2), VNum 2);
                      ((5, 1), VStr (txt "Expenses"));
                      ((6, 1), VStr (txt "Income")) ])
    = Ok (rev_dict, exp_dict, inc_dict)
    /\ dict_get rev_dict (txt "rental income") = Some (0 + 40 + 2)%Q.
Proof.
  destruct (parse_income_sheet_month_accumulates (fun _ => [])
    (sheet_of 6 3 [ ((1, 2), VStr (txt "Current Month")); ((1, 3), VStr (txt "YTD"));
                    ((2, 1), VStr (txt "Revenue"));
                    ((3, 1), VStr (txt "Office Rent")); ((3, 2), VNum 40); ((3, 3), VNum 400);
                    ((4, 1), VStr (txt "Rental Income")); ((4, 2), VNum 2);
                    ((5, 1), VStr (txt "Expenses"));
                    ((6, 1), VStr (txt "Income")) ])
    2 5 6) as (rev_dict & exp_dict & inc_dict & Hparse & Hget).
  - vm_compute; reflexivity.
  - intros row Hin. vm_compute in Hin.
    destruct Hin as [<-|[<-|[]]]; vm_compute; exact I.
  - exists rev_dict, exp_dict, inc_dict. split; [exact Hparse|].
    destruct (Hget (txt "rental income")) as [-> _]. vm_compute. reflexivity.
Defined.

(** *** Totals *)

Lemma dict_total_set (d : dict Q) (k : text) (v : Q) :
  (dict_total (dict_set d k v) + default 0 (dict_get d k) == dict_total d + v)%Q.
Proof.
  unfold dict_total.
  induction d as [|[k' v'] d IH]; cbn [dict_set dict_get].
  - cbn [fold_right snd from_option]. ring.
  - destruct (text_eqb k k'); cbn [fold_right snd from_option] in *.
    + unfold id. ring.
    + rewrite <- Qplus_assoc, IH. ring.
Qed.

Lemma dict_total_accumulate (d : dict Q) (k : text) (v : Q) :
  (dict_total (accumulate d k v) == dict_total d + v)%Q.
Proof.
  unfold accumulate.
  pose proof (dict_total_set d k (default 0%Q (dict_get d k) + v)%Q) as H. revert H.
  generalize (default 0%Q (dict_get d k)). intros q H.
  apply (Qplus_inj_r _ _ q). rewrite H. ring.
Qed.

Section TotalFacts.

Variable str_of_number : Q -> text.

Lemma amount_or_zero_ok (v : value) (q : Q) :
  amount_or_zero v = Ok q -> q = cell_amount v.
Proof. destruct v as [|[|c s]|p]; cbn; congruence. Qed.

Lemma parse_band_total (ws : worksheet) (col : nat) (total : list atom) (rows : list nat)
  (d d' : dict Q) :
  parse_band str_of_number ws col total rows d = Ok d' ->
  (dict_total d' == dict_total d
                    + column_total ws col (band_rows str_of_number ws total rows))%Q.
Proof.
  revert d. induction rows as [|r rows IH]; intros d H; cbn [parse_band band_rows List.filter] in *.
  - injection H as <-. unfold column_total. cbn [fold_right]. ring.
  - destruct (truthy (cell_value ws r 1)); cbn [negb andb] in *; [|apply IH, H].
    destruct (search_word_phrase_ic total _); cbn [negb] in *; [apply IH, H|].
    destruct (amount_or_zero (cell_value ws r col)) as [q|] eqn:E;
      cbn [mbind result_bind] in H; [|discriminate].
    apply amount_or_zero_ok in E as ->. apply IH in H. rewrite H, dict_total_accumulate.
    symmetry. apply Qplus_assoc.
Qed.

Lemma parse_income_band_total (ws : worksheet) (col : nat) (rows : list nat)
  (d d' : dict Q) :
  parse_income_band str_of_number ws col rows d = Ok d' ->
  (dict_total d' == dict_total d
                    + column_total ws col (income_rows str_of_number ws rows))%Q.
Proof.
  revert d. induction rows as [|r rows IH]; intros d H; cbn [parse_income_band income_rows] in *.
  - injection H as <-. unfold column_total. cbn [fold_right]. ring.
  - destruct (truthy (cell_value ws r 1)); cbn [negb orb] in *;
      [|injection H as <-; unfold column_total; cbn [fold_right]; ring].
    destruct (search_word_phrase_ic (lits "total") _ || search_word_phrase_ic _ _);
      [injection H as <-; unfold column_total; cbn [fold_right]; ring|].
    destruct (amount_or_zero (cell_value ws r col)) as [q|] eqn:E;
      cbn [mbind result_bind] in H; [|discriminate].
    apply amount_or_zero_ok in E as ->. apply IH in H. rewrite H, dict_total_accumulate.
    symmetry. apply Qplus_assoc.
Qed.

Lemma parse_income_sheet_total (find_col : worksheet -> nat) (ws : worksheet) (r e i : nat)
  (rev_dict exp_dict inc_dict : dict Q) :
  find_anchor_rows ws
  = Ok {| rev_start := Some r; exp_start := Some e; inc_start := Some i |} ->
  parse_income_sheet str_of_number find_col ws = Ok (rev_dict, exp_dict, inc_dict) ->
  (dict_total rev_dict
   == column_total ws (find_col ws)
        (band_rows str_of_number ws (lits "total revenue") (range (r + 1) e)))%Q
  /\ (dict_total exp_dict
      == column_total ws (find_col ws)
           (band_rows str_of_number ws (lits "total operating expenses") (range (e + 1) i)))%Q
  /\ (dict_total inc_dict
      == column_total ws (find_col ws)
           (income_rows str_of_number ws (range (i + 1) (max_row ws + 1))))%Q.
Proof.
  intros Hanchors H. unfold parse_income_sheet in H. rewrite Hanchors in H.
  cbn [mbind result_bind rev_start exp_start inc_start] in H.
  destruct (parse_band str_of_number ws (find_col ws) (lits "total revenue") _ [])
    as [rd|] eqn:Hrev; cbn [mbind result_bind] in H; [|discriminate].
  destruct (parse_band str_of_number ws (find_col ws) (lits "total operating expenses") _ [])
    as [ed|] eqn:Hexp; cbn [mbind result_bind] in H; [|discriminate].
  destruct (parse_income_band str_of_number ws (find_col ws) _ [])
    as [id|] eqn:Hinc; cbn [mbind result_bind] in H; [|discriminate].
  injection H as <- <- <-.
  apply parse_band_total in Hrev, Hexp. apply parse_income_band_total in Hinc.
  cbn [dict_total fold_right] in *. rewrite Hrev, Hexp, Hinc. repeat split; ring.
Qed.

End TotalFacts.

(** X5: grouping by key loses no amount.  When the three anchors are
    found and the parse returns, the amounts of each map add up (as exact
    numbers) to the total of the value column over the rows the parser
    read in that band, for the year-to-date parser and for the month
    parser alike. *)
Theorem parsed_totals_are_conserved (str_of_number : Q -> text) (ws : worksheet) (r e i : nat) :
  find_anchor_rows ws
  = Ok {| rev_start := Some r; exp_start := Some e; inc_start := Some i |} ->
  let rev_rows := band_rows str_of_number ws (lits "total revenue") (range (r + 1) e) in
  let exp_rows :=
    band_rows str_of_number ws (lits "total operating expenses") (range (e + 1) i) in
  let inc_rows := income_rows str_of_number ws (range (i + 1) (max_row ws + 1)) in
  (forall rev_dict exp_dict inc_dict,
     parse_income_sheet_ytd str_of_number ws = Ok (rev_dict, exp_dict, inc_dict) ->
     (dict_total rev_dict == column_total ws (find_ytd_column ws) rev_rows)%Q
     /\ (dict_total exp_dict == column_total ws (find_ytd_column ws) exp_rows)%Q
     /\ (dict_total inc_dict == column_total ws (find_ytd_column ws) inc_rows)%Q)
  /\ (forall rev_dict exp_dict inc_dict,
        parse_income_sheet_month str_of_number ws = Ok (rev_dict, exp_dict, inc_dict) ->
        (dict_total rev_dict == column_total ws (find_month_column ws) rev_rows)%Q
        /\ (dict_total exp_dict == column_total ws (find_month_column ws) exp_rows)%Q
        /\ (dict_total inc_dict == column_total ws (find_month_column ws) inc_rows)%Q).
Proof.
  intros Hanchors rev_rows exp_rows inc_rows. split; intros rd ed id H.
  - exact (parse_income_sheet_total str_of_number find_ytd_column ws r e i rd ed id Hanchors H).
  - exact (parse_income_sheet_total str_of_number find_month_column ws r e i rd ed id Hanchors H).
Qed.

Lemma parsed_totals_are_conserved_witness :
  Qeq (dict_total [(txt "rental income", (0 + 1000 + 250)%Q)])
    (column_total
       (sheet_of 7 3 [ ((1, 3), VStr (txt "YTD"));
                       ((2, 1), VStr (txt "Revenue"));
                       ((3, 1), VStr (txt "Industrial Rent")); ((3, 3), VNum 1000);
                       ((4, 1), VStr (txt "Office Rent")); ((4, 3), VNum 250);
                       ((5, 1), VStr (txt "Expenses"));
                       ((6, 1), VStr (txt "Income")) ]) 3 [3; 4]).
Proof.
  refine (Qeq_trans _ _ _
    (proj1 (proj1 (parsed_totals_are_conserved (fun _ => [])
      (sheet_of 7 3 [ ((1, 3), VStr (txt "YTD"));
                      ((2, 1), VStr (txt "Revenue"));
                      ((3, 1), VStr (txt "Industrial Rent")); ((3, 3), VNum 1000);
                      ((4, 1), VStr (txt "Office Rent")); ((4, 3), VNum 250);
                      ((5, 1), VStr (txt "Expenses"));
                      ((6, 1), VStr (txt "Income")) ])
      2 5 6 _)
      [(txt "rental income", (0 + 1000 + 250)%Q)] [] [] _)) _).
  - vm_compute; reflexivity.
  - vm_compute; reflexivity.
  - vm_compute; reflexivity.
Defined.

(* ===================================================================== *)
(** ** What the merge writes *)
(* ===================================================================== *)

Section WriteFacts.

Variable score : text -> text -> Z.
Variable fuzzy_threshold : Z.

Lemma write_row_other_cell (src : dict Q) (col : nat) (ws : worksheet) (r c r' : nat) :
  (r', col) <> (r, c) ->
  same_cell r c ws (fst (write_row score fuzzy_threshold src col ws r')).
Proof.
  intros Hne. unfold write_row, same_cell.
  repeat case_match; cbn [fst];
    rewrite ?cell_fill_set_fill, ?cell_value_set_fill, ?cell_fill_set_value,
      ?cell_value_set_value;
    repeat (destruct (decide _); [contradiction|]); split; reflexivity.
Qed.

Lemma write_rows_other_cells (src : dict Q) (col : nat) (rows : list nat) (ws : worksheet)
  (r c : nat) :
  ~ In r rows \/ c <> col ->
  same_cell r c ws (fst (write_rows score fuzzy_threshold src col ws rows)).
Proof.
  revert ws. induction rows as [|r' rows IH]; intros ws Hout; cbn.
  - split; reflexivity.
  - assert (Hne : (r', col) <> (r, c)).
    { intros [= -> ->]. destruct Hout as [Hout|Hout]; [apply Hout; left|]; congruence. }
    pose proof (write_row_other_cell src col ws r c r' Hne) as [Hv Hf].
    destruct (write_row _ _ _ _ _ _) as [ws1 [e|]]; cbn [fst] in *; [split; assumption|].
    destruct (IH ws1) as [Hv' Hf'].
    { destruct Hout as [Hout|Hout]; [left; intros Hin; apply Hout; right; exact Hin | right; exact Hout]. }
    split; congruence.
Qed.

(** A turn of the loop on a readable label raises only in the colour
    computation, at threshold 100. *)
Lemma write_row_no_exception (src : dict Q) (col : nat) (ws : worksheet) (r : nat) :
  fuzzy_threshold <> 100%Z -> readable_label (cell_value ws r 1) ->
  snd (write_row score fuzzy_threshold src col ws r) = None.
Proof.
  intros Ht [raw Hraw]. unfold write_row. rewrite Hraw.
  destruct (_ || _); [reflexivity|].
  destruct (dict_get src _); [reflexivity|].
  destruct (extractOne score _ _) as [[best sc]|] eqn:Hbest; [|reflexivity].
  destruct (fuzzy_threshold <=? sc)%Z; [|reflexivity].
  destruct (dict_get_of_key src best (extractOne_in _ _ _ _ _ Hbest)) as [val ->].
  unfold gradient_fill_color.
  destruct (Z.eqb_spec (100 - fuzzy_threshold) 0) as [E|_]; [lia | reflexivity].
Qed.

Lemma write_rows_no_exception (src : dict Q) (col : nat) (rows : list nat) (ws : worksheet) :
  fuzzy_threshold <> 100%Z -> List.NoDup rows ->
  (forall r, In r rows -> readable_label (cell_value ws r 1)) ->
  snd (write_rows score fuzzy_threshold src col ws rows) = None.
Proof.
  intros Ht Hnd. revert ws. induction Hnd as [|r rows Hnotin _ IH]; intros ws Hlab; cbn.
  - reflexivity.
  - pose proof (write_row_no_exception src col ws r Ht (Hlab r (or_introl eq_refl))) as Hr.
    pose proof (fun r' (H : r <> r') => write_row_other_row score fuzzy_threshold src col ws r' r H)
      as Hother.
    destruct (write_row _ _ _ _ _ _) as [ws1 [e|]]; cbn [fst snd] in *; [discriminate|].
    apply IH. intros r' Hin.
    destruct (Hother r' ltac:(intros ->; contradiction) 1%nat) as [-> _].
    apply Hlab. right. exact Hin.
Qed.

(** In a run that raises nothing, the row [r] of the result is the row
    that the turn of [r] leaves, and that turn starts from the row as it
    was. *)
Lemma match_and_write_turn (ws ws' : worksheet) (start_row end_row : nat) (src : dict Q)
  (col r : nat) :
  (start_row <= r <= end_row)%nat ->
  match_and_write score fuzzy_threshold ws start_row end_row src col = (ws', None) ->
  exists ws1 ws2,
    same_row r ws ws1
    /\ write_row score fuzzy_threshold src col ws1 r = (ws2, None)
    /\ same_row r ws2 ws'.
Proof.
  intros Hr Hrun. unfold match_and_write in Hrun.
  rewrite (range_split start_row (end_row + 1) r) in Hrun by lia.
  rewrite write_rows_app in Hrun.
  pose proof (write_rows_other_rows score fuzzy_threshold src col (range start_row r) ws r)
    as Hbefore.
  destruct (write_rows score fuzzy_threshold src col ws (range start_row r)) as [ws1 [e|]];
    [discriminate|].
  cbn [fst write_rows] in *.
  destruct (write_row score fuzzy_threshold src col ws1 r) as [ws2 [e|]] eqn:Hturn;
    [discriminate|].
  pose proof (write_rows_other_rows score fuzzy_threshold src col (range (S r) (end_row + 1))
                ws2 r) as Hafter.
  rewrite Hrun in Hafter. cbn [fst] in Hafter.
  exists ws1, ws2. split; [|split].
  - apply Hbefore. rewrite in_range. lia.
  - exact Hturn.
  - apply Hafter. rewrite in_range. lia.
Qed.

Lemma gradient_fill_in_range (sc : Z) (color : text) :
  (0 <= fuzzy_threshold < 100)%Z -> (fuzzy_threshold <= sc <= 100)%Z ->
  gradient_fill_color sc fuzzy_threshold = Ok color -> gradient_fill (solid_fill color).
Proof.
  intros Ht Hs Hc. pose proof (gradient_ok_in_range fuzzy_threshold sc Ht Hs) as Hok.
  unfold gradient_ok in Hok. rewrite Hc in Hok.
  apply andb_prop in Hok as [Hok Hb]. apply andb_prop in Hok as [Hok Hg].
  apply andb_prop in Hok as [Hlen Hred].
  apply bool_decide_eq_true in Hred, Hg, Hb. apply Nat.eqb_eq in Hlen.
  exists color, (255 * (sc - fuzzy_threshold) / (100 - fuzzy_threshold))%Z.
  repeat split; try assumption.
  - apply Z.div_pos; nia.
  - apply Z.div_le_upper_bound; nia.
Qed.

Lemma write_row_fills (src : dict Q) (col : nat) (ws : worksheet) (r r' c' : nat) :
  (0 <= fuzzy_threshold < 100)%Z -> (forall q c, (0 <= score q c <= 100)%Z) ->
  cell_fill (fst (write_row score fuzzy_threshold src col ws r)) r' c' = cell_fill ws r' c'
  \/ exists f, cell_fill (fst (write_row score fuzzy_threshold src col ws r)) r' c' = Some f
               /\ gradient_fill f.
Proof.
  intros Ht Hscore. unfold write_row.
  destruct (stripped_text (cell_value ws r 1)) as [raw|]; [|left; reflexivity].
  destruct (_ || _); [left; reflexivity|].
  destruct (dict_get src _); [left; reflexivity|].
  destruct (extractOne score _ _) as [[best sc]|] eqn:Hbest; [|left; reflexivity].
  assert (Hsc : (0 <= sc <= 100)%Z).
  { clear -Hbest Hscore. revert best sc Hbest.
    induction (dict_keys src) as [|k ks IH]; intros best sc H; cbn in H; [discriminate|].
    destruct (extractOne score _ ks) as [[b sb]|].
    - destruct (score _ k <? sb)%Z; injection H as <- <-; [eapply IH; reflexivity | apply Hscore].
    - injection H as <- <-. apply Hscore. }
  destruct (Z.leb_spec fuzzy_threshold sc); [|left; reflexivity].
  destruct (dict_get src best); [|left; reflexivity].
  destruct (gradient_fill_color sc fuzzy_threshold) as [color|] eqn:Hc; [|left; reflexivity].
  cbn [fst]. rewrite cell_fill_set_fill, cell_fill_set_value.
  destruct (decide ((r, col) = (r', c'))); [|left; reflexivity].
  right. exists (solid_fill color). split; [reflexivity|].
  apply (gradient_fill_in_range sc color Ht); [lia | exact Hc].
Qed.

Lemma write_rows_fills (src : dict Q) (col : nat) (rows : list nat) (ws : worksheet)
  (r' c' : nat) :
  (0 <= fuzzy_threshold < 100)%Z -> (forall q c, (0 <= score q c <= 100)%Z) ->
  cell_fill (fst (write_rows score fuzzy_threshold src col ws rows)) r' c' = cell_fill ws r' c'
  \/ exists f, cell_fill (fst (write_rows score fuzzy_threshold src col ws rows)) r' c' = Some f
               /\ gradient_fill f.
Proof.
  intros Ht Hscore. revert ws. induction rows as [|r rows IH]; intros ws; cbn [write_rows].
  - left. reflexivity.
  - pose proof (write_row_fills src col ws r r' c' Ht Hscore) as Hrow.
    destruct (write_row score fuzzy_threshold src col ws r) as [ws1 [e|]]; cbn [fst] in *;
      [exact Hrow|].
    destruct (IH ws1) as [E | Hf]; [rewrite E; exact Hrow | right; exact Hf].
Qed.

End WriteFacts.

(** X6: [match_and_write] changes nothing outside its target: a cell of
    another column, or of a row outside [start_row .. end_row], has the
    value and the fill it had, whether the call returns or raises. *)
Theorem match_and_write_frame (score : text -> text -> Z) (threshold : Z) (ws : worksheet)
  (start_row end_row : nat) (src_dict : dict Q) (col : nat) :
  let ws' := fst (match_and_write score threshold ws start_row end_row src_dict col) in
  forall r c, (r < start_row)%nat \/ (end_row < r)%nat \/ c <> col ->
              cell_value ws' r c = cell_value ws r c /\ cell_fill ws' r c = cell_fill ws r c.
Proof.
  intros ws' r c Hout. subst ws'. unfold match_and_write.
  apply (write_rows_other_cells score threshold src_dict col _ ws r c).
  rewrite in_range. lia.
Qed.

Lemma match_and_write_frame_witness :
  cell_value
    (fst (match_and_write (fun _ _ => 90%Z) 85
            (sheet_of 7 3 [ ((5, 3), VStr (txt "BEDFORD")); ((6, 1), VStr (txt "Rent Revenue")) ])
            6 7 [(txt "rental income", 7%Q)] 3)) 5 3
  = VStr (txt "BEDFORD").
Proof.
  refine (eq_trans (proj1 (match_and_write_frame (fun _ _ => 90%Z) 85
    (sheet_of 7 3 [ ((5, 3), VStr (txt "BEDFORD")); ((6, 1), VStr (txt "Rent Revenue")) ])
    6 7 [(txt "rental income", 7%Q)] 3 5 3 _)) _).
  - left. lia.
  - vm_compute. reflexivity.
Defined.

(** X7: [match_and_write] is safe on a template of text labels.  With
    a threshold from 0 to 99, scores between 0 and 100 and every label
    cell of the row range empty, a text or zero, the call raises nothing,
    and every fill it sets is a solid 6-digit colour with red 255, blue 0
    and a green channel between 0 and 255.  (The exceptions of the
    function are the [strip] of a number and the division by
    [100 - threshold].) *)
Theorem match_and_write_raises_nothing (score : text -> text -> Z) (threshold : Z)
  (ws : worksheet) (start_row end_row : nat) (src_dict : dict Q) (col : nat) :
  (0 <= threshold < 100)%Z -> (forall q c, (0 <= score q c <= 100)%Z) ->
  (forall r, (start_row <= r <= end_row)%nat -> readable_label (cell_value ws r 1)) ->
  let out := match_and_write score threshold ws start_row end_row src_dict col in
  snd out = None
  /\ forall r c,
       cell_fill (fst out) r c = cell_fill ws r c
       \/ exists f, cell_fill (fst out) r c = Some f /\ gradient_fill f.
Proof.
  intros Ht Hscore Hlab out. subst out. unfold match_and_write. split.
  - apply write_rows_no_exception; [lia | apply List.seq_NoDup|].
    intros r Hin. apply Hlab. apply in_range in Hin. lia.
  - intros r c. apply write_rows_fills; assumption.
Qed.

Lemma match_and_write_raises_nothing_witness :
  snd (match_and_write (fun _ _ => 90%Z) 85
         (sheet_of 7 3 [ ((6, 1), VStr (txt "Rent Revenue")); ((7, 1), VNum 0) ]) 6 8
         [(txt "rental income", 7%Q)] 3) = None.
Proof.
  refine (proj1 (match_and_write_raises_nothing (fun _ _ => 90%Z) 85
    (sheet_of 7 3 [ ((6, 1), VStr (txt "Rent Revenue")); ((7, 1), VNum 0) ]) 6 8
    [(txt "rental income", 7%Q)] 3 _ _ _)).
  - lia.
  - intros; lia.
  - intros r Hr. unfold readable_label.
    assert (Hcases : r = 6%nat \/ r = 7%nat \/ r = 8%nat) by lia.
    destruct Hcases as [-> | [-> | ->]]; eexists; vm_compute; reflexivity.
Defined.

(** X8: a template row whose normalised label is a key of the source
    map receives the value of that key as it is, and its fill is not
    touched: no fuzzy search is made and no highlight set. *)
Theorem exact_key_is_written_verbatim (score : text -> text -> Z) (threshold : Z)
  (ws ws' : worksheet) (start_row end_row : nat) (src_dict : dict Q) (col r : nat)
  (raw : text) (v : Q) :
  (start_row <= r <= end_row)%nat ->
  stripped_text (cell_value ws r 1) = Ok raw ->
  search_word_phrase_ic (lits "total") raw = false ->
  normalize_label raw <> [] ->
  dict_get src_dict (normalize_label raw) = Some v ->
  match_and_write score threshold ws start_row end_row src_dict col = (ws', None) ->
  cell_value ws' r col = VNum v /\ cell_fill ws' r col = cell_fill ws r col.
Proof.
  intros Hr Hraw Htotal Hkey Hget Hrun.
  destruct (match_and_write_turn score threshold ws ws' start_row end_row src_dict col r Hr Hrun)
    as (ws1 & ws2 & H1 & Hturn & H2).
  unfold write_row in Hturn. destruct (H1 1%nat) as [E _]. rewrite E, Hraw in Hturn.
  destruct (text_eqb (normalize_label raw) []) eqn:Ek; [apply text_eqb_eq in Ek; contradiction|].
  rewrite Htotal, Hget in Hturn. cbn [orb] in Hturn. injection Hturn as <-.
  destruct (H2 col) as [-> ->]. destruct (H1 col) as [_ <-].
  rewrite cell_value_set_value, cell_fill_set_value.
  destruct (decide ((r, col) = (r, col))); [split; reflexivity | contradiction].
Qed.

Lemma exact_key_is_written_verbatim_witness :
  cell_value
    (fst (match_and_write (fun _ _ => 0%Z) 85
            (sheet_of 6 3 [ ((6, 1), VStr (txt "Rental Revenue")) ]) 6 6
            [(txt "rental income", 7%Q)] 3)) 6 3 = VNum 7.
Proof.
  refine (proj1 (exact_key_is_written_verbatim (fun _ _ => 0%Z) 85
    (sheet_of 6 3 [ ((6, 1), VStr (txt "Rental Revenue")) ]) _
    6 6 [(txt "rental income", 7%Q)] 3 6 (txt "Rental Revenue") 7 _ _ _ _ _ _)).
  - lia.
  - vm_compute; reflexivity.
  - vm_compute; reflexivity.
  - vm_compute; discriminate.
  - vm_compute; reflexivity.
  - vm_compute; reflexivity.
Defined.

(** X9: a template row that is not skipped and finds no key, exact or
    fuzzy, is overwritten with 0, and its fill is not touched: this is so
    when the source map is empty and when the best score is below the
    threshold. *)
Theorem unmatched_row_is_zeroed (score : text -> text -> Z) (threshold : Z)
  (ws ws' : worksheet) (start_row end_row : nat) (src_dict : dict Q) (col r : nat)
  (raw : text) :
  (start_row <= r <= end_row)%nat ->
  stripped_text (cell_value ws r 1) = Ok raw ->
  search_word_phrase_ic (lits "total") raw = false ->
  normalize_label raw <> [] ->
  dict_get src_dict (normalize_label raw) = None ->
  src_dict = []
  \/ (exists best sc, extractOne score (normalize_label raw) (dict_keys src_dict)
                      = Some (best, sc) /\ (sc < threshold)%Z) ->
  match_and_write score threshold ws start_row end_row src_dict col = (ws', None) ->
  cell_value ws' r col = VNum 0 /\ cell_fill ws' r col = cell_fill ws r col.
Proof.
  intros Hr Hraw Htotal Hkey Hget Hnone Hrun.
  destruct (match_and_write_turn score threshold ws ws' start_row end_row src_dict col r Hr Hrun)
    as (ws1 & ws2 & H1 & Hturn & H2).
  unfold write_row in Hturn. destruct (H1 1%nat) as [E _]. rewrite E, Hraw in Hturn.
  destruct (text_eqb (normalize_label raw) []) eqn:Ek; [apply text_eqb_eq in Ek; contradiction|].
  rewrite Htotal, Hget in Hturn. cbn [orb] in Hturn.
  assert (Hws2 : ws2 = set_value ws1 r col (VNum 0)).
  { destruct Hnone as [-> | (best & sc & Hbest & Hlt)].
    - cbn in Hturn. congruence.
    - rewrite Hbest in Hturn. destruct (Z.leb_spec threshold sc); [lia|]. congruence. }
  subst ws2. destruct (H2 col) as [-> ->]. destruct (H1 col) as [_ <-].
  rewrite cell_value_set_value, cell_fill_set_value.
  destruct (decide ((r, col) = (r, col))); [split; reflexivity | contradiction].
Qed.

Lemma unmatched_row_is_zeroed_witness :
  cell_value
    (fst (match_and_write (fun _ _ => 40%Z) 85
            (sheet_of 6 3 [ ((6, 1), VStr (txt "Parking")); ((6, 3), VNum 12) ]) 6 6
            [(txt "rental income", 7%Q)] 3)) 6 3 = VNum 0.
Proof.
  refine (proj1 (unmatched_row_is_zeroed (fun _ _ => 40%Z) 85
    (sheet_of 6 3 [ ((6, 1), VStr (txt "Parking")); ((6, 3), VNum 12) ]) _
    6 6 [(txt "rental income", 7%Q)] 3 6 (txt "Parking") _ _ _ _ _ _ _)).
  - lia.
  - vm_compute; reflexivity.
  - vm_compute; reflexivity.
  - vm_compute; discriminate.
  - vm_compute; reflexivity.
  - right. exists (txt "rental income"), 40%Z. split; [vm_compute; reflexivity | lia].
  - vm_compute; reflexivity.
Defined.

(** X10: a fuzzy match that is accepted writes the value the source
    map holds under the best-scoring key, whatever the key's spelling. *)
Theorem fuzzy_match_writes_best_value (score : text -> text -> Z) (threshold : Z)
  (ws ws' : worksheet) (start_row end_row : nat) (src_dict : dict Q) (col r : nat)
  (raw best : text) (sc : Z) :
  (start_row <= r <= end_row)%nat ->
  stripped_text (cell_value ws r 1) = Ok raw ->
  search_word_phrase_ic (lits "total") raw = false ->
  normalize_label raw <> [] ->
  dict_get src_dict (normalize_label raw) = None ->
  extractOne score (normalize_label raw) (dict_keys src_dict) = Some (best, sc) ->
  (threshold <= sc)%Z ->
  match_and_write score threshold ws start_row end_row src_dict col = (ws', None) ->
  exists v, dict_get src_dict best = Some v /\ cell_value ws' r col = VNum v.
Proof.
  intros Hr Hraw Htotal Hkey Hget Hbest Hsc Hrun.
  destruct (match_and_write_turn score threshold ws ws' start_row end_row src_dict col r Hr Hrun)
    as (ws1 & ws2 & H1 & Hturn & H2).
  unfold write_row in Hturn. destruct (H1 1%nat) as [E _]. rewrite E, Hraw in Hturn.
  destruct (text_eqb (normalize_label raw) []) eqn:Ek; [apply text_eqb_eq in Ek; contradiction|].
  rewrite Htotal, Hget, Hbest in Hturn. cbn [orb] in Hturn.
  destruct (Z.leb_spec threshold sc); [|lia].
  destruct (dict_get src_dict best) as [v|]; [|discriminate].
  exists v. split; [reflexivity|].
  destruct (gradient_fill_color sc threshold) as [color|]; [|discriminate].
  injection Hturn as <-. destruct (H2 col) as [-> _].
  rewrite cell_value_set_fill, cell_value_set_value.
  destruct (decide ((r, col) = (r, col))); [reflexivity | contradiction].
Qed.

Lemma fuzzy_match_writes_best_value_witness :
  exists v,
    dict_get [(txt "rental income", 7%Q)] (txt "rental income") = Some v
    /\ cell_value
         (fst (match_and_write (fun _ _ => 90%Z) 85
                 (sheet_of 6 3 [ ((6, 1), VStr (txt "Rent Revenue")) ]) 6 6
                 [(txt "rental income", 7%Q)] 3)) 6 3 = VNum v.
Proof.
  refine (fuzzy_match_writes_best_value (fun _ _ => 90%Z) 85
    (sheet_of 6 3 [ ((6, 1), VStr (txt "Rent Revenue")) ]) _
    6 6 [(txt "rental income", 7%Q)] 3 6 (txt "Rent Revenue") (txt "rental income") 90
    _ _ _ _ _ _ _ _).
  - lia.
  - vm_compute; reflexivity.
  - vm_compute; reflexivity.
  - vm_compute; discriminate.
  - vm_compute; reflexivity.
  - vm_compute; reflexivity.
  - lia.
  - vm_compute; reflexivity.
Defined.

(* ===================================================================== *)
(** ** File names, target columns and the per-file passes *)
(* ===================================================================== *)

(** *** File names *)

Lemma normalize_filename_unfold (filename : text) :
  normalize_filename filename = sub_from copy_suffix_at [] None filename 0.
Proof. reflexivity. Qed.

Lemma skip_then_paren_fails (p : list atom) (b tail : text) (prev : option char) :
  b <> [] -> Forall (fun c => c <> 40%N) b -> is_space (List.last b 0%N) = false ->
  match_atoms false (Spaces0 :: Lit 40%N :: p) prev (b ++ tail) = None.
Proof.
  intros Hne Hb. revert prev Hne. induction Hb as [|c b Hc Hb IH]; intros prev Hne Hlast;
    [contradiction|].
  cbn [match_atoms]. unfold skip_spaces. cbn [app skip_run]. destruct (is_space c) eqn:Ec.
  - destruct (list_eq_nil_dec b) as [->|Hb'].
    + cbn in Hlast. congruence.
    + rewrite (last_cons 0%N c b Hb') in Hlast. exact (IH (Some c) Hb' Hlast).
  - unfold char_matches.
    destruct (N.eqb_spec 40 c) as [E|_]; [congruence | reflexivity].
Qed.

Lemma copy_suffix_at_base (b tail : text) (prev : option char) :
  b <> [] -> Forall (fun c => c <> 40%N) b -> is_space (List.last b 0%N) = false ->
  copy_suffix_at prev (b ++ tail) = None.
Proof.
  intros Hne Hb Hlast. unfold copy_suffix_at.
  rewrite (skip_then_paren_fails _ b tail prev Hne Hb Hlast). reflexivity.
Qed.

Lemma paren_fails_no_paren (p : list atom) (t : text) (prev : option char) :
  Forall (fun c => c <> 40%N) t ->
  match_atoms false (Spaces0 :: Lit 40%N :: p) prev t = None.
Proof.
  intros Ht. revert prev. induction Ht as [|c t Hc Ht IH]; intros prev; [reflexivity|].
  cbn [match_atoms]. unfold skip_spaces. cbn [skip_run]. destruct (is_space c).
  - exact (IH (Some c)).
  - unfold char_matches. destruct (N.eqb_spec 40 c) as [E|_]; [congruence | reflexivity].
Qed.

Lemma copy_suffix_at_no_paren (t : text) (prev : option char) :
  Forall (fun c => c <> 40%N) t -> copy_suffix_at prev t = None.
Proof.
  intros Ht. unfold copy_suffix_at. rewrite (paren_fails_no_paren _ t prev Ht). reflexivity.
Qed.

Lemma sub_from_no_paren (repl t : text) (prev : option char) :
  Forall (fun c => c <> 40%N) t -> sub_from copy_suffix_at repl prev t 0 = t.
Proof.
  intros Ht. revert prev. induction Ht as [|c t Hc Ht IH]; intros prev; [reflexivity|].
  cbn [sub_from]. rewrite (copy_suffix_at_no_paren (c :: t) prev) by (constructor; assumption).
  rewrite IH. reflexivity.
Qed.

Lemma sub_from_skip (m : option char -> text -> option text) (repl l1 l2 : text)
  (prev : option char) :
  l2 <> [] ->
  exists prev', sub_from m repl prev (l1 ++ l2) (length l1) = sub_from m repl prev' l2 0.
Proof.
  intros Hne. revert prev. induction l1 as [|c l1 IH]; intros prev; [eauto|].
  cbn [app length sub_from]. apply IH.
Qed.

Lemma skip_spaces_run (sp rest : text) (c : char) (prev : option char) :
  Forall (fun c => is_space c = true) sp -> is_space c = false ->
  snd (skip_spaces prev (sp ++ c :: rest)) = c :: rest.
Proof.
  intros Hsp Hc. revert prev. unfold skip_spaces.
  induction Hsp as [|w sp Hw _ IH]; intros prev; cbn [app skip_run].
  - rewrite Hc. reflexivity.
  - rewrite Hw. apply IH.
Qed.

Lemma skip_digits_run (ds rest : text) (c : char) (prev : option char) :
  Forall (fun c => is_digit c = true) ds -> is_digit c = false ->
  snd (skip_run is_digit prev (ds ++ c :: rest)) = c :: rest.
Proof.
  intros Hds Hc. revert prev.
  induction Hds as [|w ds Hw _ IH]; intros prev; cbn [app skip_run].
  - rewrite Hc. reflexivity.
  - rewrite Hw. apply IH.
Qed.

Lemma copy_suffix_at_suffix (sp ds : text) (prev : option char) :
  Forall (fun c => is_space c = true) sp ->
  ds <> [] -> Forall (fun c => is_digit c = true) ds ->
  copy_suffix_at prev (sp ++ 40%N :: ds ++ 41%N :: txt ".xlsx") = Some (txt ".xlsx").
Proof.
  intros Hsp Hne Hds. unfold copy_suffix_at. cbn [match_atoms].
  pose proof (skip_spaces_run sp (ds ++ 41%N :: txt ".xlsx") 40%N prev Hsp eq_refl) as H.
  destruct (skip_spaces prev _) as [prev1 rest1]. cbn [snd] in H. subst rest1.
  cbn [char_matches N.eqb Pos.eqb].
  destruct Hds as [|d ds Hd Hds]; [contradiction|]. cbn [app]. rewrite Hd.
  pose proof (skip_digits_run ds (txt ".xlsx") 41%N (Some d) Hds eq_refl) as H.
  destruct (skip_run is_digit (Some d) _) as [prev2 rest2]. cbn [snd] in H. subst rest2.
  reflexivity.
Qed.

Lemma xlsx_no_paren : Forall (fun c => c <> 40%N) (txt ".xlsx").
Proof. repeat constructor; discriminate. Qed.

Lemma sub_from_suffix (sp ds : text) (prev : option char) :
  Forall (fun c => is_space c = true) sp ->
  ds <> [] -> Forall (fun c => is_digit c = true) ds ->
  sub_from copy_suffix_at [] prev (sp ++ 40%N :: ds ++ 41%N :: txt ".xlsx") 0 = txt ".xlsx".
Proof.
  intros Hsp Hne Hds.
  pose proof (copy_suffix_at_suffix sp ds prev Hsp Hne Hds) as Hm.
  set (tail := sp ++ 40%N :: ds ++ 41%N :: txt ".xlsx") in *.
  assert (Hlen : (length tail - length (txt ".xlsx") = S (length sp + length ds + 1))%nat).
  { subst tail. rewrite !length_app. cbn [length]. rewrite length_app. cbn [length].
    change (length (txt ".xlsx")) with 5%nat. lia. }
  assert (Htail : exists c l1, tail = c :: l1 ++ txt ".xlsx"
                               /\ length l1 = (length sp + length ds + 1)%nat).
  { subst tail. destruct sp as [|w sp].
    - exists 40%N, (ds ++ [41%N]). split.
      + cbn [app]. rewrite <- app_assoc. reflexivity.
      + rewrite length_app. cbn. lia.
    - exists w, (sp ++ 40%N :: ds ++ [41%N]). split.
      + cbn [app]. rewrite <- !app_assoc. cbn [app]. rewrite <- app_assoc. reflexivity.
      + rewrite !length_app. cbn [length]. rewrite length_app. cbn. lia. }
  destruct Htail as (c & l1 & Ht & Hl1). rewrite Ht in *.
  cbn [sub_from]. rewrite Hm, Hlen. cbn [app].
  destruct (sub_from_skip copy_suffix_at [] l1 (txt ".xlsx") (Some c)) as [prev' H];
    [discriminate|].
  rewrite <- Hl1, H. apply sub_from_no_paren, xlsx_no_paren.
Qed.

Lemma sub_from_base (b sp ds : text) (prev : option char) :
  Forall (fun c => c <> 40%N) b ->
  b = [] \/ is_space (List.last b 0%N) = false ->
  Forall (fun c => is_space c = true) sp ->
  ds <> [] -> Forall (fun c => is_digit c = true) ds ->
  sub_from copy_suffix_at [] prev (b ++ sp ++ 40%N :: ds ++ 41%N :: txt ".xlsx") 0
  = b ++ txt ".xlsx".
Proof.
  intros Hb Hlast Hsp Hne Hds. revert prev Hlast.
  induction Hb as [|c b Hc Hb IH]; intros prev Hlast.
  - apply sub_from_suffix; assumption.
  - destruct Hlast as [|Hlast]; [discriminate|].
    cbn [app sub_from].
    change (c :: b ++ sp ++ 40%N :: ds ++ 41%N :: txt ".xlsx")
      with ((c :: b) ++ sp ++ 40%N :: ds ++ 41%N :: txt ".xlsx").
    rewrite copy_suffix_at_base; [|discriminate|constructor; assumption|exact Hlast].
    f_equal. apply IH.
    destruct (list_eq_nil_dec b) as [->|Hb']; [left; reflexivity|right].
    rewrite (last_cons 0%N c b Hb') in Hlast. exact Hlast.
Qed.

Lemma no_paren_check (t : text) :
  forallb (fun c => negb (c =? 40)%N) t = true -> Forall (fun c => c <> 40%N) t.
Proof.
  intros H. apply List.Forall_forall. intros c Hin.
  apply (proj1 (forallb_forall _ t) H) in Hin. intros ->. discriminate.
Qed.

(** X11: a file name with no opening parenthesis is left as it is by
    [normalize_filename]. *)
Theorem normalize_filename_keeps_plain_names (filename : text) :
  Forall (fun c => c <> 40%N) filename -> normalize_filename filename = filename.
Proof. intros H. rewrite normalize_filename_unfold. apply sub_from_no_paren, H. Qed.

Lemma normalize_filename_keeps_plain_names_witness :
  normalize_filename (txt "fs2025Weston.xlsx") = txt "fs2025Weston.xlsx".
Proof.
  apply normalize_filename_keeps_plain_names, no_paren_check. vm_compute. reflexivity.
Defined.

(** X12: the numbered suffix a browser gives a second download is taken
    off.  For a base name with no opening parenthesis that does not end in
    whitespace, [base (n).xlsx] (any whitespace, or none, before the
    parenthesis, digits inside) is normalised to [base.xlsx], which is
    what [base.xlsx] itself is normalised to; so the copy resolves to the
    same site as the original. *)
Theorem normalize_filename_drops_copy_number (file_year : Z) (b sp ds : text) :
  Forall (fun c => c <> 40%N) b ->
  b = [] \/ is_space (List.last b 0%N) = false ->
  Forall (fun c => is_space c = true) sp ->
  ds <> [] -> Forall (fun c => is_digit c = true) ds ->
  let copy := b ++ sp ++ 40%N :: ds ++ 41%N :: txt ".xlsx" in
  normalize_filename copy = b ++ txt ".xlsx"
  /\ normalize_filename copy = normalize_filename (b ++ txt ".xlsx")
  /\ resolve_site file_year copy = resolve_site file_year (b ++ txt ".xlsx").
Proof.
  intros Hb Hlast Hsp Hne Hds copy.
  assert (H1 : normalize_filename copy = b ++ txt ".xlsx").
  { rewrite normalize_filename_unfold. apply sub_from_base; assumption. }
  assert (H2 : normalize_filename (b ++ txt ".xlsx") = b ++ txt ".xlsx").
  { rewrite normalize_filename_unfold. apply sub_from_no_paren.
    apply Forall_app. split; [exact Hb | exact xlsx_no_paren]. }
  split; [exact H1|]. split; [congruence|].
  unfold resolve_site. rewrite H1, H2. reflexivity.
Qed.

Lemma normalize_filename_drops_copy_number_witness :
  normalize_filename (txt "fs2025Weston (12).xlsx") = txt "fs2025Weston.xlsx".
Proof.
  refine (proj1 (normalize_filename_drops_copy_number 2025 (txt "fs2025Weston") (txt " ")
                   (txt "12") _ _ _ _ _)).
  - apply no_paren_check. vm_compute. reflexivity.
  - right. vm_compute. reflexivity.
  - repeat constructor.
  - discriminate.
  - repeat constructor.
Defined.

(** *** The target column *)

Lemma find_target_col_seq (ws : worksheet) (header_row : nat) (site : text)
  (len a col : nat) :
  find_target_col ws header_row site (seq a len) = Ok (Some col) ->
  (a <= col < a + len)%nat
  /\ (exists raw_hdr, stripped_text (cell_value ws header_row col) = Ok raw_hdr
                      /\ header_matches site raw_hdr)
  /\ forall c raw_hdr, (a <= c < col)%nat ->
       stripped_text (cell_value ws header_row c) = Ok raw_hdr ->
       ~ header_matches site raw_hdr.
Proof.
  revert a. induction len as [|len IH]; intros a H; cbn [seq find_target_col] in H;
    [discriminate|].
  destruct (stripped_text (cell_value ws header_row a)) as [raw_hdr|] eqn:Hraw;
    cbn [mbind result_bind] in H; [|discriminate].
  destruct (text_eqb (upper raw_hdr) site) eqn:E1.
  { injection H as <-. split; [lia|]. split; [|intros; lia].
    exists raw_hdr. split; [exact Hraw|]. left. apply text_eqb_eq, E1. }
  destruct (text_eqb (strip_leading_digits_spaces (upper raw_hdr)) site) eqn:E2.
  { injection H as <-. split; [lia|]. split; [|intros; lia].
    exists raw_hdr. split; [exact Hraw|]. right. apply text_eqb_eq, E2. }
  cbn [orb] in H. destruct (IH (S a) H) as (Hcol & Hm & Hfirst).
  split; [lia|]. split; [exact Hm|].
  intros c raw Hc Hraw' Hmatch.
  destruct (Nat.eq_dec c a) as [->|Hne].
  - rewrite Hraw in Hraw'. injection Hraw' as <-.
    apply text_eqb_neq in E1, E2. destruct Hmatch; contradiction.
  - apply (Hfirst c raw); [lia | exact Hraw' | exact Hmatch].
Qed.

Lemma find_target_col_number (ws : worksheet) (header_row : nat) (site : text)
  (len a c : nat) (q : Q) :
  (a <= c < a + len)%nat ->
  cell_value ws header_row c = VNum q -> Qeq_bool q 0 = false ->
  (forall c' raw_hdr, (a <= c' < c)%nat ->
     stripped_text (cell_value ws header_row c') = Ok raw_hdr ->
     ~ header_matches site raw_hdr) ->
  find_target_col ws header_row site (seq a len) = Raise AttributeError.
Proof.
  revert a. induction len as [|len IH]; intros a Hc Hcell Hq Hleft; [lia|].
  cbn [seq find_target_col].
  destruct (Nat.eq_dec c a) as [->|Hne].
  - rewrite Hcell. cbn. rewrite Hq. reflexivity.
  - destruct (stripped_text (cell_value ws header_row a)) as [raw_hdr|] eqn:Hraw;
      cbn [mbind result_bind].
    + destruct (text_eqb (upper raw_hdr) site) eqn:E1.
      { apply text_eqb_eq in E1. destruct (Hleft a raw_hdr ltac:(lia) Hraw). left. exact E1. }
      destruct (text_eqb (strip_leading_digits_spaces (upper raw_hdr)) site) eqn:E2.
      { apply text_eqb_eq in E2. destruct (Hleft a raw_hdr ltac:(lia) Hraw). right. exact E2. }
      cbn [orb]. apply IH; [lia | exact Hcell | exact Hq|].
      intros c' raw Hc'. apply Hleft. lia.
    + destruct (cell_value ws header_row a) as [|s|p]; cbn in Hraw; try discriminate.
      destruct (Qeq_bool p 0); [discriminate|]. injection Hraw as <-. reflexivity.
Qed.

(** X13: the column [find_target_col] returns is a column of the sheet
    whose header, stripped and upper-cased, equals the site name, as it
    stands or with its leading digits and whitespace taken off; it is the
    first such column, none to its left matching. *)
Theorem target_column_is_first_match (ws : worksheet) (header_row : nat) (site : text)
  (col : nat) :
  find_target_col ws header_row site (range 1 (max_column ws + 1)) = Ok (Some col) ->
  (1 <= col <= max_column ws)%nat
  /\ (exists raw_hdr, stripped_text (cell_value ws header_row col) = Ok raw_hdr
                      /\ header_matches site raw_hdr)
  /\ forall c raw_hdr, (1 <= c < col)%nat ->
       stripped_text (cell_value ws header_row c) = Ok raw_hdr ->
       ~ header_matches site raw_hdr.
Proof.
  intros H. destruct (find_target_col_seq ws header_row site _ 1 col H) as (Hcol & Hm & Hfirst).
  split; [lia|]. split; [exact Hm | exact Hfirst].
Qed.

Lemma target_column_is_first_match_witness :
  (1 <= 3 <= 3)%nat.
Proof.
  exact (proj1 (target_column_is_first_match
    (sheet_of 5 3 [ ((5, 2), VStr (txt "Bedford")); ((5, 3), VStr (txt " 207 Weston ")) ])
    5 (txt "WESTON") 3 ltac:(vm_compute; reflexivity))).
Defined.

(** X14: a number other than zero in the header row, with no matching
    header to its left, makes the column search raise [AttributeError]
    (the code calls [strip] on the number), wherever the site's own header
    stands. *)
Theorem numeric_header_raises (ws : worksheet) (header_row : nat) (site : text)
  (c : nat) (q : Q) :
  (1 <= c <= max_column ws)%nat ->
  cell_value ws header_row c = VNum q -> Qeq_bool q 0 = false ->
  (forall c' raw_hdr, (1 <= c' < c)%nat ->
     stripped_text (cell_value ws header_row c') = Ok raw_hdr ->
     ~ header_matches site raw_hdr) ->
  find_target_col ws header_row site (range 1 (max_column ws + 1)) = Raise AttributeError.
Proof.
  intros Hc Hcell Hq Hleft. unfold range.
  apply (find_target_col_number ws header_row site _ 1 c q); [lia | assumption..].
Qed.

Lemma numeric_header_raises_witness :
  find_target_col
    (sheet_of 5 3 [ ((5, 1), VStr (txt "Site")); ((5, 2), VNum 2025);
                    ((5, 3), VStr (txt "207 Weston")) ])
    5 (txt "WESTON") (range 1 (3 + 1)) = Raise AttributeError.
Proof.
  apply (numeric_header_raises
    (sheet_of 5 3 [ ((5, 1), VStr (txt "Site")); ((5, 2), VNum 2025);
                    ((5, 3), VStr (txt "207 Weston")) ])
    5 (txt "WESTON") 2 2025).
  - vm_compute. lia.
  - vm_compute; reflexivity.
  - vm_compute; reflexivity.
  - intros c' raw Hc' Hraw. assert (c' = 1%nat) as -> by lia.
    vm_compute in Hraw. injection Hraw as <-.
    intros [H|H]; vm_compute in H; discriminate.
Defined.

(** *** The per-file passes *)

Section PassFacts.

Variable str_of_number : Q -> text.
Variable score : text -> text -> Z.
Variable fuzzy_threshold : Z.
Variable file_year : Z.

Lemma same_cell_refl (r c : nat) (ws : worksheet) : same_cell r c ws ws.
Proof. split; reflexivity. Qed.

Lemma same_cell_trans (r c : nat) (ws1 ws2 ws3 : worksheet) :
  same_cell r c ws1 ws2 -> same_cell r c ws2 ws3 -> same_cell r c ws1 ws3.
Proof. intros [? ?] [? ?]. split; congruence. Qed.

Lemma match_and_write_other_cells (ws : worksheet) (s e : nat) (src : dict Q) (col r c : nat) :
  ~ (s <= r <= e)%nat \/ c <> col ->
  same_cell r c ws (fst (match_and_write score fuzzy_threshold ws s e src col)).
Proof.
  intros H. unfold match_and_write. apply write_rows_other_cells.
  rewrite in_range. destruct H; [left; lia | right; assumption].
Qed.

Lemma write_three_other_cells (site : text) (ws : worksheet) (col : nat)
  (rr er ir : nat * nat) (rev_dict exp_dict inc_dict : dict Q) (r c : nat) :
  ~ in_blocks (rr, er, ir) r \/ c <> col ->
  same_cell r c ws
    (fst (write_three score fuzzy_threshold site ws col rr er ir rev_dict exp_dict inc_dict)).
Proof.
  intros H. unfold write_three. cbn [in_blocks] in H.
  generalize (if contains (txt "WESTON") site then halve rev_dict else rev_dict).
  generalize (if contains (txt "WESTON") site then halve exp_dict else exp_dict).
  generalize (if contains (txt "WESTON") site then halve inc_dict else inc_dict).
  intros d3 d2 d1.
  pose proof (match_and_write_other_cells ws (fst rr) (snd rr) d1 col r c) as H1.
  destruct (match_and_write score fuzzy_threshold ws _ _ d1 col)
    as [ws1 [e|]]; cbn [fst] in *; [apply H1; tauto|].
  pose proof (match_and_write_other_cells ws1 (fst er) (snd er) d2 col r c) as H2.
  destruct (match_and_write score fuzzy_threshold ws1 _ _ d2 col)
    as [ws2 [e|]]; cbn [fst] in *.
  { eapply same_cell_trans; [apply H1 | apply H2]; tauto. }
  pose proof (match_and_write_other_cells ws2 (fst ir) (snd ir) d3 col r c) as H3.
  eapply same_cell_trans; [eapply same_cell_trans; [apply H1 | apply H2] | apply H3]; tauto.
Qed.

Lemma process_one_file_other_cells
  (parse : worksheet -> result (dict Q * dict Q * dict Q))
  (rows : worksheet -> (nat * nat) * (nat * nat) * (nat * nat))
  (src_wb : workbook) (filename : text) (master_ws : worksheet) (header_row : nat) :
  exists col, forall r c,
    ~ in_blocks (rows master_ws) r \/ c <> col ->
    same_cell r c master_ws
      (fst (process_one_file score fuzzy_threshold file_year parse rows src_wb filename
              master_ws header_row)).
Proof.
  unfold process_one_file.
  assert (Hskip : forall e : option exn, exists col : nat, forall r c,
            ~ in_blocks (rows master_ws) r \/ c <> col ->
            same_cell r c master_ws (fst (master_ws, e))).
  { intros e. exists 0%nat. intros. apply same_cell_refl. }
  destruct (find_income_sheet src_wb) as [inc_name|]; [|apply Hskip].
  destruct (sheet_named src_wb inc_name) as [src_ws|]; [|apply Hskip].
  destruct (parse src_ws) as [[[rev_dict exp_dict] inc_dict]|]; [|apply Hskip].
  assert (H : exists col : nat, forall r c,
    ~ in_blocks (rows master_ws) r \/ c <> col ->
    same_cell r c master_ws
    (fst match find_target_col master_ws header_row (resolve_site file_year filename)
                 (range 1 (max_column master_ws + 1)) with
         | Ok (Some target_col) =>
             let '(rev_rows, exp_rows, inc_rows) := rows master_ws in
             write_three score fuzzy_threshold (resolve_site file_year filename) master_ws
               target_col rev_rows exp_rows inc_rows rev_dict exp_dict inc_dict
         | Ok None => (master_ws, None)
         | Raise e => (master_ws, Some e)
         end)).
  { destruct (find_target_col _ _ _ _) as [[target_col|]|]; try apply Hskip.
    exists target_col. intros r c Hout.
    destruct (rows master_ws) as [[rr er] ir]. apply write_three_other_cells, Hout. }
  destruct rev_dict, exp_dict, inc_dict; try exact H. apply Hskip.
Qed.

Lemma month_rows_blocks (master_ws : worksheet) (r : nat) :
  in_blocks (month_rows str_of_number master_ws) r ->
  (53 <= r <= 66)%nat \/ (67 <= r <= 81)%nat \/ (86 <= r <= 94)%nat.
Proof.
  unfold month_rows. destruct (_ || _); cbn; lia.
Qed.

End PassFacts.

(** X15: a file's income passes write into one column of the template,
    and only into the rows of their three row ranges: the year-to-date
    pass into rows 6 to 16, 19 to 33 and 38 to 46, the month pass into
    rows 53 to 66, 67 to 81 and 86 to 94.  Every other cell, in
    particular the header row, keeps its value and its fill, whether the
    pass writes, skips the file or raises. *)
Theorem income_passes_frame (str_of_number : Q -> text) (score : text -> text -> Z)
  (fuzzy_threshold file_year : Z) (src_wb : workbook) (filename : text)
  (master_ws : worksheet) (header_row : nat) :
  (exists col, forall r c,
     ~ ((6 <= r <= 16)%nat \/ (19 <= r <= 33)%nat \/ (38 <= r <= 46)%nat) \/ c <> col ->
     same_cell r c master_ws
       (fst (process_one_file_ytd str_of_number score fuzzy_threshold file_year
               src_wb filename master_ws header_row)))
  /\ (exists col, forall r c,
        ~ ((53 <= r <= 66)%nat \/ (67 <= r <= 81)%nat \/ (86 <= r <= 94)%nat) \/ c <> col ->
        same_cell r c master_ws
          (fst (process_one_file_month str_of_number score fuzzy_threshold file_year
                  src_wb filename master_ws header_row))).
Proof.
  split.
  - destruct (process_one_file_other_cells score fuzzy_threshold file_year
                (parse_income_sheet_ytd str_of_number)
                (fun _ => ((6, 16), (19, 33), (38, 46))) src_wb filename master_ws header_row)
      as [col H].
    exists col. intros r c Hout. apply H. exact Hout.
  - destruct (process_one_file_other_cells score fuzzy_threshold file_year
                (parse_income_sheet_month str_of_number)
                (month_rows str_of_number) src_wb filename master_ws header_row)
      as [col H].
    exists col. intros r c Hout. apply H.
    destruct Hout as [Hout|Hout]; [left | right; exact Hout].
    intros Hin. apply Hout. exact (month_rows_blocks str_of_number master_ws r Hin).
Qed.

(** *** Skipped files *)

Lemma find_income_sheet_named (wb : workbook) (name : text) :
  find_income_sheet wb = Some name ->
  exists ws, sheet_named wb name = Some ws /\ In (name, ws) wb
             /\ contains (txt "income") (lower name) = true.
Proof.
  unfold find_income_sheet, sheet_named.
  induction wb as [|[n ws] wb IH]; cbn [List.find fst snd option_map]; [discriminate|].
  destruct (contains (txt "income") (lower n)) eqn:E.
  - intros [= <-]. rewrite text_eqb_refl. exists ws. cbn. auto.
  - intros H. destruct (IH H) as (ws' & Hn & Hin & Hc).
    destruct (text_eqb n name) eqn:En.
    + apply text_eqb_eq in En as ->. congruence.
    + exists ws'. split; [exact Hn|]. split; [right; exact Hin | exact Hc].
Qed.

(** X16: a source file is passed over without a trace in the template
    and without an exception when its workbook has no sheet with "income"
    in its name, or when an anchor of that sheet is not found: both
    passes return the template as it was.  The sheet that is parsed is the
    first whose lower-cased name contains "income". *)
Theorem file_without_sections_is_skipped (str_of_number : Q -> text)
  (score : text -> text -> Z) (fuzzy_threshold file_year : Z) (src_wb : workbook)
  (filename : text) (master_ws : worksheet) (header_row : nat) :
  find_income_sheet src_wb = None
  \/ (exists name ws a,
        find_income_sheet src_wb = Some name /\ sheet_named src_wb name = Some ws
        /\ find_anchor_rows ws = Ok a /\ all_found a = false) ->
  process_one_file_ytd str_of_number score fuzzy_threshold file_year src_wb filename
    master_ws header_row = (master_ws, None)
  /\ process_one_file_month str_of_number score fuzzy_threshold file_year src_wb filename
       master_ws header_row = (master_ws, None).
Proof.
  unfold process_one_file_ytd, process_one_file_month, process_one_file.
  intros [-> | (name & ws & a & -> & -> & Ha & Hnot)]; [split; reflexivity|].
  unfold parse_income_sheet_ytd, parse_income_sheet_month, parse_income_sheet.
  rewrite Ha. cbn [mbind result_bind].
  unfold all_found in Hnot.
  destruct (rev_start a), (exp_start a), (inc_start a); try discriminate; split; reflexivity.
Qed.

Lemma file_without_sections_is_skipped_witness :
  process_one_file_ytd (fun _ => []) (fun _ _ => 0%Z) 85 2025
    [ (txt "Income",
       sheet_of 2 8 [ ((1, 1), VStr (txt "Revenue")); ((2, 1), VStr (txt "Rent")) ]) ]
    (txt "fs2025Weston.xlsx")
    (sheet_of 46 2 [ ((5, 2), VStr (txt "207 Weston")) ]) 5
  = (sheet_of 46 2 [ ((5, 2), VStr (txt "207 Weston")) ], None).
Proof.
  apply file_without_sections_is_skipped. right.
  exists (txt "Income"),
    (sheet_of 2 8 [ ((1, 1), VStr (txt "Revenue")); ((2, 1), VStr (txt "Rent")) ]),
    {| rev_start := Some 1; exp_start := None; inc_start := None |}.
  repeat split; vm_compute; reflexivity.
Defined.

(** *** Halving in place *)

Lemma dict_get_app_fresh {V} (d1 d2 : dict V) (k : text) :
  ~ In k (dict_keys d1) -> dict_get (d1 ++ d2) k = dict_get d2 k.
Proof.
  induction d1 as [|[k' v'] d1 IH]; intros Hk; cbn; [reflexivity|].
  destruct (text_eqb k k') eqn:E.
  - apply text_eqb_eq in E as ->. destruct Hk. left. reflexivity.
  - apply IH. intros Hin. apply Hk. right. exact Hin.
Qed.

Lemma dict_set_app_fresh {V} (d1 d2 : dict V) (k : text) (v : V) :
  ~ In k (dict_keys d1) -> dict_set (d1 ++ d2) k v = d1 ++ dict_set d2 k v.
Proof.
  induction d1 as [|[k' v'] d1 IH]; intros Hk; cbn; [reflexivity|].
  destruct (text_eqb k k') eqn:E.
  - apply text_eqb_eq in E as ->. destruct Hk. left. reflexivity.
  - f_equal. apply IH. intros Hin. apply Hk. right. exact Hin.
Qed.

Lemma halve_keys (d : dict Q) : dict_keys (halve d) = dict_keys d.
Proof. unfold dict_keys, halve. rewrite map_map. reflexivity. Qed.

Lemma halve_in_place_from (done todo : dict Q) :
  List.NoDup (dict_keys (done ++ todo)) ->
  fold_left (fun acc k =>
               match dict_get acc k with
               | Some v => dict_set acc k (v / 2)%Q
               | None => acc
               end)
    (dict_keys todo) (halve done ++ todo)
  = halve (done ++ todo).
Proof.
  revert done. induction todo as [|[k v] todo IH]; intros done Hnd.
  - cbn. rewrite !app_nil_r. reflexivity.
  - cbn [dict_keys List.map fst fold_left].
    assert (Hfresh : ~ In k (dict_keys (halve done))).
    { rewrite halve_keys. unfold dict_keys in *. rewrite map_app in Hnd. cbn in Hnd.
      apply NoDup_remove_2 in Hnd. intros Hin. apply Hnd, in_or_app. left. exact Hin. }
    rewrite (dict_get_app_fresh _ _ _ Hfresh). cbn [dict_get]. rewrite text_eqb_refl.
    rewrite (dict_set_app_fresh _ _ _ _ Hfresh). cbn [dict_set]. rewrite text_eqb_refl.
    replace (halve done ++ (k, (v / 2)%Q) :: todo) with (halve (done ++ [(k, v)]) ++ todo).
    2:{ unfold halve. rewrite map_app, <- app_assoc. reflexivity. }
    replace (done ++ (k, v) :: todo) with ((done ++ [(k, v)]) ++ todo) in *
      by (rewrite <- app_assoc; reflexivity).
    apply (IH (done ++ [(k, v)])). exact Hnd.
Qed.

(** X17: the halving loop [for k in d: d[k] = d[k] / 2], run turn by
    turn on a dict (whose keys are distinct), halves every value exactly
    once and keeps the keys and their order: a lookup in the result gives
    half of what the lookup gave before. *)
Theorem halving_loop_halves_each_value_once (d : dict Q) :
  List.NoDup (dict_keys d) ->
  halve_in_place d = halve d
  /\ dict_keys (halve_in_place d) = dict_keys d
  /\ forall k, dict_get (halve_in_place d) k = option_map (fun v => (v / 2)%Q) (dict_get d k).
Proof.
  intros Hnd.
  assert (H : halve_in_place d = halve d) by exact (halve_in_place_from [] d Hnd).
  rewrite H. split; [reflexivity|]. split; [apply halve_keys|].
  intros k. unfold halve. induction d as [|[k' v'] d IH]; cbn; [reflexivity|].
  destruct (text_eqb k k'); [reflexivity|]. apply IH.
  - apply NoDup_cons_iff in Hnd. apply Hnd.
  - apply (halve_in_place_from [] d). apply NoDup_cons_iff in Hnd. apply Hnd.
Qed.

Lemma halving_loop_halves_each_value_once_witness :
  halve_in_place [(txt "rental income", 1000%Q); (txt "utilities", 3%Q)]
  = halve [(txt "rental income", 1000%Q); (txt "utilities", 3%Q)].
Proof.
  refine (proj1 (halving_loop_halves_each_value_once _ _)).
  repeat constructor; cbn; intros H; repeat destruct H as [H|H]; try discriminate; exact H.
Defined.

(* ===================================================================== *)
(** ** The balance sheets *)
(* ===================================================================== *)

(** *** Dict facts *)

Lemma dict_remove_absent {V} (d : dict V) (k : text) :
  dict_get d k = None -> dict_remove d k = d.
Proof.
  induction d as [|[k' v'] d IH]; cbn; [reflexivity|].
  destruct (text_eqb k k'); [discriminate|]. intros H. rewrite IH by exact H. reflexivity.
Qed.

Lemma dict_get_remove_other {V} (d : dict V) (k k' : text) :
  k' <> k -> dict_get (dict_remove d k) k' = dict_get d k'.
Proof.
  intros Hne. induction d as [|[k0 v0] d IH]; cbn; [reflexivity|].
  destruct (text_eqb k k0) eqn:E; cbn.
  - apply text_eqb_eq in E as <-.
    destruct (text_eqb k' k) eqn:E'; [apply text_eqb_eq in E'; contradiction | reflexivity].
  - rewrite IH. reflexivity.
Qed.

Lemma dict_get_remove_none {V} (d : dict V) (k k' : text) :
  dict_get d k' = None -> dict_get (dict_remove d k) k' = None.
Proof.
  intros H. destruct (decide (k' = k)) as [->|Hne].
  - rewrite (dict_remove_absent d k H). exact H.
  - rewrite dict_get_remove_other by exact Hne. exact H.
Qed.

Lemma dict_total_remove (d : dict Q) (k : text) :
  (dict_total (dict_remove d k) + default 0 (dict_get d k) == dict_total d)%Q.
Proof.
  unfold dict_total.
  induction d as [|[k' v'] d IH]; cbn [dict_remove dict_get].
  - cbn [fold_right from_option]. ring.
  - destruct (text_eqb k k'); cbn [fold_right snd from_option] in *.
    + unfold id. ring.
    + rewrite <- Qplus_assoc, IH. reflexivity.
Qed.

Lemma dict_get_key {V} (d : dict V) (k : text) (v : V) :
  dict_get d k = Some v -> In k (dict_keys d).
Proof. intros H. apply dict_get_in in H. apply (in_map fst) in H. exact H. Qed.

(** *** The mappings *)

Lemma fold_hst_total (acct_key hst : text) (l : dict Q) :
  hst <> acct_key -> (dict_total (fold_hst acct_key l hst) == dict_total l)%Q.
Proof.
  intros Hne. unfold fold_hst.
  pose proof (dict_total_set (dict_remove l hst) acct_key
                (default 0%Q (dict_get l acct_key) + default 0%Q (dict_get l hst))%Q) as Hset.
  rewrite (dict_get_remove_other l hst acct_key) in Hset by congruence.
  pose proof (dict_total_remove l hst) as Hrem.
  revert Hset Hrem.
  generalize (dict_total (dict_set (dict_remove l hst) acct_key
                (default 0%Q (dict_get l acct_key) + default 0%Q (dict_get l hst))%Q)).
  generalize (dict_total (dict_remove l hst)).
  generalize (default 0%Q (dict_get l acct_key)).
  generalize (default 0%Q (dict_get l hst)).
  generalize (dict_total l).
  intros t p a tr ts Hset Hrem.
  apply (Qplus_inj_r _ _ a). rewrite Hset, <- Hrem. ring.
Qed.

Lemma fold_hst_fresh (acct_key hst k : text) (l : dict Q) :
  k <> acct_key -> dict_get l k = None -> dict_get (fold_hst acct_key l hst) k = None.
Proof.
  intros Hne H. unfold fold_hst. rewrite dict_get_set.
  destruct (text_eqb k acct_key) eqn:E; [apply text_eqb_eq in E; contradiction|].
  apply dict_get_remove_none, H.
Qed.

Lemma fold_hst_all (acct_key : text) (hst_keys : list text) (l : dict Q) :
  Forall (fun hst => hst <> acct_key) hst_keys ->
  (dict_total (fold_left (fold_hst acct_key) hst_keys l) == dict_total l)%Q
  /\ forall k, k <> acct_key -> dict_get l k = None ->
       dict_get (fold_left (fold_hst acct_key) hst_keys l) k = None.
Proof.
  intros H. revert l. induction H as [|hst hst_keys Hne _ IH]; intros l; cbn [fold_left].
  - split; [reflexivity | auto].
  - destruct (IH (fold_hst acct_key l hst)) as [Ht Hf]. split.
    + rewrite Ht. apply fold_hst_total, Hne.
    + intros k Hk Hnone. apply Hf; [exact Hk|]. apply fold_hst_fresh; assumption.
Qed.

Lemma payable_and_accrued_is_payable :
  is_payable_key (txt "ACCOUNTS PAYABLE AND ACCRUED") = true.
Proof. vm_compute. reflexivity. Qed.

Lemma merge_hst_total (l : dict Q) :
  (forall acct_key, List.find is_payable_key (dict_keys l) = Some acct_key ->
                    is_hst_key acct_key = false) ->
  (dict_total (merge_hst l) == dict_total l)%Q.
Proof.
  intros Hacct. unfold merge_hst.
  destruct (List.find is_payable_key (dict_keys l)) as [acct_key|] eqn:Hfind.
  - apply fold_hst_all. apply List.Forall_forall. intros hst Hin ->.
    apply filter_In in Hin as [_ Hh]. rewrite (Hacct acct_key eq_refl) in Hh. discriminate.
  - destruct (List.filter is_hst_key (dict_keys l)) as [|first_hst rest]; [reflexivity|].
    assert (Hfresh : dict_get l (txt "ACCOUNTS PAYABLE AND ACCRUED") = None).
    { destruct (dict_get l (txt "ACCOUNTS PAYABLE AND ACCRUED")) as [v|] eqn:E; [|reflexivity].
      apply dict_get_key in E. apply (find_none _ _ Hfind) in E.
      rewrite payable_and_accrued_is_payable in E. discriminate. }
    pose proof (dict_total_set (dict_remove l first_hst) (txt "ACCOUNTS PAYABLE AND ACCRUED")
                  (default 0%Q (dict_get l first_hst))) as Hset.
    rewrite (dict_get_remove_none l first_hst _ Hfresh) in Hset.
    pose proof (dict_total_remove l first_hst) as Hrem.
    cbn [from_option] in Hset. rewrite <- Hrem. rewrite Qplus_0_r in Hset. exact Hset.
Qed.

Lemma fold_hst_all_fresh (acct_key : text) (hst_keys : list text) (l : dict Q) (k : text) :
  k <> acct_key -> dict_get l k = None ->
  dict_get (fold_left (fold_hst acct_key) hst_keys l) k = None.
Proof.
  intros Hk. revert l. induction hst_keys as [|hst hst_keys IH]; intros l H; cbn [fold_left].
  - exact H.
  - apply IH, fold_hst_fresh; assumption.
Qed.

Lemma merge_hst_fresh (l : dict Q) (k : text) :
  is_payable_key k = false ->
  dict_get l k = None -> dict_get (merge_hst l) k = None.
Proof.
  intros Hk Hnone. unfold merge_hst.
  destruct (List.find is_payable_key (dict_keys l)) as [acct_key|] eqn:Hfind.
  - apply fold_hst_all_fresh; [|exact Hnone].
    intros ->. apply find_some in Hfind as [_ Hp]. congruence.
  - destruct (List.filter is_hst_key (dict_keys l)) as [|first_hst rest]; [exact Hnone|].
    rewrite dict_get_set.
    destruct (text_eqb k (txt "ACCOUNTS PAYABLE AND ACCRUED")) eqn:E.
    + apply text_eqb_eq in E as ->. rewrite payable_and_accrued_is_payable in Hk. discriminate.
    + apply dict_get_remove_none, Hnone.
Qed.

Lemma rename_key_total (old new : string) (d : dict Q) :
  dict_get d (txt new) = None ->
  (dict_total (rename_key old new d) == dict_total d)%Q.
Proof.
  intros Hfresh. unfold rename_key.
  destruct (dict_get d (txt old)) as [v|] eqn:Hold; [|reflexivity].
  pose proof (dict_total_set (dict_remove d (txt old)) (txt new) v) as Hset.
  rewrite (dict_get_remove_none d (txt old) _ Hfresh) in Hset.
  pose proof (dict_total_remove d (txt old)) as Hrem. rewrite Hold in Hrem.
  cbn [from_option] in Hset, Hrem. unfold id in Hrem.
  rewrite <- Hrem. rewrite Qplus_0_r in Hset. exact Hset.
Qed.

Lemma rename_key_fresh (old new : string) (d : dict Q) (k : text) :
  k <> txt new -> dict_get d k = None -> dict_get (rename_key old new d) k = None.
Proof.
  intros Hk Hnone. unfold rename_key.
  destruct (dict_get d (txt old)) as [v|]; [|exact Hnone].
  rewrite dict_get_set.
  destruct (text_eqb k (txt new)) eqn:E; [apply text_eqb_eq in E; contradiction|].
  apply dict_get_remove_none, Hnone.
Qed.

(** X18: the mappings of [process_balance_sheet_file] move amounts
    between lines and lose none: the total of each section (as an exact
    number) is what the section parser gave, provided the four new line
    names are not yet lines of their sections and the accounts-payable
    line is not itself an HST-recoverable line. *)
Theorem mappings_keep_section_totals (s : summary) :
  dict_get (assets s) (txt "Due From CSIT Companies") = None ->
  dict_get (equity s) (txt "Retained Earnings") = None ->
  dict_get (liabilities s) (txt "Due to CSIT Companies") = None ->
  dict_get (liabilities s) (txt "Deferred Revenue/Deposits") = None ->
  (forall acct_key, List.find is_payable_key (dict_keys (liabilities s)) = Some acct_key ->
                    is_hst_key acct_key = false) ->
  (dict_total (assets (apply_mappings s)) == dict_total (assets s))%Q
  /\ (dict_total (liabilities (apply_mappings s)) == dict_total (liabilities s))%Q
  /\ (dict_total (equity (apply_mappings s)) == dict_total (equity s))%Q.
Proof.
  intros Ha He Hl1 Hl2 Hacct. cbn [apply_mappings assets liabilities equity].
  split; [apply rename_key_total, Ha|]. split; [|apply rename_key_total, He].
  rewrite rename_key_total, rename_key_total.
  - apply merge_hst_total, Hacct.
  - apply merge_hst_fresh; [vm_compute; reflexivity | exact Hl1].
  - apply rename_key_fresh; [vm_compute; discriminate|].
    apply merge_hst_fresh; [vm_compute; reflexivity | exact Hl2].
Qed.

Lemma mappings_keep_section_totals_witness :
  Qeq (dict_total
         (liabilities
            (apply_mappings
               {| assets := [];
                  liabilities := [ (txt "ACCOUNTS PAYABLE", 100%Q);
                                   (txt "HST RECOVERABLE", (-30)%Q);
                                   (txt "LOANS PAYABLE", 500%Q) ];
                  equity := [] |})))
      (dict_total [ (txt "ACCOUNTS PAYABLE", 100%Q);
                    (txt "HST RECOVERABLE", (-30)%Q);
                    (txt "LOANS PAYABLE", 500%Q) ]).
Proof.
  refine (proj1 (proj2 (mappings_keep_section_totals
    {| assets := [];
       liabilities := [ (txt "ACCOUNTS PAYABLE", 100%Q);
                        (txt "HST RECOVERABLE", (-30)%Q);
                        (txt "LOANS PAYABLE", 500%Q) ];
       equity := [] |} _ _ _ _ _))).
  - reflexivity.
  - reflexivity.
  - vm_compute; reflexivity.
  - vm_compute; reflexivity.
  - intros acct_key H. vm_compute in H. injection H as <-. vm_compute. reflexivity.
Defined.

(** *** The consolidated balance sheet *)

Section BalanceFacts.

Variable str_of_number : Q -> text.
Variable set_ratio : text -> text -> Z.
Variable fuzzy_threshold : Z.

Lemma map_label_indexes (texts : list (nat * text)) (m m' : dict nat) (query key : text) :
  indexes_within texts m ->
  map_label set_ratio fuzzy_threshold texts m query key = Ok m' ->
  indexes_within texts m'.
Proof.
  intros Hm H. unfold map_label in H.
  destruct (extractOne set_ratio query (List.map snd texts)) as [[best sc]|];
    cbn [unpack mbind result_bind] in H; [|discriminate].
  destruct (fuzzy_threshold <=? sc)%Z; [|injection H as <-; exact Hm].
  unfold first_with_text in H.
  destruct (List.find _ texts) as [[i t]|] eqn:Hf; cbn [option_map fst] in H;
    injection H as <-; [|exact Hm].
  intros k j Hget. rewrite dict_get_set in Hget.
  destruct (text_eqb k key); [|exact (Hm k j Hget)].
  injection Hget as <-. apply find_some in Hf as [Hin _].
  apply (in_map fst) in Hin. exact Hin.
Qed.

Lemma map_labels_indexes (texts : list (nat * text)) (items : list (text * text))
  (m m' : dict nat) :
  indexes_within texts m ->
  map_labels set_ratio fuzzy_threshold texts m items = Ok m' ->
  indexes_within texts m'.
Proof.
  revert m. induction items as [|[query key] items IH]; intros m Hm H; cbn in H.
  - injection H as <-. exact Hm.
  - destruct (map_label set_ratio fuzzy_threshold texts m query key) as [m1|] eqn:E;
      cbn in H; [|discriminate].
    exact (IH m1 (map_label_indexes texts m m1 query key Hm E) H).
Qed.

Lemma row_texts_rows (ws : worksheet) (header_row_bs r : nat) :
  In r (List.map fst (row_texts ws header_row_bs)) ->
  (header_row_bs < r <= max_row ws)%nat /\ is_str (cell_value ws r 1) = true.
Proof.
  intros H. apply in_map_iff in H as ([r' t] & <- & Hin). cbn [fst].
  unfold row_texts in Hin. apply in_flat_map in Hin as (row & Hrow & Hin).
  apply in_range in Hrow.
  destruct (cell_value ws row 1) as [|s|q] eqn:E; cbn in Hin; try contradiction.
  destruct Hin as [[= <- <-]|[]]. rewrite E. split; [lia | reflexivity].
Qed.

Lemma col_texts_cols (ws : worksheet) (header_row_bs c : nat) :
  In c (List.map fst (col_texts ws header_row_bs)) ->
  (1 <= c <= max_column ws)%nat /\ is_str (cell_value ws header_row_bs c) = true.
Proof.
  intros H. apply in_map_iff in H as ([c' t] & <- & Hin). cbn [fst].
  unfold col_texts in Hin. apply in_flat_map in Hin as (col & Hcol & Hin).
  apply in_range in Hcol.
  destruct (cell_value ws header_row_bs col) as [|s|q] eqn:E; cbn in Hin; try contradiction.
  destruct Hin as [[= <- <-]|[]]. rewrite E. split; [lia | reflexivity].
Qed.

Lemma write_section_touches (entity_label : text) (target_col : nat)
  (row_by_category : dict nat) (items : dict Q) (ws : worksheet) (r c : nat) :
  cell_value (write_section str_of_number entity_label target_col row_by_category items ws) r c
  = cell_value ws r c
  \/ (c = target_col /\ exists category, dict_get row_by_category category = Some r).
Proof.
  revert ws. induction items as [|[category amount] items IH]; intros ws; cbn [write_section].
  - left. reflexivity.
  - destruct (IH (match dict_get row_by_category category with
                  | Some row_idx =>
                      set_value ws row_idx target_col
                        (if text_eqb entity_label (txt "207 Weston")
                         then VStr (half_formula str_of_number amount) else VNum amount)
                  | None => ws
                  end)) as [E|E]; [|right; exact E].
    rewrite E. destruct (dict_get row_by_category category) as [row_idx|] eqn:Hrow;
      [|left; reflexivity].
    rewrite cell_value_set_value.
    destruct (decide ((row_idx, target_col) = (r, c))) as [[= <- <-]|]; [|left; reflexivity].
    right. split; [reflexivity|]. exists category. exact Hrow.
Qed.

Lemma write_section_fills (entity_label : text) (target_col : nat)
  (row_by_category : dict nat) (items : dict Q) (ws : worksheet) :
  fills (write_section str_of_number entity_label target_col row_by_category items ws)
  = fills ws.
Proof.
  revert ws. induction items as [|[category amount] items IH]; intros ws; cbn [write_section];
    [reflexivity|].
  rewrite IH. destruct (dict_get row_by_category category); reflexivity.
Qed.

Lemma write_entity_touches (col_by_entity row_by_category : dict nat) (entity_label : text)
  (s : summary) (ws : worksheet) (r c : nat) :
  cell_value (write_entity str_of_number col_by_entity row_by_category entity_label s ws) r c
  = cell_value ws r c
  \/ ((exists entity, dict_get col_by_entity entity = Some c)
      /\ exists category, dict_get row_by_category category = Some r).
Proof.
  unfold write_entity. destruct (dict_get col_by_entity entity_label) as [target_col|] eqn:Hcol;
    [|left; reflexivity].
  assert (Hright : forall c', c' = target_col ->
            exists entity, dict_get col_by_entity entity = Some c').
  { intros c' ->. exists entity_label. exact Hcol. }
  destruct (write_section_touches entity_label target_col row_by_category (equity s)
              (write_section str_of_number entity_label target_col row_by_category
                 (liabilities s)
                 (write_section str_of_number entity_label target_col row_by_category
                    (assets s) ws)) r c) as [-> | [Hc Hr]]; [|right; auto].
  destruct (write_section_touches entity_label target_col row_by_category (liabilities s)
              (write_section str_of_number entity_label target_col row_by_category
                 (assets s) ws) r c) as [-> | [Hc Hr]]; [|right; auto].
  destruct (write_section_touches entity_label target_col row_by_category (assets s) ws r c)
    as [-> | [Hc Hr]]; [left; reflexivity | right; auto].
Qed.

Lemma write_entity_fills (col_by_entity row_by_category : dict nat) (entity_label : text)
  (s : summary) (ws : worksheet) :
  fills (write_entity str_of_number col_by_entity row_by_category entity_label s ws)
  = fills ws.
Proof.
  unfold write_entity. destruct (dict_get col_by_entity entity_label); [|reflexivity].
  rewrite !write_section_fills. reflexivity.
Qed.

Lemma write_balance_sheet_touches (col_by_entity row_by_category : dict nat)
  (all_summaries : dict summary) (ws : worksheet) (r c : nat) :
  (cell_value (write_balance_sheet str_of_number col_by_entity row_by_category
                 all_summaries ws) r c
   = cell_value ws r c
   \/ ((exists entity, dict_get col_by_entity entity = Some c)
       /\ exists category, dict_get row_by_category category = Some r))
  /\ fills (write_balance_sheet str_of_number col_by_entity row_by_category
              all_summaries ws) = fills ws.
Proof.
  unfold write_balance_sheet. revert ws.
  induction all_summaries as [|[entity s] rest IH]; intros ws; cbn [fold_left fst snd].
  - split; [left|]; reflexivity.
  - destruct (IH (write_entity str_of_number col_by_entity row_by_category entity s ws))
      as [Hv Hf].
    split; [|rewrite Hf; apply write_entity_fills].
    destruct Hv as [-> | Hv]; [|right; exact Hv].
    apply write_entity_touches.
Qed.

End BalanceFacts.

(** X19: the write of the consolidated balance sheet stays inside the
    grid of labels.  When the stage ends without an exception, a cell
    whose value has changed lies in a row below row 5 whose column-1 cell
    is a text and in a column whose row-5 cell is a text; no fill changes;
    and the stage label is then "Writing balance sheet values". *)
Theorem balance_sheet_write_stays_in_grid (str_of_number : Q -> text)
  (set_ratio : text -> text -> Z) (fuzzy_threshold : Z) (all_summaries : dict summary)
  (master_ws_bs ws' : worksheet) (stage_before stage_after : string) :
  balance_sheet_stage str_of_number set_ratio fuzzy_threshold all_summaries master_ws_bs
    stage_before = (stage_after, Ok ws') ->
  stage_after = stage_writing_balance
  /\ (forall r c, cell_fill ws' r c = cell_fill master_ws_bs r c)
  /\ forall r c,
       cell_value ws' r c <> cell_value master_ws_bs r c ->
       (5 < r <= max_row master_ws_bs)%nat
       /\ is_str (cell_value master_ws_bs r 1) = true
       /\ (1 <= c <= max_column master_ws_bs)%nat
       /\ is_str (cell_value master_ws_bs 5 c) = true.
Proof.
  unfold balance_sheet_stage, stage_bind, set_stage, lift, stage_ret. intros H.
  destruct (build_row_by_category set_ratio fuzzy_threshold all_summaries master_ws_bs)
    as [rbc|] eqn:Hrbc; [|discriminate].
  destruct (build_col_by_entity set_ratio fuzzy_threshold all_summaries master_ws_bs)
    as [cbe|] eqn:Hcbe; [|discriminate].
  injection H as <- <-.
  apply map_labels_indexes in Hrbc; [|intros k i Hget; discriminate].
  apply map_labels_indexes in Hcbe; [|intros k i Hget; discriminate].
  split; [reflexivity|]. split.
  - intros r c. unfold cell_fill.
    rewrite (proj2 (write_balance_sheet_touches str_of_number cbe rbc all_summaries
                      master_ws_bs r c)). reflexivity.
  - intros r c Hchanged.
    destruct (proj1 (write_balance_sheet_touches str_of_number cbe rbc all_summaries
                       master_ws_bs r c)) as [E | [[entity Hc] [category Hr]]];
      [contradiction|].
    apply Hrbc, row_texts_rows in Hr. apply Hcbe, col_texts_cols in Hc. tauto.
Qed.

Lemma balance_sheet_write_stays_in_grid_witness :
  let ws := sheet_of 7 3 [ ((5, 2), VStr (txt "Bedford")); ((6, 1), VStr (txt "Cash"));
                           ((7, 1), VStr (txt "Land")) ] in
  fst (balance_sheet_stage (fun _ => []) (fun _ _ => 100%Z) 85
         [ (txt "Bedford", {| assets := [(txt "CASH", 12%Q)]; liabilities := [];
                              equity := [] |}) ] ws "Initializing"%string)
  = stage_writing_balance.
Proof.
  cbv zeta.
  refine (proj1 (balance_sheet_write_stays_in_grid (fun _ => []) (fun _ _ => 100%Z) 85
    [ (txt "Bedford", {| assets := [(txt "CASH", 12%Q)]; liabilities := []; equity := [] |}) ]
    (sheet_of 7 3 [ ((5, 2), VStr (txt "Bedford")); ((6, 1), VStr (txt "Cash"));
                    ((7, 1), VStr (txt "Land")) ])
    (set_value (sheet_of 7 3 [ ((5, 2), VStr (txt "Bedford")); ((6, 1), VStr (txt "Cash"));
                               ((7, 1), VStr (txt "Land")) ]) 6 2 (VNum 12))
    "Initializing" _ _)).
  vm_compute. reflexivity.
Defined.

Lemma row_texts_empty (ws : worksheet) (header_row_bs : nat) :
  (forall r, (header_row_bs < r <= max_row ws)%nat -> is_str (cell_value ws r 1) = false) ->
  row_texts ws header_row_bs = [].
Proof.
  intros H. unfold row_texts.
  assert (Hall : forall rows, (forall r, In r rows -> is_str (cell_value ws r 1) = false) ->
            List.flat_map (fun row =>
              match cell_value ws row 1 with
              | VStr s => [(row, strip s)]
              | _ => []
              end) rows = []).
  { induction rows as [|r rows IH]; intros Hr; cbn [List.flat_map]; [reflexivity|].
    rewrite IH by (intros r' Hin; apply Hr; right; exact Hin).
    pose proof (Hr r (or_introl eq_refl)) as E.
    destruct (cell_value ws r 1); [reflexivity | discriminate | reflexivity]. }
  apply Hall. intros r Hin. apply in_range in Hin. apply H. lia.
Qed.

(** X20: a template balance sheet with no text label below row 5
    cannot take any category: as soon as a file's summary has one, the
    search for its row returns nothing, unpacking that result raises, and
    the run ends in the outer handler at the stage "Building balance sheet
    mappings", nothing being written. *)
Theorem no_row_labels_is_fatal (str_of_number : Q -> text) (set_ratio : text -> text -> Z)
  (fuzzy_threshold : Z) (all_summaries : dict summary) (master_ws_bs : worksheet)
  (stage_before : string) :
  (forall r, (5 < r <= max_row master_ws_bs)%nat ->
             is_str (cell_value master_ws_bs r 1) = false) ->
  (exists entity s category,
     In (entity, s) all_summaries /\ In category (summary_categories s)) ->
  exists e,
    balance_sheet_stage str_of_number set_ratio fuzzy_threshold all_summaries master_ws_bs
      stage_before = (stage_building_mappings, Raise e).
Proof.
  intros Hrows (entity & s & category & Hs & Hcat). exists TypeError.
  unfold balance_sheet_stage, stage_bind, set_stage, lift, build_row_by_category.
  rewrite (row_texts_empty master_ws_bs 5 Hrows).
  assert (Hin : In category
            (List.flat_map (fun es => summary_categories (snd es)) all_summaries)).
  { apply in_flat_map. exists (entity, s). split; [exact Hs | exact Hcat]. }
  destruct (List.flat_map _ all_summaries) as [|c rest]; [contradiction|].
  reflexivity.
Qed.

Lemma no_row_labels_is_fatal_witness :
  exists e,
    balance_sheet_stage (fun _ => []) (fun _ _ => 100%Z) 85
      [ (txt "Bedford", {| assets := [(txt "CASH", 12%Q)]; liabilities := []; equity := [] |}) ]
      (sheet_of 7 3 [ ((5, 2), VStr (txt "Bedford")); ((3, 1), VStr (txt "Cash"));
                      ((6, 1), VNum 7) ])
      "Initializing"%string
    = (stage_building_mappings, Raise e).
Proof.
  apply no_row_labels_is_fatal.
  - intros r Hr. cbn in Hr.
    assert (Hcases : r = 6%nat \/ r = 7%nat) by lia.
    destruct Hcases as [-> | ->]; vm_compute; reflexivity.
  - exists (txt "Bedford"),
      {| assets := [(txt "CASH", 12%Q)]; liabilities := []; equity := [] |}, (txt "CASH").
    split; [left; reflexivity | left; reflexivity].
Defined.

Section VerbatimFacts.

Variable str_of_number : Q -> text.

Lemma amounts_from_trans (a1 a2 : dict Q) (ws1 ws2 ws3 : worksheet) :
  amounts_from a1 ws1 ws2 -> amounts_from a2 ws2 ws3 -> amounts_from (a1 ++ a2) ws1 ws3.
Proof.
  intros H12 H23 r c. destruct (H23 r c) as [E | (k & v & Hin & E)].
  - rewrite E. destruct (H12 r c) as [E' | (k & v & Hin & E')]; [left; exact E'|].
    right. exists k, v. split; [apply in_or_app; left; exact Hin | exact E'].
  - right. exists k, v. split; [apply in_or_app; right; exact Hin | exact E].
Qed.

Lemma write_section_verbatim (entity_label : text) (col : nat) (row_by_category : dict nat)
  (items : dict Q) (ws : worksheet) :
  entity_label <> txt "207 Weston" ->
  amounts_from items ws
    (write_section str_of_number entity_label col row_by_category items ws).
Proof.
  intros Hne. apply text_eqb_neq in Hne.
  revert ws. induction items as [|[category amount] items IH]; intros ws.
  - intros r c. left. reflexivity.
  - cbn [write_section]. rewrite Hne.
    eapply (amounts_from_trans [(category, amount)] items); [|apply IH].
    intros r c. destruct (dict_get row_by_category category) as [row_idx|];
      [|left; reflexivity].
    rewrite cell_value_set_value. destruct (decide ((row_idx, col) = (r, c)));
      [|left; reflexivity].
    right. exists category, amount. split; [left; reflexivity | reflexivity].
Qed.

End VerbatimFacts.

(** X21: only "207 Weston" is halved in the balance-sheet write.  For
    every other entity, a cell that its write changes holds an amount of
    the entity's summary as the number it is. *)
Theorem other_entities_are_written_verbatim (str_of_number : Q -> text)
  (col_by_entity row_by_category : dict nat) (entity_label : text) (s : summary)
  (ws : worksheet) :
  entity_label <> txt "207 Weston" ->
  amounts_from (assets s ++ liabilities s ++ equity s) ws
    (write_entity str_of_number col_by_entity row_by_category entity_label s ws).
Proof.
  intros Hne. unfold write_entity. destruct (dict_get col_by_entity entity_label) as [col|].
  - eapply amounts_from_trans; [apply write_section_verbatim, Hne|].
    eapply amounts_from_trans; apply write_section_verbatim, Hne.
  - intros r c. left. reflexivity.
Qed.

Lemma other_entities_are_written_verbatim_witness :
  amounts_from ([(txt "CASH", 12%Q)] ++ [] ++ [])
    (sheet_of 7 3 [])
    (write_entity (fun _ => []) [(txt "Bedford", 2%nat)] [(txt "CASH", 6%nat)]
       (txt "Bedford")
       {| assets := [(txt "CASH", 12%Q)]; liabilities := []; equity := [] |}
       (sheet_of 7 3 [])).
Proof.
  apply (other_entities_are_written_verbatim (fun _ => []) [(txt "Bedford", 2%nat)]
           [(txt "CASH", 6%nat)] (txt "Bedford")
           {| assets := [(txt "CASH", 12%Q)]; liabilities := []; equity := [] |}
           (sheet_of 7 3 [])).
  vm_compute. discriminate.
Defined.

(* ===================================================================== *)
(** ** Highlights and the last-year balance sheet *)
(* ===================================================================== *)

(** *** Highlight *)

Lemma fill_columns_value (f : pattern_fill) (r : nat) (cols : list nat) (ws : worksheet)
  (r' c' : nat) :
  cell_value (fold_left (fun w c => set_fill w r c f) cols ws) r' c' = cell_value ws r' c'.
Proof.
  revert ws. induction cols as [|c cols IH]; intros ws; cbn [fold_left]; [reflexivity|].
  rewrite IH. apply cell_value_set_fill.
Qed.

Lemma fill_columns_fill (f : pattern_fill) (r : nat) (len a : nat) (ws : worksheet)
  (r' c' : nat) :
  cell_fill (fold_left (fun w c => set_fill w r c f) (seq a len) ws) r' c'
  = if decide (r' = r /\ (a <= c' < a + len)%nat) then Some f else cell_fill ws r' c'.
Proof.
  revert a ws. induction len as [|len IH]; intros a ws; cbn [seq fold_left].
  - case_decide; [lia | reflexivity].
  - rewrite IH, cell_fill_set_fill. cell_cases.
Qed.

Lemma find_first (f : nat -> bool) (len a r : nat) :
  List.find f (seq a len) = Some r ->
  (a <= r < a + len)%nat /\ f r = true /\ forall r', (a <= r' < r)%nat -> f r' = false.
Proof.
  revert a. induction len as [|len IH]; intros a H; cbn in H; [discriminate|].
  destruct (f a) eqn:E.
  - injection H as <-. split; [lia|]. split; [exact E|]. intros; lia.
  - destruct (IH (S a) H) as (Hr & Hf & Hfirst). split; [lia|]. split; [exact Hf|].
    intros r' Hr'. destruct (Nat.eq_dec r' a) as [->|]; [exact E|]. apply Hfirst. lia.
Qed.

(** X22: the Intercompany highlight changes no value and at most fifteen
    fills: those of columns 1 to 15 in the first row whose column-1 cell,
    printed, stripped and upper-cased, reads INTERCOMPANY.  A later such
    row is not highlighted, and a sheet with no such row is left as it
    is. *)
Theorem intercompany_highlight (str_of_number : Q -> text) (bs_ws : worksheet) :
  let ws' := highlight_intercompany str_of_number bs_ws in
  (forall r c, cell_value ws' r c = cell_value bs_ws r c)
  /\ ((forall r, (1 <= r <= max_row bs_ws)%nat ->
         is_intercompany str_of_number (cell_value bs_ws r 1) = false)
      /\ ws' = bs_ws
      \/ exists r0,
           (1 <= r0 <= max_row bs_ws)%nat
           /\ is_intercompany str_of_number (cell_value bs_ws r0 1) = true
           /\ (forall r, (1 <= r < r0)%nat ->
                 is_intercompany str_of_number (cell_value bs_ws r 1) = false)
           /\ forall r c,
                cell_fill ws' r c
                = if decide (r = r0 /\ (1 <= c <= 15)%nat) then Some yellow
                  else cell_fill bs_ws r c).
Proof.
  intros ws'. subst ws'. unfold highlight_intercompany, range.
  destruct (List.find _ (seq 1 (max_row bs_ws + 1 - 1))) as [r0|] eqn:Hfind.
  - split; [intros r c; apply fill_columns_value|]. right.
    apply find_first in Hfind as (Hr0 & Hf & Hfirst).
    exists r0. split; [lia|]. split; [exact Hf|]. split; [exact Hfirst|].
    intros r c. rewrite fill_columns_fill.
    cell_cases.
  - split; [reflexivity|]. left. split; [|reflexivity].
    intros r Hr. apply (find_none _ _ Hfind). apply in_seq. lia.
Qed.

(** *** Last year's balance sheet *)

Lemma index_from_none {A} (f : A -> bool) (l : list A) (i : nat) :
  (forall x, In x l -> f x = false) -> index_from f l i = None.
Proof.
  revert i. induction l as [|x l IH]; intros i H; cbn; [reflexivity|].
  rewrite (H x (or_introl eq_refl)). apply IH. intros y Hy. apply H. right. exact Hy.
Qed.

Lemma write_last_rows (balance_dict : dict Q) (len a : nat) (ws : worksheet) (r c : nat) :
  let ws' :=
    fold_left (fun w r =>
                 match cell_value w r 1 with
                 | VStr hdr =>
                     match dict_get balance_dict (strip hdr) with
                     | Some v => set_value w r 5 (VNum v)
                     | None => w
                     end
                 | _ => w
                 end) (seq a len) ws in
  cell_fill ws' r c = cell_fill ws r c
  /\ cell_value ws' r c
     = match cell_value ws r 1 with
       | VStr hdr =>
           match dict_get balance_dict (strip hdr) with
           | Some v =>
               if decide (c = 5%nat /\ (a <= r < a + len)%nat) then VNum v
               else cell_value ws r c
           | None => cell_value ws r c
           end
       | _ => cell_value ws r c
       end.
Proof.
  cbv zeta. revert a ws. induction len as [|len IH]; intros a ws.
  - cbn [seq fold_left]. split; [reflexivity|].
    destruct (cell_value ws r 1) as [|hdr|]; try reflexivity.
    destruct (dict_get balance_dict (strip hdr)); [|reflexivity].
    case_decide; [lia | reflexivity].
  - cbn [seq fold_left].
    set (w1 := match cell_value ws a 1 with
               | VStr hdr =>
                   match dict_get balance_dict (strip hdr) with
                   | Some v => set_value ws a 5 (VNum v)
                   | None => ws
                   end
               | _ => ws
               end).
    destruct (IH (S a) w1) as [Hf Hv]. rewrite Hf, Hv. clear Hf Hv IH.
    assert (Hlabel : forall r', cell_value w1 r' 1 = cell_value ws r' 1).
    { intros r'. subst w1. destruct (cell_value ws a 1) as [|hdr|]; try reflexivity.
      destruct (dict_get balance_dict (strip hdr)); [|reflexivity].
      rewrite cell_value_set_value. case_decide as E; [discriminate E | reflexivity]. }
    assert (Hfill : cell_fill w1 r c = cell_fill ws r c).
    { subst w1. destruct (cell_value ws a 1) as [|hdr|]; try reflexivity.
      destruct (dict_get balance_dict (strip hdr)); reflexivity. }
    split; [exact Hfill|]. rewrite Hlabel.
    destruct (Nat.eq_dec r a) as [->|Hne].
    + destruct (cell_value ws a 1) as [|hdr|] eqn:Eh; subst w1; cbn beta iota; try reflexivity.
      destruct (dict_get balance_dict (strip hdr)) as [v|] eqn:Ed; [|reflexivity].
      rewrite cell_value_set_value.
      cell_cases.
    + assert (Hcell : cell_value w1 r c = cell_value ws r c).
      { subst w1. destruct (cell_value ws a 1) as [|hdr|]; try reflexivity.
        destruct (dict_get balance_dict (strip hdr)); [|reflexivity].
        rewrite cell_value_set_value.
        case_decide as E; [injection E as ? ?; lia | reflexivity]. }
      rewrite Hcell.
      destruct (cell_value ws r 1) as [|hdr|]; try reflexivity.
      destruct (dict_get balance_dict (strip hdr)); [|reflexivity].
      cell_cases.
Qed.

(** X23: last year's balance sheet without a number in its third
    column ends the run at the stage "Processing last year's balance
    sheet": when no cell of that column, printed and reduced to its
    digits, points and minus signs, reads as a number, the stage raises
    [ValueError] before anything is written. *)
Theorem no_numeric_column_is_fatal (parse_number : text -> option Q)
  (str_of_number : Q -> text) (sheets : grid_book) (df0 : grid) (ws : worksheet)
  (stage_before : string) :
  last_balance_grid sheets = Some df0 ->
  (2 < ncols df0)%nat ->
  (forall row, In row df0 ->
     parse_number (keep_numeric_chars (astype_str str_of_number (row_cell row 2))) = None) ->
  last_year_balance_stage parse_number str_of_number (Some sheets) ws stage_before
  = (stage_last_year_balance, Raise ValueError).
Proof.
  intros Hsheet Hcols Hnone.
  unfold last_year_balance_stage, stage_bind, reraise, set_stage, stage_ret, lift.
  rewrite Hsheet. unfold balance_dict_of.
  destruct (Nat.leb_spec (ncols df0) 2); [lia|].
  rewrite index_from_none; [reflexivity|].
  intros v Hin. unfold col3_of in Hin. apply in_map_iff in Hin as (row & <- & Hrow).
  rewrite (Hnone row Hrow). reflexivity.
Qed.

Lemma no_numeric_column_is_fatal_witness :
  last_year_balance_stage (fun _ => None) (fun _ => [])
    (Some [ (txt "Balance sheet", [ [VStr (txt "Cash"); VNone; VStr (txt "n/a")] ]) ])
    (sheet_of 3 5 []) "Processing budget data"%string
  = (stage_last_year_balance, Raise ValueError).
Proof.
  apply (no_numeric_column_is_fatal (fun _ => None) (fun _ => [])
           [ (txt "Balance sheet", [ [VStr (txt "Cash"); VNone; VStr (txt "n/a")] ]) ]
           [ [VStr (txt "Cash"); VNone; VStr (txt "n/a")] ]).
  - vm_compute. reflexivity.
  - vm_compute. lia.
  - intros row Hin. reflexivity.
Defined.

(** X24: the write of last year's balance sheet touches column 5 only.
    When the stage ends without an exception, the stage label is "Writing
    last year's balance sheet values", no fill has changed, and a cell has
    changed only if it is the column-5 cell of a row of the sheet whose
    column-1 text, stripped, is a label of last year's balance dict; that
    cell then holds the number recorded for the label. *)
Theorem last_year_balance_write (parse_number : text -> option Q)
  (str_of_number : Q -> text) (sheets : grid_book) (df0 : grid) (ws ws' : worksheet)
  (stage_before stage_after : string) :
  last_balance_grid sheets = Some df0 ->
  last_year_balance_stage parse_number str_of_number (Some sheets) ws stage_before
  = (stage_after, Ok ws') ->
  exists balance_dict,
    balance_dict_of parse_number str_of_number df0 = Ok balance_dict
    /\ stage_after = stage_writing_last_balance
    /\ forall r c,
         cell_fill ws' r c = cell_fill ws r c
         /\ cell_value ws' r c
            = match cell_value ws r 1 with
              | VStr hdr =>
                  match dict_get balance_dict (strip hdr) with
                  | Some v =>
                      if decide (c = 5%nat /\ (1 <= r <= max_row ws)%nat) then VNum v
                      else cell_value ws r c
                  | None => cell_value ws r c
                  end
              | _ => cell_value ws r c
              end.
Proof.
  intros Hsheet H.
  unfold last_year_balance_stage, stage_bind, reraise, set_stage, stage_ret, lift in H.
  rewrite Hsheet in H.
  destruct (balance_dict_of parse_number str_of_number df0) as [bd|]; [|discriminate].
  injection H as <- <-. exists bd. split; [reflexivity|]. split; [reflexivity|].
  intros r c. unfold write_last_year_balance.
  destruct (write_last_rows bd (max_row ws + 1 - 1) 1 ws r c) as [Hf Hv].
  split; [exact Hf|]. unfold range. rewrite Hv.
  destruct (cell_value ws r 1) as [|hdr|]; try reflexivity.
  destruct (dict_get bd (strip hdr)); [|reflexivity].
  cell_cases.
Qed.

Lemma last_year_balance_write_witness :
  cell_value
    (write_last_year_balance [(txt "Cash", 1000%Q)]
       (sheet_of 3 5 [ ((2, 1), VStr (txt " Cash ")); ((2, 5), VNum 7) ])) 2 5
  = VNum 1000.
Proof.
  destruct (last_year_balance_write
    (fun s => if text_eqb s (txt "1000") then Some 1000%Q else None) (fun _ => [])
    [ (txt "Balance sheet", [ [VStr (txt "Cash"); VNone; VStr (txt "1,000")] ]) ]
    [ [VStr (txt "Cash"); VNone; VStr (txt "1,000")] ]
    (sheet_of 3 5 [ ((2, 1), VStr (txt " Cash ")); ((2, 5), VNum 7) ])
    (write_last_year_balance [(txt "Cash", 1000%Q)]
       (sheet_of 3 5 [ ((2, 1), VStr (txt " Cash ")); ((2, 5), VNum 7) ]))
    "Processing budget data" stage_writing_last_balance)
    as (bd & Hbd & _ & Hcells).
  - vm_compute. reflexivity.
  - vm_compute. reflexivity.
  - destruct (Hcells 2%nat 5%nat) as [_ Hv]. rewrite Hv.
    assert (Hd : bd = [(txt "Cash", 1000%Q)]).
    { assert (E : balance_dict_of
                    (fun s => if text_eqb s (txt "1000") then Some 1000%Q else None)
                    (fun _ => [])
                    [ [VStr (txt "Cash"); VNone; VStr (txt "1,000")] ]
                  = Ok [(txt "Cash", 1000%Q)]) by (vm_compute; reflexivity).
      rewrite E in Hbd. injection Hbd as <-. reflexivity. }
    rewrite Hd. vm_compute. reflexivity.
Defined.

(* ===================================================================== *)
(** ** Prior-year lines, template rows and fixed budget lines *)
(* ===================================================================== *)

(** *** Merged lines *)

Lemma dict_get_remove_same {V} (d : dict V) (k : text) :
  List.NoDup (dict_keys d) -> dict_get (dict_remove d k) k = None.
Proof.
  induction d as [|[k' v'] d IH]; intros Hnd; cbn; [reflexivity|].
  apply NoDup_cons_iff in Hnd as [Hnotin Hnd].
  destruct (text_eqb k k') eqn:E.
  - apply text_eqb_eq in E as ->.
    destruct (dict_get d k') as [v|] eqn:Hg; [|reflexivity].
    apply dict_get_key in Hg. contradiction.
  - cbn. rewrite E. apply IH, Hnd.
Qed.

Lemma dict_remove_keys {V} (d : dict V) (k k' : text) :
  In k' (dict_keys (dict_remove d k)) -> In k' (dict_keys d).
Proof.
  induction d as [|[k0 v0] d IH]; cbn; [trivial|].
  destruct (text_eqb k k0); cbn; [auto|]. intros [->|H]; auto.
Qed.

Lemma dict_remove_nodup {V} (d : dict V) (k : text) :
  List.NoDup (dict_keys d) -> List.NoDup (dict_keys (dict_remove d k)).
Proof.
  induction d as [|[k0 v0] d IH]; intros Hnd; cbn; [constructor|].
  apply NoDup_cons_iff in Hnd as [Hnotin Hnd].
  destruct (text_eqb k k0); cbn; [exact Hnd|].
  constructor; [|apply IH, Hnd]. intros Hin. apply Hnotin.
  exact (dict_remove_keys d k k0 Hin).
Qed.

(** X25: the two pairs of lines that the prior-year extraction merges.
    When both lines of a pair are present (in a dict, whose keys are
    distinct), the first line takes the sums of the two, the second line
    is gone, and a missing amount ([NaN]) on either side makes the sum
    missing; when one of the two is absent, nothing changes.  No other
    line is touched. *)
Theorem merged_pair_of_lines (k1 k2 : string) (d : dict (option Q * option Q)) :
  List.NoDup (dict_keys d) -> txt k1 <> txt k2 ->
  (forall a1 b1 a2 b2,
     dict_get d (txt k1) = Some (a1, b1) -> dict_get d (txt k2) = Some (a2, b2) ->
     dict_get (merge_pair k1 k2 d) (txt k1) = Some (nan_add a1 a2, nan_add b1 b2)
     /\ dict_get (merge_pair k1 k2 d) (txt k2) = None)
  /\ (dict_get d (txt k1) = None \/ dict_get d (txt k2) = None -> merge_pair k1 k2 d = d)
  /\ forall k, k <> txt k1 -> k <> txt k2 -> dict_get (merge_pair k1 k2 d) k = dict_get d k.
Proof.
  intros Hnd Hne. unfold merge_pair. split; [|split].
  - intros a1 b1 a2 b2 -> ->. rewrite !dict_get_set, text_eqb_refl. split; [reflexivity|].
    destruct (text_eqb (txt k2) (txt k1)) eqn:E; [apply text_eqb_eq in E; congruence|].
    apply dict_get_remove_same, dict_remove_nodup, Hnd.
  - intros [-> | H]; [reflexivity|].
    destruct (dict_get d (txt k1)) as [[a1 b1]|]; [|reflexivity]. rewrite H. reflexivity.
  - intros k H1 H2.
    destruct (dict_get d (txt k1)) as [[a1 b1]|]; [|reflexivity].
    destruct (dict_get d (txt k2)) as [[a2 b2]|]; [|reflexivity].
    rewrite dict_get_set.
    destruct (text_eqb k (txt k1)) eqn:E; [apply text_eqb_eq in E; contradiction|].
    rewrite !dict_get_remove_other by assumption. reflexivity.
Qed.

Lemma merged_pair_of_lines_witness :
  dict_get
    (merge_pair "Mortgage /Loan Interest" "Loan Interest (CSIT to Family Mortgage)"
       [ (txt "Mortgage /Loan Interest", (Some 10%Q, None));
         (txt "Loan Interest (CSIT to Family Mortgage)", (Some 5%Q, Some 2%Q)) ])
    (txt "Mortgage /Loan Interest")
  = Some (nan_add (Some 10%Q) (Some 5%Q), nan_add None (Some 2%Q)).
Proof.
  refine (proj1 (proj1 (merged_pair_of_lines
    "Mortgage /Loan Interest" "Loan Interest (CSIT to Family Mortgage)"
    [ (txt "Mortgage /Loan Interest", (Some 10%Q, None));
      (txt "Loan Interest (CSIT to Family Mortgage)", (Some 5%Q, Some 2%Q)) ] _ _)
    (Some 10%Q) None (Some 5%Q) (Some 2%Q) _ _)).
  - repeat constructor; cbn; intros H; repeat destruct H as [H|H]; try discriminate; exact H.
  - vm_compute. discriminate.
  - vm_compute. reflexivity.
  - vm_compute. reflexivity.
Defined.

(** *** The rows of the Income_statement sheet *)

Lemma template_rows_from (ws : worksheet) (lbl : text) (len a : nat) (d0 : dict nat) (r : nat) :
  dict_get
    (fold_left (fun d r =>
                  match cell_value ws r 1 with
                  | VStr s => dict_set d (upper (strip s)) r
                  | _ => d
                  end) (seq a len) d0) lbl = Some r ->
  (dict_get d0 lbl = Some r
   /\ forall r', (a <= r' < a + len)%nat -> row_label ws r' <> Some lbl)
  \/ ((a <= r < a + len)%nat /\ row_label ws r = Some lbl
      /\ forall r', (r < r' < a + len)%nat -> row_label ws r' <> Some lbl).
Proof.
  revert a d0. induction len as [|len IH]; intros a d0 H; cbn [seq fold_left] in H.
  - left. split; [exact H|]. intros; lia.
  - destruct (IH (S a) _ H) as [[Hd Hno] | (Hr & Hl & Hlast)].
    + unfold row_label in *. destruct (cell_value ws a 1) as [|s|q] eqn:Ea.
      * left. split; [exact Hd|]. intros r' Hr'.
        destruct (Nat.eq_dec r' a) as [->|]; [rewrite Ea; discriminate | apply Hno; lia].
      * rewrite dict_get_set in Hd. destruct (text_eqb lbl (upper (strip s))) eqn:E.
        -- injection Hd as <-. apply text_eqb_eq in E. right. split; [lia|].
           rewrite Ea. split; [congruence|]. intros r' Hr'. apply Hno. lia.
        -- left. split; [exact Hd|]. intros r' Hr'.
           destruct (Nat.eq_dec r' a) as [->|]; [|apply Hno; lia].
           rewrite Ea. intros [= E']. apply text_eqb_neq in E. congruence.
      * left. split; [exact Hd|]. intros r' Hr'.
        destruct (Nat.eq_dec r' a) as [->|]; [rewrite Ea; discriminate | apply Hno; lia].
    + right. split; [lia|]. split; [exact Hl|]. intros r' Hr'. apply Hlast. lia.
Qed.

Lemma template_rows_found (ws : worksheet) (lbl : text) (len a : nat) (d0 : dict nat) (r0 : nat) :
  (a <= r0 < a + len)%nat -> row_label ws r0 = Some lbl ->
  exists r,
    dict_get
      (fold_left (fun d r =>
                    match cell_value ws r 1 with
                    | VStr s => dict_set d (upper (strip s)) r
                    | _ => d
                    end) (seq a len) d0) lbl = Some r.
Proof.
  revert a d0. induction len as [|len IH]; intros a d0 Hr Hl; [lia|].
  cbn [seq fold_left].
  destruct (Nat.eq_dec r0 a) as [->|Hne]; [|apply IH; [lia | exact Hl]].
  unfold row_label in Hl. destruct (cell_value ws a 1) as [|s|q]; try discriminate.
  injection Hl as Hl.
  destruct (Nat.eq_dec len 0) as [->|Hlen].
  - cbn. rewrite dict_get_set, <- Hl, text_eqb_refl. eauto.
  - destruct (dict_get (fold_left _ (seq (S a) len) (dict_set d0 (upper (strip s)) a)) lbl)
      as [r|] eqn:E; [eauto|].
    exfalso. clear IH.
    assert (Hgen : forall len a d, dict_get d lbl <> None ->
              dict_get
                (fold_left (fun d r =>
                              match cell_value ws r 1 with
                              | VStr s => dict_set d (upper (strip s)) r
                              | _ => d
                              end) (seq a len) d) lbl <> None).
    { clear. intros len. induction len as [|len IH]; intros a d Hd; cbn [seq fold_left];
        [exact Hd|].
      apply IH. destruct (cell_value ws a 1) as [|s|q]; try exact Hd.
      rewrite dict_get_set. destruct (text_eqb lbl (upper (strip s))); [discriminate|exact Hd]. }
    apply (Hgen len (S a) (dict_set d0 (upper (strip s)) a)); [|exact E].
    rewrite dict_get_set, <- Hl, text_eqb_refl. discriminate.
Qed.

(** X26: [template_rows] sends a label to the last row that bears it.
    An entry [lbl -> r] means that [r] is a row of the sheet whose
    column-1 text, stripped and upper-cased, is [lbl], and that no row
    below it has that label; and every label of a text cell of column 1
    has an entry. *)
Theorem template_rows_last_row (ws : worksheet) (lbl : text) :
  (forall r, dict_get (template_rows ws) lbl = Some r ->
     (1 <= r <= max_row ws)%nat /\ row_label ws r = Some lbl
     /\ forall r', (r < r' <= max_row ws)%nat -> row_label ws r' <> Some lbl)
  /\ (forall r0, (1 <= r0 <= max_row ws)%nat -> row_label ws r0 = Some lbl ->
        exists r, dict_get (template_rows ws) lbl = Some r).
Proof.
  unfold template_rows, range. split.
  - intros r H. apply template_rows_from in H as [[Hd _] | (Hr & Hl & Hlast)];
      [discriminate|].
    split; [lia|]. split; [exact Hl|]. intros r' Hr'. apply Hlast. lia.
  - intros r0 Hr0 Hl. apply (template_rows_found ws lbl _ 1 [] r0); [lia | exact Hl].
Qed.

(** *** The fixed budget lines *)

Lemma index_from_shift {A} (f : A -> bool) (l : list A) (i k : nat) :
  index_from f l (i + k) = option_map (fun a => (a + k)%nat) (index_from f l i).
Proof.
  revert i. induction l as [|x l IH]; intros i; cbn; [reflexivity|].
  destruct (f x); [reflexivity|]. apply (IH (S i)).
Qed.

Lemma first_before_last {A} (f : A -> bool) (l : list A) (i c : nat) (acc : option nat) :
  last_index_from f l i acc = Some c ->
  (exists a, index_from f l i = Some a /\ (i <= a <= c)%nat)
  \/ (index_from f l i = None /\ acc = Some c).
Proof.
  revert i acc. induction l as [|x l IH]; intros i acc H; cbn in *; [right; auto|].
  destruct (f x) eqn:E.
  - left. exists i. split; [reflexivity|].
    destruct (IH (S i) (Some i) H) as [(a & Ha & Hle) | (_ & [= <-])]; lia.
  - destruct (IH (S i) acc H) as [(a & Ha & Hle) | Hn]; [|right; exact Hn].
    left. exists a. split; [exact Ha | lia].
Qed.

Lemma locate_budget_selected (df : grid) (file_year : Z) (selected_month : text)
  (lay : budget_layout) :
  locate_budget df file_year selected_month = Ok lay ->
  last_index_from (fun m => value_eqb (VStr selected_month) m)
    (firstn 12 (skipn 2 (nth (hdr lay) df []))) 2 None = Some (sel_col lay).
Proof.
  intros Hlay. unfold locate_budget in Hlay.
  destruct (has_column df 0) as [[]|]; cbn [mbind result_bind] in Hlay; [|discriminate].
  destruct (has_column df 2) as [[]|]; cbn [mbind result_bind] in Hlay; [|discriminate].
  destruct (first_index (fun row => _ && _) df) as [h|]; cbn [mbind result_bind] in Hlay;
    [|discriminate].
  unfold build_month_to_col, range in Hlay.
  rewrite !month_to_col_get in Hlay by (rewrite length_firstn; lia).
  cbn [vdict_get] in Hlay.
  destruct (last_index_from (fun m => value_eqb (VStr selected_month) m) _ 2 None)
    as [sel|] eqn:Hsel; cbv beta iota in Hlay; [|discriminate].
  destruct (first_index (col0_is (txt "Rental Revenue")) df) as [start|];
    cbn [mbind result_bind] in Hlay; [|discriminate].
  destruct (first_index (col0_is (if existsb _ df then _ else _)) df) as [e|];
    cbn [mbind result_bind] in Hlay; [|discriminate].
  destruct (last_index_from (fun m => value_eqb (List.last _ VNone) m) _ 2 None)
    as [dec|]; cbv beta iota in Hlay; [|discriminate].
  injection Hlay as <-. cbn [hdr sel_col]. exact Hsel.
Qed.

Lemma merge_triples_other (k1 k2 : string) (d : dict triple) (k : text) :
  k <> txt k1 -> k <> txt k2 -> dict_get (merge_triples k1 k2 d) k = dict_get d k.
Proof.
  intros H1 H2. unfold merge_triples.
  destruct (dict_get d (txt k1)) as [t1|]; [|reflexivity].
  destruct (dict_get d (txt k2)) as [t2|]; [|reflexivity].
  rewrite dict_get_set.
  destruct (text_eqb k (txt k1)) eqn:E; [apply text_eqb_eq in E; contradiction|].
  rewrite !dict_get_remove_other by assumption. reflexivity.
Qed.

(** X27: the two fixed budget lines.  Once the budget layout is found,
    the finishing statements raise nothing, and "Amortization" and
    "Depreciation" hold the constants 26500 and 121963 a month: the month
    value is the constant, the year-to-date value the constant times the
    month count, the annual value twelve times the constant, whatever the
    budget sheet holds under those labels.  The month count is the place
    of the first header cell that reads the selected month, which is not
    after the column the year-to-date sums run to.  A line that is neither
    fixed nor one of the four merged ones is left as extracted. *)
Theorem fixed_budget_lines (df : grid) (file_year : Z) (selected_month : text)
  (lay : budget_layout) (results : dict triple) :
  locate_budget df file_year selected_month = Ok lay ->
  let months := firstn 12 (skipn 2 (nth (hdr lay) df [])) in
  exists count final,
    finish_budget months selected_month results = Ok final
    /\ index_from (value_eqb (VStr selected_month)) months 0 = Some (count - 1)%nat
    /\ (1 <= count <= sel_col lay - 1)%nat
    /\ dict_get final (txt "Amortization") = Some (fixed_line 26500 count)
    /\ dict_get final (txt "Depreciation") = Some (fixed_line 121963 count)
    /\ forall k,
         ~ In k [ txt "Amortization"; txt "Depreciation";
                  txt "Mortgage /Loan Interest";
                  txt "Loan Interest (CSIT to Family Mortgage)";
                  txt "CP Rail Lease (Laird)"; txt "Rent PUD/CSITPM Head Office" ] ->
         dict_get final k = dict_get results k.
Proof.
  intros Hlay months. pose proof (locate_budget_selected df file_year selected_month lay Hlay)
    as Hsel. fold months in Hsel.
  apply first_before_last in Hsel as [(a & Ha & Hle) | (_ & [=])].
  change 2%nat with (0 + 2)%nat in Ha. rewrite index_from_shift in Ha.
  destruct (index_from (fun m => value_eqb (VStr selected_month) m) months 0) as [i|] eqn:Hi;
    cbn in Ha; [|discriminate].
  injection Ha as <-.
  exists (i + 1)%nat. eexists. unfold finish_budget, months_count.
  change (value_eqb (VStr selected_month)) with (fun m => value_eqb (VStr selected_month) m).
  rewrite Hi. cbn [mbind result_bind]. split; [reflexivity|].
  split; [f_equal; lia|]. split; [lia|].
  split; [|split].
  - rewrite !dict_get_set, text_eqb_refl.
    destruct (text_eqb (txt "Amortization") (txt "Depreciation")) eqn:E; [|reflexivity].
    vm_compute in E. discriminate.
  - rewrite dict_get_set, text_eqb_refl. reflexivity.
  - intros k Hk. rewrite !dict_get_set.
    destruct (text_eqb k (txt "Depreciation")) eqn:E1;
      [apply text_eqb_eq in E1; destruct Hk; subst k; right; left; reflexivity|].
    destruct (text_eqb k (txt "Amortization")) eqn:E2;
      [apply text_eqb_eq in E2; destruct Hk; subst k; left; reflexivity|].
    rewrite !merge_triples_other; try reflexivity; intros ->; apply Hk; cbn; tauto.
Qed.

Lemma fixed_budget_lines_witness :
  exists count final,
    finish_budget
      [VStr (txt "Jan"); VStr (txt "Feb"); VStr (txt "Mar"); VStr (txt "Total")]
      (txt "Feb") [(txt "Amortization", (None, 1%Q, None))] = Ok final
    /\ dict_get final (txt "Amortization") = Some (fixed_line 26500 count)
    /\ count = 2%nat.
Proof.
  destruct (fixed_budget_lines
    [ [VNum 2025; VNone; VStr (txt "Jan"); VStr (txt "Feb"); VStr (txt "Mar");
       VStr (txt "Total")];
      [VStr (txt "Rental Revenue"); VNone; VNum 1; VNum 2; VNum 3; VNum 6];
      [VStr (txt "NET PROFIT/(LOSS)"); VNone; VNum 1; VNum 1; VNum 1; VNum 3] ]
    2025 (txt "Feb")
    {| hdr := 0; sel_col := 3; total_col := 6; run_start := 1; run_end := 3 |}
    [(txt "Amortization", (None, 1%Q, None))])
    as (count & final & Hfin & Hidx & Hbound & Ham & _).
  - vm_compute. reflexivity.
  - exists count, final. split; [exact Hfin|]. split; [exact Ham|].
    change (index_from _ _ 0) with (Some 1%nat) in Hidx. injection Hidx as Hidx. lia.
Defined.

(* ===================================================================== *)
(** ** The Income_statement sheet *)
(* ===================================================================== *)

Section StatementFacts.

Variable wratio : text -> text -> Z.

Lemma write_budget_line_targets (rows : dict nat) (last_mapped : dict (option Q * option Q))
  (raw : text) (t : triple) (w : list cell_write) (row col : nat) (v : option Q) :
  write_budget_line wratio rows last_mapped raw t = Ok w ->
  In (row, col, v) w ->
  In col [3; 9; 15; 5; 11]%nat
  /\ exists lbl, dict_get rows lbl = Some row /\ in_skip_labels lbl = false.
Proof.
  intros H Hin. unfold write_budget_line in H. destruct t as [[m_val y_val] a_val].
  assert (Hgen : forall lbl_res : result (option text),
    match lbl_res with
    | Ok (Some lbl) =>
        if in_skip_labels lbl then Ok []
        else
          match dict_get rows lbl with
          | None => Raise KeyError
          | Some row =>
              Ok ([(row, 3%nat, m_val); (row, 9%nat, Some y_val); (row, 15%nat, a_val)]
                  ++ match dict_get last_mapped lbl with
                     | Some (am, ay) => [(row, 5%nat, am); (row, 11%nat, ay)]
                     | None => []
                     end)
          end
    | Ok None => Ok []
    | Raise e => Raise e
    end = Ok w ->
    In col [3; 9; 15; 5; 11]%nat
    /\ exists lbl, dict_get rows lbl = Some row /\ in_skip_labels lbl = false).
  { intros [[lbl|]|e] Hw; [|injection Hw as <-; contradiction|discriminate].
    destruct (in_skip_labels lbl) eqn:Hskip; [injection Hw as <-; contradiction|].
    destruct (dict_get rows lbl) as [row0|] eqn:Hrow; [|discriminate].
    injection Hw as <-.
    assert (Hr : row = row0 /\ In col [3; 9; 15; 5; 11]%nat).
    { cbn [app In] in Hin.
      destruct Hin as [[= <- <- _]|[[= <- <- _]|[[= <- <- _]|Hin]]];
        try (split; [reflexivity | cbn; tauto]).
      destruct (dict_get last_mapped lbl) as [[am ay]|]; [|contradiction].
      cbn in Hin. destruct Hin as [[= <- <- _]|[[= <- <- _]|[]]];
        (split; [reflexivity | cbn; tauto]). }
    destruct Hr as [-> Hc]. split; [exact Hc|]. exists lbl. split; assumption. }
  destruct (dict_get norm_map (upper (strip raw))) as [[lbl|]|].
  - apply (Hgen (Ok (Some lbl))). exact H.
  - injection H as <-. contradiction.
  - apply (Hgen (template_label wratio rows (upper (strip raw)))).
    destruct (template_label wratio rows (upper (strip raw))) as [[lbl|]|]; exact H.
Qed.

Lemma write_budget_lines_targets (rows : dict nat) (last_mapped : dict (option Q * option Q))
  (results : dict triple) (row col : nat) (v : option Q) :
  In (row, col, v) (fst (write_budget_lines wratio rows last_mapped results)) ->
  In col [3; 9; 15; 5; 11]%nat
  /\ exists lbl, dict_get rows lbl = Some row /\ in_skip_labels lbl = false.
Proof.
  induction results as [|[raw t] rest IH]; cbn [write_budget_lines]; [intros []|].
  destruct (write_budget_line wratio rows last_mapped raw t) as [w|] eqn:Hw; [|intros []].
  destruct (write_budget_lines wratio rows last_mapped rest) as [more e]. cbn [fst] in *.
  intros Hin. apply in_app_or in Hin as [Hin|Hin]; [|exact (IH Hin)].
  exact (write_budget_line_targets rows last_mapped raw t w row col v Hw Hin).
Qed.

End StatementFacts.

(** X28: the budget and prior-year figures go into five columns of the
    Income_statement sheet and never onto a total line.  Every assignment
    of the loop "Write budgets and actuals", whether the loop ends or
    raises, is to column 3, 9, 15, 5 or 11 of a row of the sheet whose
    column-1 text, stripped and upper-cased, is none of TOTAL REVENUE,
    TOTAL OPERATING EXPENSES, NET OPERATING INCOME (LOSS) and NET RENTAL
    INCOME (LOSS). *)
Theorem income_statement_writes (wratio : text -> text -> Z) (ws : worksheet)
  (results : dict triple) (last_results : dict (option Q * option Q))
  (row col : nat) (v : option Q) :
  In (row, col, v) (fst (write_income_statement wratio ws results last_results)) ->
  In col [3; 9; 15; 5; 11]%nat
  /\ (1 <= row <= max_row ws)%nat
  /\ exists lbl, row_label ws row = Some lbl /\ in_skip_labels lbl = false.
Proof.
  unfold write_income_statement.
  destruct (map_last_lines wratio (template_rows ws) [] last_results) as [last_mapped|];
    [|intros []].
  intros Hin. apply write_budget_lines_targets in Hin as (Hcol & lbl & Hrow & Hskip).
  split; [exact Hcol|].
  unfold template_rows, range in Hrow.
  apply template_rows_from in Hrow as [[Hd _] | (Hr & Hl & _)]; [discriminate|].
  split; [lia|]. exists lbl. split; assumption.
Qed.

Lemma income_statement_writes_witness :
  In 3%nat [3; 9; 15; 5; 11]%nat
  /\ (1 <= 2 <= 3)%nat
  /\ exists lbl,
       row_label (sheet_of 3 15 [ ((2, 1), VStr (txt " Rental Income ")) ]) 2 = Some lbl
       /\ in_skip_labels lbl = false.
Proof.
  apply (income_statement_writes (fun _ _ => 0%Z)
           (sheet_of 3 15 [ ((2, 1), VStr (txt " Rental Income ")) ])
           [ (txt "Rental Revenue", (Some 10%Q, 60%Q, Some 120%Q)) ] []
           2 3 (Some 10%Q)).
  vm_compute. left. reflexivity.
Defined.

(* ===================================================================== *)
(** ** The lines of a parsed section *)
(* ===================================================================== *)

Lemma in_firstn_skipn {A} (l : list A) (n a : nat) (x : A) :
  In x (firstn n (skipn a l)) -> In x l.
Proof.
  revert a n. induction l as [|y l IH]; intros a n H.
  - destruct a, n; cbn in H; contradiction.
  - destruct a as [|a].
    + destruct n as [|n]; cbn in H; [contradiction|].
      destruct H as [->|H]; [left; reflexivity|]. right. exact (IH 0%nat n H).
    + right. exact (IH a n H).
Qed.

Lemma dict_set_keys {V} (d : dict V) (k0 k : text) (v : V) :
  In k (dict_keys (dict_set d k0 v)) -> k = k0 \/ In k (dict_keys d).
Proof.
  induction d as [|[k' v'] d IH]; cbn.
  - intros [<-|[]]. left. reflexivity.
  - destruct (text_eqb k0 k'); cbn; [tauto|].
    intros [->|H]; [right; left; reflexivity|]. destruct (IH H); tauto.
Qed.

Lemma setdefault_zero_keys (d : dict Q) (k0 k : text) :
  In k (dict_keys (setdefault_zero d k0)) -> k = k0 \/ In k (dict_keys d).
Proof.
  unfold setdefault_zero. destruct (dict_get d k0); [tauto | apply dict_set_keys].
Qed.

Lemma section_step_lines (df section : grid) (sum_col i : nat) (res : dict Q) (i' : nat)
  (res' : dict Q) :
  (forall row, In row section -> In row df) -> (i < length section)%nat ->
  (forall k, In k (dict_keys res) -> section_line df k) ->
  section_step section sum_col i res = Ok (i', res') ->
  forall k, In k (dict_keys res') -> section_line df k.
Proof.
  intros Hsub Hi Hres H. unfold section_step in H.
  assert (Hrow : In (nth i section []) df) by (apply Hsub, nth_In, Hi).
  destruct (row_cell (nth i section []) 0) as [|cell_i|q] eqn:Hcell;
    [injection H as _ <-; exact Hres | | injection H as _ <-; exact Hres].
  destruct (starts_with accounts_receivable (upper (strip cell_i))) eqn:Hs;
    destruct (text_eqb (upper (strip cell_i)) accounts_receivable) eqn:He; cbn [negb andb] in H.
  - injection H as _ <-. intros k Hk. apply setdefault_zero_keys in Hk as [->|Hk];
      [left; reflexivity | exact (Hres k Hk)].
  - destruct (row_nums (nth i section [])); injection H as _ <-; [exact Hres|].
    intros k Hk. apply dict_set_keys in Hk as [->|Hk]; [left; reflexivity|].
    apply setdefault_zero_keys in Hk as [->|Hk]; [left; reflexivity | exact (Hres k Hk)].
  - injection H as _ <-. intros k Hk. apply setdefault_zero_keys in Hk as [->|Hk];
      [left; reflexivity | exact (Hres k Hk)].
  - assert (Hline : section_line df (strip cell_i)).
    { right. split; [exact Hs|]. exists (nth i section []), cell_i. auto. }
    destruct (nonzero (row_nums (nth i section []))).
    + destruct (group_total sum_col (skipn (i + 1) section) (i + 1) 0) as [[j total]|];
        cbn in H; [|discriminate].
      injection H as _ <-. intros k Hk.
      apply dict_set_keys in Hk as [->|Hk]; [exact Hline | exact (Hres k Hk)].
    + injection H as _ <-. intros k Hk.
      apply dict_set_keys in Hk as [->|Hk]; [exact Hline | exact (Hres k Hk)].
Qed.

Lemma section_loop_lines (df section : grid) (sum_col : nat) (fuel i : nat) (res res' : dict Q) :
  (forall row, In row section -> In row df) ->
  (forall k, In k (dict_keys res) -> section_line df k) ->
  section_loop fuel section sum_col i res = Some (Ok res') ->
  forall k, In k (dict_keys res') -> section_line df k.
Proof.
  intros Hsub. revert i res. induction fuel as [|fuel IH]; intros i res Hres H; cbn in H.
  - destruct (Nat.leb_spec (length section) i); [|discriminate].
    injection H as <-. exact Hres.
  - destruct (Nat.leb_spec (length section) i) as [|Hlt]; [injection H as <-; exact Hres|].
    destruct (section_step section sum_col i res) as [[i1 res1]|] eqn:Hstep; [|discriminate].
    apply (IH i1 res1); [|exact H].
    exact (section_step_lines df section sum_col i res i1 res1 Hsub Hlt Hres Hstep).
Qed.

(** X29: the lines of a parsed section.  Every line that
    [parse_section] returns is either "ACCOUNTS RECEIVABLE" or the
    stripped column-0 text of a row of the grid; and no line other than
    "ACCOUNTS RECEIVABLE" begins, in upper case, with ACCOUNTS RECEIVABLE:
    the sub-accounts of accounts receivable are never lines of their
    own. *)
Theorem parsed_section_lines (df : grid) (start_label total_label : string) (res : dict Q)
  (k : text) :
  parse_section df start_label total_label = Some res ->
  In k (dict_keys res) -> section_line df k.
Proof.
  unfold parse_section. intros H Hk.
  destruct (has_column df 0); [|injection H as <-; contradiction].
  destruct (index_from (col0_is (txt start_label)) df 0) as [start_idx|];
    [|injection H as <-; contradiction].
  destruct (index_from (col0_contains_ic total_label) df 0) as [end_idx|];
    [|injection H as <-; contradiction].
  destruct (section_loop _ _ _ 0 []) as [[res0|e]|] eqn:Hloop;
    [|injection H as <-; contradiction|discriminate].
  injection H as <-.
  refine (section_loop_lines df _ _ _ _ _ _ _ _ Hloop k Hk).
  - intros row Hin. exact (in_firstn_skipn _ _ _ _ Hin).
  - intros k' [].
Qed.

Lemma parsed_section_lines_witness :
  section_line
    [ [VStr (txt "ASSETS"); VNone];
      [VStr (txt " Cash "); VNum 5];
      [VStr (txt "Accounts Receivable - Trade"); VNum 7];
      [VStr (txt "TOTAL ASSETS"); VNum 12] ]
    (txt "Cash").
Proof.
  apply (parsed_section_lines
    [ [VStr (txt "ASSETS"); VNone];
      [VStr (txt " Cash "); VNum 5];
      [VStr (txt "Accounts Receivable - Trade"); VNum 7];
      [VStr (txt "TOTAL ASSETS"); VNum 12] ]
    "ASSETS" "TOTAL ASSETS"
    [(txt "Cash", 5%Q); (txt "ACCOUNTS RECEIVABLE", (0 + 7)%Q)]).
  - vm_compute. reflexivity.
  - left. reflexivity.
Defined.

(* ===================================================================== *)
(** ** The value column *)
(* ===================================================================== *)

Lemma find_header_column_cases (p : list atom) (fallback : nat) (ws : worksheet) :
  (find_header_column p fallback ws = fallback
   /\ forall r c, (1 <= r <= 5)%nat -> (1 <= c <= max_column ws)%nat -> ~ header_hit p ws r c)
  \/ ((1 <= find_header_column p fallback ws <= max_column ws)%nat
      /\ exists r, (1 <= r <= 5)%nat /\ header_hit p ws r (find_header_column p fallback ws)).
Proof.
  unfold find_header_column.
  destruct (List.find _ _) as [[r c]|] eqn:Hfind.
  - right. apply find_some in Hfind as [Hin Hhit]. cbn [fst snd] in *.
    apply in_flat_map in Hin as (r' & Hr & Hin). apply in_map_iff in Hin as (c' & [= <- <-] & Hc).
    apply in_range in Hr, Hc. split; [lia|]. exists r'. split; [lia|].
    unfold header_hit. destruct (cell_value ws r' c') as [|s|q] eqn:E; try discriminate.
    exists s. split; [reflexivity | exact Hhit].
  - left. split; [reflexivity|]. intros r c Hr Hc (s & Hs & Hhit).
    assert (Hin : In (r, c)
              (List.flat_map (fun r => List.map (fun c => (r, c)) (range 1 (max_column ws + 1)))
                 (range 1 6))).
    { apply in_flat_map. exists r. split; [apply in_range; lia|].
      apply in_map. apply in_range. lia. }
    apply (find_none _ _ Hfind) in Hin. cbn [fst snd] in Hin. rewrite Hs in Hin. congruence.
Qed.

(** X30: the value column of an income sheet.  [find_ytd_column] returns
    a column of the sheet that holds, in one of the rows 1 to 5, a text in
    which [y.?t.?d] is found, letter case apart; when no such cell exists
    it returns 8, whatever the width of the sheet.  [find_month_column]
    does the same for [Month], with 2 as its fallback. *)
Theorem value_column_is_a_header_or_the_fallback (ws : worksheet) :
  ((find_ytd_column ws = 8%nat
    /\ forall r c, (1 <= r <= 5)%nat -> (1 <= c <= max_column ws)%nat ->
         ~ header_hit [Lit 121%N; Opt 46%N; Lit 116%N; Opt 46%N; Lit 100%N] ws r c)
   \/ ((1 <= find_ytd_column ws <= max_column ws)%nat
       /\ exists r, (1 <= r <= 5)%nat
            /\ header_hit [Lit 121%N; Opt 46%N; Lit 116%N; Opt 46%N; Lit 100%N] ws r
                 (find_ytd_column ws)))
  /\ ((find_month_column ws = 2%nat
       /\ forall r c, (1 <= r <= 5)%nat -> (1 <= c <= max_column ws)%nat ->
            ~ header_hit (lits "Month") ws r c)
      \/ ((1 <= find_month_column ws <= max_column ws)%nat
          /\ exists r, (1 <= r <= 5)%nat
               /\ header_hit (lits "Month") ws r (find_month_column ws))).
Proof.
  split.
  - exact (find_header_column_cases _ 8 ws).
  - exact (find_header_column_cases (lits "Month") 2 ws).
Qed.
